(** * stylegan2_pytorch/cli.py: checkpoint callback, training driver, dispatch

    A shallow embedding of [stylegan2_pytorch/cli.py].  Python values are an
    inductive type, dictionaries are [gmap string value] living in a heap of
    objects (so that aliasing of [model_args] is visible), module globals are
    a record, and every call into an external collaborator (the operating
    system, the blob-store SDK, torch, the Trainer) is a [call] answered by
    an oracle over an abstract world and recorded in a log.

    Strings are ASCII strings: one [ascii] is one character.  A float is
    carried as its literal and read as the IEEE 754 double that Python
    makes of it; what the code computes with floats (a truth value, a
    comparison with an int, [int % float]) is computed on that double; a
    string that is no float literal stands for no Python float.  The
    training loop runs on fuel, since the number of its turns is up to the
    Trainer. *)

From Stdlib Require Import ZArith Lia String Ascii List.
From stdpp Require Import base option strings list gmap pretty.

Local Open Scope Z_scope.

(** ** Python strings *)

Module PyStr.

(** [s.startswith(p)] *)
Definition startswith (s p : string) : bool := String.prefix p s.

(** [s.endswith(suf)] *)
Fixpoint endswith (s suf : string) : bool :=
  String.eqb s suf ||
  match s with
  | EmptyString => false
  | String _ s' => endswith s' suf
  end.

Definition is_digit (c : ascii) : bool :=
  let n := nat_of_ascii c in (48 <=? n)%nat && (n <=? 57)%nat.

Definition digit_val (c : ascii) : Z := Z.of_nat (nat_of_ascii c) - 48.

Fixpoint int_acc (acc : Z) (s : string) : Z :=
  match s with
  | EmptyString => acc
  | String c s' => int_acc (10 * acc + digit_val c) s'
  end.

(** [int(s)] on a string of decimal digits (leading zeros allowed). *)
Definition int (s : string) : Z := int_acc 0 s.

Fixpoint all_digits (s : string) : bool :=
  match s with
  | EmptyString => true
  | String c s' => is_digit c && all_digits s'
  end.

Definition sep : ascii := "/"%char.
Definition newline : ascii := "010"%char.

Definition is_empty (s : string) : bool :=
  match s with EmptyString => true | _ => false end.

(** [(p[:i], p[i:])] with [i = p.rfind('/') + 1]. *)
Fixpoint split_at_last_sep (p : string) : string * string :=
  match p with
  | EmptyString => (EmptyString, EmptyString)
  | String c p' =>
      let '(h, t) := split_at_last_sep p' in
      if is_empty h
      then if Ascii.eqb c sep then (String c EmptyString, t)
           else (EmptyString, String c t)
      else (String c h, t)
  end.

(** [s == '/' * len(s)] *)
Fixpoint all_sep (s : string) : bool :=
  match s with
  | EmptyString => true
  | String c s' => Ascii.eqb c sep && all_sep s'
  end.

(** [s.rstrip('/')] *)
Fixpoint rstrip_sep (s : string) : string :=
  match s with
  | EmptyString => EmptyString
  | String c s' =>
      let r := rstrip_sep s' in
      if is_empty r && Ascii.eqb c sep then EmptyString else String c r
  end.

(** [os.path.split(p)] of posixpath: the tail is everything after the last
    slash; trailing slashes are stripped from the head unless the head
    consists of slashes only. *)
Definition path_split (p : string) : string * string :=
  let '(head, tail) := split_at_last_sep p in
  if negb (is_empty head) && negb (all_sep head)
  then (rstrip_sep head, tail)
  else (head, tail).

(** The tail [.pt] of the pattern [model_(\d+).pt]: any character but a
    newline, then [pt]. *)
Definition dot_pt (s : string) : bool :=
  match s with
  | String c (String "p" (String "t" _)) => negb (Ascii.eqb c newline)
  | _ => false
  end.

(** [(\d+).pt] at the head of [s], returning group 1.  The quantifier is
    greedy: one more digit is consumed first, and the match falls back to
    the shorter group only when the longer one fails. *)
Fixpoint digits_dot_pt (s : string) : option string :=
  match s with
  | EmptyString => None
  | String c s' =>
      if is_digit c then
        match digits_dot_pt s' with
        | Some g => Some (String c g)
        | None => if dot_pt s' then Some (String c EmptyString) else None
        end
      else None
  end.

Fixpoint drop_prefix (p s : string) : option string :=
  match p, s with
  | EmptyString, _ => Some s
  | String a p', String b s' =>
      if Ascii.eqb a b then drop_prefix p' s' else None
  | String _ _, EmptyString => None
  end.

(** [re.match(r'model_(\d+).pt', s)]: [None] when there is no match at the
    start of [s], otherwise the text of group 1. *)
Definition re_match_model (s : string) : option string :=
  match drop_prefix "model_" s with
  | Some rest => digits_dot_pt rest
  | None => None
  end.

End PyStr.

(** ** Python values, exceptions and module globals *)

#[warnings="-register-all"] Inductive value : Type :=
| VNone
| VBool (b : bool)
| VInt (n : Z)
| VFloat (literal : string)
| VStr (s : string)
| VList (items : list value)
| VFunc (name : string)
| VObj (handle : N).

(** The exception classes this file meets.  [FileNotFoundError],
    [PermissionError] and [OtherOSError _] are subclasses of [OSError];
    [Unmodelled] marks a state that no Python run has: a reference to a
    dictionary that does not exist, a float whose literal is none. *)
Inductive exn_class : Type :=
| OSError
| FileNotFoundError
| PermissionError
| OtherOSError (name : string)
| AttributeError
| TypeError
| KeyError
| ValueError
| ZeroDivisionError
| OverflowError
| NanException
| OtherException (name : string)
| Unmodelled.

Record exn : Type := Exn { exn_cls : exn_class; exn_msg : string }.

Global Instance exn_class_eq_dec : EqDecision exn_class.
Proof. solve_decision. Defined.

(** [issubclass(c, parent)] *)
Definition subclass (c parent : exn_class) : bool :=
  bool_decide (c = parent) ||
  match parent, c with
  | OSError, (FileNotFoundError | PermissionError | OtherOSError _) => true
  | _, _ => false
  end.

(** [isinstance(e, cls)] *)
Definition isinstance (e : exn) (cls : exn_class) : bool :=
  subclass (exn_cls e) cls.

Inductive outcome (A : Type) : Type :=
| Ok (a : A)
| Raise (e : exn).
Arguments Ok {A} a.
Arguments Raise {A} e.

(** The five module-level globals of cli.py. *)
Record globals : Type := Globals {
  _blob_service_client : value;
  _container_client : value;
  _delete_old_models : value;
  _upload_models : value;
  _upload_every : value
}.

(** Their values when the module is imported. *)
Definition module_globals : globals :=
  {| _blob_service_client := VNone;
     _container_client := VNone;
     _delete_old_models := VBool false;
     _upload_models := VBool false;
     _upload_every := VInt 10 |}.

(** Assignment to one global. *)
Definition with_blob_service_client (v : value) (g : globals) : globals :=
  {| _blob_service_client := v;
     _container_client := _container_client g;
     _delete_old_models := _delete_old_models g;
     _upload_models := _upload_models g;
     _upload_every := _upload_every g |}.

Definition with_container_client (v : value) (g : globals) : globals :=
  {| _blob_service_client := _blob_service_client g;
     _container_client := v;
     _delete_old_models := _delete_old_models g;
     _upload_models := _upload_models g;
     _upload_every := _upload_every g |}.

Definition with_delete_old_models (v : value) (g : globals) : globals :=
  {| _blob_service_client := _blob_service_client g;
     _container_client := _container_client g;
     _delete_old_models := v;
     _upload_models := _upload_models g;
     _upload_every := _upload_every g |}.

Definition with_upload_models (v : value) (g : globals) : globals :=
  {| _blob_service_client := _blob_service_client g;
     _container_client := _container_client g;
     _delete_old_models := _delete_old_models g;
     _upload_models := v;
     _upload_every := _upload_every g |}.

Definition with_upload_every (v : value) (g : globals) : globals :=
  {| _blob_service_client := _blob_service_client g;
     _container_client := _container_client g;
     _delete_old_models := _delete_old_models g;
     _upload_models := _upload_models g;
     _upload_every := v |}.

(** ** Python floats

    A float is an IEEE 754 binary64 number.  A finite one is kept as the
    integers [m] and [e] of its value [m * 2^e], with [|m| < 2^53] and
    [-1074 <= e <= 971]; the sign of a zero plays no part in what the code
    computes and is dropped. *)

Module PyFloat.

Inductive t : Type :=
| Finite (m e : Z)
| Inf (negative : bool)
| NaN.

(** The double nearest to [num / den], ties to even, for positive [num]
    and [den], as mantissa and exponent; [None] when it is out of range. *)
Definition round_ratio (num den : Z) : option (Z * Z) :=
  let lg := Z.log2 num - Z.log2 den in
  let scaled (e : Z) :=
    if 0 <=? e then (num, den * 2 ^ e) else (num * 2 ^ (- e), den) in
  let e0 :=
    let '(n, d) := scaled (lg - 52) in
    if n / d <? 2 ^ 52 then lg - 53 else lg - 52 in
  let e := Z.max e0 (-1074) in
  let '(n, d) := scaled e in
  let q := n / d in
  let r := n mod d in
  let q' := if (d <? 2 * r) || ((d =? 2 * r) && Z.odd q) then q + 1 else q in
  let '(m, e') := if q' =? 2 ^ 53 then (2 ^ 52, e + 1) else (q', e) in
  if 971 <? e' then None else Some (m, e').

(** [float(n)] for an int [n], as mantissa and exponent; [None] is
    [OverflowError]. *)
Definition of_int (n : Z) : option (Z * Z) :=
  if n =? 0 then Some (0, 0)
  else match round_ratio (Z.abs n) 1 with
       | Some (m, e) => Some (Z.sgn n * m, e)
       | None => None
       end.

(** The leading decimal digits of [s], and the rest. *)
Fixpoint span_digits (s : string) : string * string :=
  match s with
  | EmptyString => (EmptyString, EmptyString)
  | String c s' =>
      if PyStr.is_digit c
      then let '(ds, rest) := span_digits s' in (String c ds, rest)
      else (EmptyString, s)
  end.

(** The exponent part of a literal: nothing, or [e] or [E], an optional
    sign and at least one digit. *)
Definition exponent (s : string) : option Z :=
  match s with
  | EmptyString => Some 0
  | String c s' =>
      if Ascii.eqb c "e" || Ascii.eqb c "E"
      then
        let '(negative, ds) :=
          match s' with
          | String "-" r => (true, r)
          | String "+" r => (false, r)
          | _ => (false, s')
          end in
        if PyStr.is_empty ds || negb (PyStr.all_digits ds) then None
        else Some (if negative then - PyStr.int ds else PyStr.int ds)
      else None
  end.

(** [float(s)] for a literal without sign: digits with an optional
    fraction and exponent, or [inf], [infinity], [nan]. *)
Definition of_unsigned (negative : bool) (s : string) : option t :=
  if String.eqb s "inf" || String.eqb s "infinity" then Some (Inf negative)
  else if String.eqb s "nan" then Some NaN
  else
    let '(whole, rest) := span_digits s in
    let '(fraction, rest) :=
      match rest with
      | String "." r => span_digits r
      | _ => (EmptyString, rest)
      end in
    if PyStr.is_empty whole && PyStr.is_empty fraction then None
    else
      match exponent rest with
      | None => None
      | Some exp10 =>
          let mantissa := PyStr.int (whole +:+ fraction) in
          let k := exp10 - Z.of_nat (String.length fraction) in
          if mantissa =? 0 then Some (Finite 0 0)
          else
            let '(num, den) :=
              if 0 <=? k then (mantissa * 10 ^ k, 1) else (mantissa, 10 ^ (- k)) in
            match round_ratio num den with
            | Some (m, e) => Some (Finite (if negative then - m else m) e)
            | None => Some (Inf negative)
            end
      end.

(** The float a literal denotes; [None] for a string that is no float
    literal. *)
Definition of_literal (s : string) : option t :=
  match s with
  | String "-" r => of_unsigned true r
  | String "+" r => of_unsigned false r
  | _ => of_unsigned false s
  end.

(** [bool(x)]: every float but zero is true, [nan] too. *)
Definition truth (x : t) : bool :=
  match x with
  | Finite m _ => negb (m =? 0)
  | _ => true
  end.

(** [a < x] for an int [a]; Python compares the exact values. *)
Definition int_lt (a : Z) (x : t) : bool :=
  match x with
  | Finite m e => if 0 <=? e then a <? m * 2 ^ e else a * 2 ^ (- e) <? m
  | Inf negative => negb negative
  | NaN => false
  end.

(** [x % y == 0] for finite [x] and any [y] but zero: the remainder of
    [fmod] is exact, so it is zero just when [x] is a multiple of [y]. *)
Definition rem_is_zero (mx ex : Z) (y : t) : bool :=
  match y with
  | Finite my ey =>
      if ey <=? ex then (mx * 2 ^ (ex - ey)) mod my =? 0
      else mx mod (my * 2 ^ (ey - ex)) =? 0
  | Inf _ => mx =? 0
  | NaN => false
  end.

End PyFloat.

(** Truth value of a Python object; [None] for a float whose literal is
    none. *)
Definition truthy (v : value) : option bool :=
  match v with
  | VNone => Some false
  | VBool b => Some b
  | VInt n => Some (negb (Z.eqb n 0))
  | VFloat literal => PyFloat.truth <$> PyFloat.of_literal literal
  | VStr s => Some (negb (PyStr.is_empty s))
  | VList l => Some (match l with [] => false | _ => true end)
  | VFunc _ => Some true
  | VObj _ => Some true
  end.

(** [(n % d) == 0] for an int [n]: Python's [%] on ints takes the sign of
    the divisor, like [Z.modulo], and raises on a zero divisor; [bool] is a
    subclass of [int].  For a float [d] the int is converted with
    [float(n)] first, which can overflow, and the remainder is that of the
    two doubles; a [VFloat] whose string is no float literal is no Python
    object, and is marked [Unmodelled]. *)
Definition mod_is_zero (n : Z) (d : value) : outcome bool :=
  match d with
  | VInt d =>
      if Z.eqb d 0 then Raise (Exn ZeroDivisionError "integer modulo by zero")
      else Ok (Z.eqb (n mod d) 0)
  | VBool b =>
      if b then Ok (Z.eqb (n mod 1) 0)
      else Raise (Exn ZeroDivisionError "integer modulo by zero")
  | VFloat literal =>
      match PyFloat.of_literal literal with
      | None => Raise (Exn Unmodelled "not a float literal")
      | Some y =>
          match PyFloat.of_int n with
          | None => Raise (Exn OverflowError "int too large to convert to float")
          | Some (mx, ex) =>
              if negb (PyFloat.truth y) then Raise (Exn ZeroDivisionError "float modulo")
              else Ok (PyFloat.rem_is_zero mx ex y)
          end
      end
  | VNone | VStr _ | VList _ | VFunc _ | VObj _ =>
      Raise (Exn TypeError "unsupported operand type(s) for %")
  end.

(** [el if isinstance(el, list) else [el]] *)
Definition cast_list (el : value) : value :=
  match el with
  | VList _ => el
  | _ => VList [el]
  end.

(** ** External calls *)

(** The arguments [mp.spawn] hands to every child after its rank:
    [(world_size, model_args, data, load_from, new, num_train_steps, name,
    seed)].  [model_args] is pickled for the child, so it travels as the
    dictionary's contents. *)
Record spawn_args : Type := SpawnArgs {
  sp_world_size : Z;
  sp_model_args : gmap string value;
  sp_data : value;
  sp_load_from : value;
  sp_new : value;
  sp_num_train_steps : value;
  sp_name : value;
  sp_seed : value
}.

Inductive call : Type :=
| os_listdir (path : string)
| os_remove (path : string)
| get_blob_client (container : N) (dest_path : string)
| open_rb (path : string)
| upload_blob (blob_client : N) (data : N)
| file_close (data : N)
| torch_manual_seed (seed : value)
| cudnn_set (flag : string) (b : bool)
| np_random_seed (seed : value)
| random_seed (seed : value)
| environ_set (key val : string)
| init_process_group (backend : string) (rank world_size : Z)
| destroy_process_group
| BlobServiceClient (account_url credential : value)
| get_container_client (service : N) (container_name : value)
| Trainer (kwargs : gmap string value)
| model_load (model : N) (load_from : value)
| model_clear (model : N)
| model_set_data_src (model : N) (data : value)
| model_steps (model : N)
| model_checkpoint_num (model : N)
| model_train (model : N)
| model_print_log (model : N)
| model_save (model : N) (num : value)
| model_evaluate (model : N) (samples_name : string) (num : Z) (num_image_tiles : value)
| model_generate_interpolation (model : N) (samples_name : string)
    (num_image_tiles num_steps save_frames : value)
| tqdm (initial : Z) (total : value) (desc : string)
| tqdm_range (n : Z)
| tqdm_refresh (bar : N) (n : Z)
| timestamp_now
| cuda_device_count
| mp_spawn (nprocs : Z) (args : spawn_args).

(** What each call returns when it does not raise. *)
Definition ret (c : call) : Type :=
  match c with
  | os_listdir _ => list string
  | get_blob_client _ _ | open_rb _ | BlobServiceClient _ _
  | get_container_client _ _ | Trainer _ | tqdm _ _ _ => N
  | model_steps _ | cuda_device_count => Z
  | model_checkpoint_num _ => value
  | timestamp_now => string
  | _ => unit
  end.

(** The log of observable effects, oldest first: what was printed or
    logged, how long the process slept, and each external call with the
    exception it raised, if any. *)
Inductive event : Type :=
| EPrint (line : string)
| EWarn (line : string)
| ESleep (seconds : Z)
| ECall (c : call) (raised : option exn).

(** ** The program monad *)

Section Program.

Context {W : Type}.

(** The external world answers every call and moves to a new state. *)
Variable oracle : ∀ c : call, W → outcome (ret c) * W.

(** One process: the world, the module globals, the heap of dictionary
    objects and the log. *)
Record state : Type := State {
  world : W;
  globs : globals;
  heap : gmap N (gmap string value);
  log : list event
}.

Definition M (A : Type) : Type := state → outcome A * state.

Definition mret {A} (a : A) : M A := λ σ, (Ok a, σ).

Definition mbind {A B} (m : M A) (k : A → M B) : M B :=
  λ σ, match m σ with
       | (Ok a, σ') => k a σ'
       | (Raise e, σ') => (Raise e, σ')
       end.

Definition raise {A} (cls : exn_class) (msg : string) : M A :=
  λ σ, (Raise (Exn cls msg), σ).

Definition lift_outcome {A} (o : outcome A) : M A := λ σ, (o, σ).

Definition raised_of {A} (o : outcome A) : option exn :=
  match o with Ok _ => None | Raise e => Some e end.

(** An external call: ask the oracle, record the call. *)
Definition ext (c : call) : M (ret c) :=
  λ σ, let '(o, w') := oracle c (world σ) in
       (o, {| world := w'; globs := globs σ; heap := heap σ;
              log := log σ ++ [ECall c (raised_of o)] |}).

(** [print(line)]; writing to standard output is taken to succeed. *)
Definition print (line : string) : M unit :=
  λ σ, (Ok tt, {| world := world σ; globs := globs σ; heap := heap σ;
                  log := log σ ++ [EPrint line] |}).

Definition get_globals : M globals := λ σ, (Ok (globs σ), σ).

(** An assignment to a global, given as the change it makes. *)
Definition assign_global (f : globals → globals) : M unit :=
  λ σ, (Ok tt, {| world := world σ; globs := f (globs σ); heap := heap σ;
                  log := log σ |}).

(** [try: m except cls as e: handler(e)] *)
Definition try_except {A} (m : M A) (cls : exn_class) (handler : exn → M A) : M A :=
  λ σ, match m σ with
       | (Ok a, σ') => (Ok a, σ')
       | (Raise e, σ') =>
           if isinstance e cls then handler e σ' else (Raise e, σ')
       end.

(** [try: m finally: cleanup]: the cleanup always runs; an exception of the
    cleanup replaces the one in flight. *)
Definition try_finally {A} (m : M A) (cleanup : M unit) : M A :=
  λ σ, match m σ with
       | (o, σ') =>
           match cleanup σ' with
           | (Ok _, σ'') => (o, σ'')
           | (Raise e, σ'') => (Raise e, σ'')
           end
       end.

(** [if v:] *)
Definition test (v : value) : M bool :=
  match truthy v with
  | Some b => mret b
  | None => raise Unmodelled "not a float literal"
  end.

End Program.

Arguments state W : clear implicits.
Arguments M W A : clear implicits.

Notation "'let!' x ':=' m 'in' k" := (mbind m (λ x, k))
  (at level 10, x name, m at level 100, k at level 200).
Notation "m ;; k" := (mbind m (λ _, k))
  (at level 100, k at level 200, right associativity).

(** ** The checkpoint callback *)

Section Callback.

Context {W : Type}.
Variable oracle : ∀ c : call, W → outcome (ret c) * W.

#[local] Abbreviation M := (M W).
#[local] Abbreviation ext := (ext oracle).

(** [for i in entries: body(i)] *)
Fixpoint for_each {A} (l : list A) (body : A → M unit) : M unit :=
  match l with
  | [] => mret tt
  | i :: rest => body i ;; for_each rest body
  end.

(** The test at the top of the pruning loop: a directory entry is a model
    file when it starts with [model_] and ends with [.pt]. *)
Definition is_model_file (i : string) : bool :=
  PyStr.startswith i "model_" && PyStr.endswith i ".pt".

(** One turn of the pruning loop (lines 38-52). *)
Definition prune_entry (file_path model_path i : string) : M unit :=
  if negb (PyStr.startswith i "model_") || negb (PyStr.endswith i ".pt")
  then print ("Skipping delete of " +:+ i +:+ " (not model file)")
  else if PyStr.endswith model_path i
  then print ("Skipping delete of " +:+ i +:+ " (current epoch)")
  else
    print ("Deleting " +:+ i) ;;
    try_except (ext (os_remove (file_path +:+ "/" +:+ i))) OSError
      (λ e, print ("Caught exception: " +:+ exn_msg e)).

(** Lines 36-52. *)
Definition prune (file_path model_path : string) : M unit :=
  let! g := get_globals in
  let! enabled := test (_delete_old_models g) in
  if enabled
  then let! entries := ext (os_listdir file_path) in
       for_each entries (prune_entry file_path model_path)
  else mret tt.

(** Lines 54-64. *)
Definition upload (model_path model_name file_name : string) : M unit :=
  let! g := get_globals in
  let! enabled := test (_upload_models g) in
  if enabled
  then
    match PyStr.re_match_model file_name with
    | None => raise AttributeError "'NoneType' object has no attribute 'groups'"
    | Some digits =>
        let model_num := PyStr.int digits in
        let! g := get_globals in
        let! due := lift_outcome (mod_is_zero model_num (_upload_every g)) in
        if due
        then
          let dest_path := model_name +:+ "/" +:+ file_name in
          let! g := get_globals in
          let! blob_client :=
            match _container_client g with
            | VObj container => ext (get_blob_client container dest_path)
            | _ => raise AttributeError "object has no attribute 'get_blob_client'"
            end in
          print ("Uploading to " +:+ dest_path) ;;
          let! data := ext (open_rb model_path) in
          try_finally (ext (upload_blob blob_client data)) (ext (file_close data))
        else print "Skipping upload"
    end
  else mret tt.

Definition on_model_save (model_path : string) : M unit :=
  let '(file_path, file_name) := PyStr.path_split model_path in
  let model_name := snd (PyStr.path_split file_path) in
  prune file_path model_path ;;
  upload model_path model_name file_name.

End Callback.

(** ** Dictionaries on the heap and small Python operations *)

(** [repr(v)] and [str(v)], as used inside f-strings.  A float prints as
    its literal, a function and an object by name only. *)
Fixpoint py_repr (v : value) : string :=
  match v with
  | VNone => "None"
  | VBool b => if b then "True" else "False"
  | VInt n => pretty n
  | VFloat literal => literal
  | VStr s => "'" +:+ s +:+ "'"
  | VList items =>
      "[" +:+
      (fix go (l : list value) : string :=
         match l with
         | [] => EmptyString
         | [x] => py_repr x
         | x :: rest => py_repr x +:+ ", " +:+ go rest
         end) items
      +:+ "]"
  | VFunc name => "<function " +:+ name +:+ ">"
  | VObj _ => "<object>"
  end.

Definition py_str (v : value) : string :=
  match v with
  | VStr s => s
  | _ => py_repr v
  end.

(** [a < v] for an int [a]. *)
Definition int_lt (a : Z) (v : value) : outcome bool :=
  match v with
  | VInt b => Ok (a <? b)
  | VBool b => Ok (a <? Z.b2z b)
  | VFloat literal =>
      match PyFloat.of_literal literal with
      | Some x => Ok (PyFloat.int_lt a x)
      | None => Raise (Exn Unmodelled "not a float literal")
      end
  | _ => Raise (Exn TypeError "'<' not supported between these instances")
  end.

(** The length of [range(v)]. *)
Definition range_len (v : value) : outcome Z :=
  match v with
  | VInt n => Ok n
  | VBool b => Ok (Z.b2z b)
  | _ => Raise (Exn TypeError "object cannot be interpreted as an integer")
  end.

Section Heap.

Context {W : Type}.
#[local] Abbreviation M := (M W).

Definition set_heap (h : gmap N (gmap string value)) : M unit :=
  λ σ, (Ok tt, {| world := world σ; globs := globs σ; heap := h; log := log σ |}).

(** [dict(...)]: a new dictionary object. *)
Definition dict_new (d : gmap string value) : M N :=
  λ σ, let l := fresh (dom (heap σ)) in
       (Ok l, {| world := world σ; globs := globs σ;
                 heap := <[l := d]> (heap σ); log := log σ |}).

(** The contents of the dictionary at [l]. *)
Definition dict_read (l : N) : M (gmap string value) :=
  λ σ, match heap σ !! l with
       | Some d => (Ok d, σ)
       | None => (Raise (Exn Unmodelled "dangling reference"), σ)
       end.

Definition dict_write (l : N) (d : gmap string value) : M unit :=
  λ σ, set_heap (<[l := d]> (heap σ)) σ.

(** [d[k]] *)
Definition dict_getitem (l : N) (k : string) : M value :=
  let! d := dict_read l in
  match d !! k with
  | Some v => mret v
  | None => raise KeyError k
  end.

(** [d[k] = v] *)
Definition dict_setitem (l : N) (k : string) (v : value) : M unit :=
  let! d := dict_read l in
  dict_write l (<[k := v]> d).

(** [d.pop(k, None)] *)
Definition dict_pop (l : N) (k : string) : M value :=
  let! d := dict_read l in
  dict_write l (delete k d) ;;
  mret (default VNone (d !! k)).

(** [logger.warning(line)]; logging is taken to succeed. *)
Definition warn (line : string) : M unit :=
  λ σ, (Ok tt, {| world := world σ; globs := globs σ; heap := heap σ;
                  log := log σ ++ [EWarn line] |}).

(** [time.sleep(seconds)] *)
Definition sleep (seconds : Z) : M unit :=
  λ σ, (Ok tt, {| world := world σ; globs := globs σ; heap := heap σ;
                  log := log σ ++ [ESleep seconds] |}).

End Heap.

(** ** The training driver *)

Inductive completion : Type :=
| Finished
| OutOfFuel.

Section Training.

Context {W : Type}.
Variable oracle : ∀ c : call, W → outcome (ret c) * W.

#[local] Abbreviation M := (M W).
#[local] Abbreviation ext := (ext oracle).

(** Modelled from the spec: [retry_call] belongs to the external [retry]
    package, whose source is not in the repository.  At most [tries]
    attempts of [f]; an exception that is an instance of [exceptions] is
    swallowed and the call repeated after a warning and a sleep of [delay]
    seconds, where the delay is multiplied by [backoff] and grows by
    [jitter] after every attempt; the exception of the last attempt, and any
    exception of another class, is raised to the caller. *)
Fixpoint retry_call {A} (f : M A) (tries : nat) (exceptions : exn_class)
    (delay backoff jitter : Z) : M (option A) :=
  match tries with
  | O => mret None
  | S remaining =>
      try_except (let! a := f in mret (Some a)) exceptions
        (λ e,
           match remaining with
           | O => lift_outcome (Raise e)
           | S _ =>
               warn (exn_msg e +:+ ", retrying in " +:+ pretty delay +:+ " seconds...") ;;
               sleep delay ;;
               retry_call f remaining exceptions (delay * backoff + jitter) backoff jitter
           end)
  end.

(** Lines 74-79. *)
Definition set_seed (seed : value) : M unit :=
  ext (torch_manual_seed seed) ;;
  ext (cudnn_set "deterministic" true) ;;
  ext (cudnn_set "benchmark" false) ;;
  ext (np_random_seed seed) ;;
  ext (random_seed seed).

(** Lines 106-107: the blob-store clients. *)
Definition create_clients (model_args : N) : M unit :=
  let! account_url := dict_getitem model_args "account_url" in
  let! credential := dict_getitem model_args "credential" in
  let! service := ext (BlobServiceClient account_url credential) in
  assign_global (with_blob_service_client (VObj service)) ;;
  let! g := get_globals in
  let! container_name := dict_getitem model_args "container_name" in
  let! container :=
    match _blob_service_client g with
    | VObj service => ext (get_container_client service container_name)
    | _ => raise AttributeError "object has no attribute 'get_container_client'"
    end in
  assign_global (with_container_client (VObj container)).

(** Lines 109-112: the callback and the three policy globals. *)
Definition adopt_policy (model_args : N) : M unit :=
  dict_setitem model_args "save_callback" (VFunc "on_model_save") ;;
  let! upload_models := dict_getitem model_args "upload_models" in
  assign_global (with_upload_models upload_models) ;;
  let! upload_every := dict_getitem model_args "upload_every" in
  assign_global (with_upload_every upload_every) ;;
  let! delete_old_models := dict_getitem model_args "delete_old_models" in
  assign_global (with_delete_old_models delete_old_models).

(** Lines 104-112, the part of [run_training] that only rank 0 runs. *)
Definition configure_main (model_args : N) : M unit :=
  let! g := get_globals in
  let! uploading := test (_upload_models g) in
  (if uploading then create_clients model_args else mret tt) ;;
  adopt_policy model_args.

(** Lines 91-96: joining the process group. *)
Definition init_distributed (rank world_size : Z) (seed : value) : M unit :=
  set_seed seed ;;
  ext (environ_set "MASTER_ADDR" "localhost") ;;
  ext (environ_set "MASTER_PORT" "12355") ;;
  ext (init_process_group "nccl" rank world_size) ;;
  print (pretty (rank + 1) +:+ "/" +:+ pretty world_size +:+ " process initialized.").

(** Lines 98-102: [model_args.update(is_ddp=..., rank=..., world_size=...)]. *)
Definition update_ranks (model_args : N) (rank world_size : Z) : M unit :=
  let! d := dict_read model_args in
  dict_write model_args
    (<["world_size" := VInt world_size]>
       (<["rank" := VInt rank]> (<["is_ddp" := VBool (1 <? world_size)]> d))).

(** Lines 114-119. *)
Definition pop_cloud_keys (model_args : N) : M unit :=
  dict_pop model_args "upload_models" ;;
  dict_pop model_args "upload_every" ;;
  dict_pop model_args "delete_old_models" ;;
  dict_pop model_args "account_url" ;;
  dict_pop model_args "credential" ;;
  dict_pop model_args "container_name" ;;
  mret tt.

(** Lines 87-119: everything [run_training] does before it builds the
    Trainer. *)
Definition prepare_model_args (rank world_size : Z) (model_args : N) (seed : value)
    : M unit :=
  let is_main := rank =? 0 in
  let is_ddp := 1 <? world_size in
  (if is_ddp then init_distributed rank world_size seed else mret tt) ;;
  update_ranks model_args rank world_size ;;
  (if is_main then configure_main model_args else mret tt) ;;
  pop_cloud_keys model_args.

(** Lines 87-121: up to the construction of the Trainer from the entries
    of [model_args]; the handle of the Trainer is returned. *)
Definition setup_trainer (rank world_size : Z) (model_args : N) (seed : value) : M N :=
  prepare_model_args rank world_size model_args seed ;;
  let! kwargs := dict_read model_args in
  ext (Trainer kwargs).

(** One turn of the loop at lines 131-136. *)
Definition train_step (is_main : bool) (model bar : N) : M unit :=
  retry_call (ext (model_train model)) 3 NanException 0 1 0 ;;
  let! n := ext (model_steps model) in
  ext (tqdm_refresh bar n) ;;
  if is_main
  then let! steps := ext (model_steps model) in
       if steps mod 50 =? 0 then ext (model_print_log model) else mret tt
  else mret tt.

(** [while model.steps < num_train_steps: ...]; the number of turns depends
    on the Trainer, so the loop carries fuel. *)
Fixpoint train_loop (fuel : nat) (is_main : bool) (model bar : N)
    (num_train_steps : value) : M completion :=
  match fuel with
  | O => mret OutOfFuel
  | S fuel' =>
      let! steps := ext (model_steps model) in
      let! more := lift_outcome (int_lt steps num_train_steps) in
      if more
      then train_step is_main model bar ;;
           train_loop fuel' is_main model bar num_train_steps
      else mret Finished
  end.

(** Lines 123-141: what [run_training] does with the Trainer. *)
Definition train_model (fuel : nat) (rank world_size : Z) (model : N)
    (data load_from new num_train_steps name : value) : M completion :=
  let is_main := rank =? 0 in
  let is_ddp := 1 <? world_size in
  let! fresh_start := test new in
  (if negb fresh_start
   then ext (model_load model load_from)
   else ext (model_clear model)) ;;
  ext (model_set_data_src model data) ;;
  let! initial := ext (model_steps model) in
  let! bar := ext (tqdm initial num_train_steps
                     (py_str name +:+ "<" +:+ py_str data +:+ ">")) in
  let! done := train_loop fuel is_main model bar num_train_steps in
  match done with
  | OutOfFuel => mret OutOfFuel
  | Finished =>
      let! num := ext (model_checkpoint_num model) in
      ext (model_save model num) ;;
      (if is_ddp then ext destroy_process_group else mret tt) ;;
      mret Finished
  end.

Definition run_training (fuel : nat) (rank world_size : Z) (model_args : N)
    (data load_from new num_train_steps name seed : value) : M completion :=
  let! model := setup_trainer rank world_size model_args seed in
  train_model fuel rank world_size model data load_from new num_train_steps name.

End Training.

(** ** The entry point *)

Module Options.

(** The keyword parameters of [train_from_folder] (lines 144-205). *)
Record t : Type := Make {
  data : value;
  results_dir : value;
  models_dir : value;
  name : value;
  new : value;
  load_from : value;
  image_size : value;
  network_capacity : value;
  fmap_max : value;
  transparent : value;
  batch_size : value;
  gradient_accumulate_every : value;
  num_train_steps : value;
  learning_rate : value;
  lr_mlp : value;
  ttur_mult : value;
  rel_disc_loss : value;
  num_workers : value;
  save_every : value;
  save_callback : value;
  evaluate_every : value;
  evaluate_callback : value;
  generate : value;
  num_generate : value;
  generate_interpolation : value;
  interpolation_num_steps : value;
  save_frames : value;
  num_image_tiles : value;
  trunc_psi : value;
  mixed_prob : value;
  fp16 : value;
  no_pl_reg : value;
  cl_reg : value;
  fq_layers : value;
  fq_dict_size : value;
  attn_layers : value;
  no_const : value;
  aug_prob : value;
  aug_types : value;
  top_k_training : value;
  generator_top_k_gamma : value;
  generator_top_k_frac : value;
  dual_contrast_loss : value;
  dataset_aug_prob : value;
  multi_gpus : value;
  calculate_fid_every : value;
  calculate_fid_num_images : value;
  clear_fid_cache : value;
  seed : value;
  log : value;
  lookahead : value;
  lookahead_alpha : value;
  lookahead_k : value;
  ema_beta : value;
  delete_old_models : value;
  upload_models : value;
  upload_every : value;
  account_url : value;
  credential : value;
  container_name : value
}.

(** The defaults of the signature. *)
Definition defaults : t :=
  {| data := VStr "./data";
     results_dir := VStr "./results";
     models_dir := VStr "./models";
     name := VStr "default";
     new := VBool false;
     load_from := VInt (-1);
     image_size := VInt 128;
     network_capacity := VInt 16;
     fmap_max := VInt 512;
     transparent := VBool false;
     batch_size := VInt 5;
     gradient_accumulate_every := VInt 6;
     num_train_steps := VInt 150000;
     learning_rate := VFloat "2e-4";
     lr_mlp := VFloat "0.1";
     ttur_mult := VFloat "1.5";
     rel_disc_loss := VBool false;
     num_workers := VNone;
     save_every := VInt 1000;
     save_callback := VNone;
     evaluate_every := VInt 1000;
     evaluate_callback := VNone;
     generate := VBool false;
     num_generate := VInt 1;
     generate_interpolation := VBool false;
     interpolation_num_steps := VInt 100;
     save_frames := VBool false;
     num_image_tiles := VInt 8;
     trunc_psi := VFloat "0.75";
     mixed_prob := VFloat "0.9";
     fp16 := VBool false;
     no_pl_reg := VBool false;
     cl_reg := VBool false;
     fq_layers := VList [];
     fq_dict_size := VInt 256;
     attn_layers := VList [];
     no_const := VBool false;
     aug_prob := VFloat "0.";
     aug_types := VList [VStr "translation"; VStr "cutout"];
     top_k_training := VBool false;
     generator_top_k_gamma := VFloat "0.99";
     generator_top_k_frac := VFloat "0.5";
     dual_contrast_loss := VBool false;
     dataset_aug_prob := VFloat "0.";
     multi_gpus := VBool false;
     calculate_fid_every := VNone;
     calculate_fid_num_images := VInt 12800;
     clear_fid_cache := VBool false;
     seed := VInt 42;
     log := VBool false;
     lookahead := VBool false;
     lookahead_alpha := VFloat "0.5";
     lookahead_k := VInt 5;
     ema_beta := VFloat "0.9999";
     delete_old_models := VBool true;
     upload_models := VBool true;
     upload_every := VInt 10;
     account_url := VStr EmptyString;
     credential := VStr EmptyString;
     container_name := VStr EmptyString |}.

End Options.

(** The dictionary built at lines 213-265. *)
Definition build_model_args (o : Options.t) : gmap string value :=
  list_to_map
    [ ("name", Options.name o);
      ("results_dir", Options.results_dir o);
      ("models_dir", Options.models_dir o);
      ("batch_size", Options.batch_size o);
      ("gradient_accumulate_every", Options.gradient_accumulate_every o);
      ("image_size", Options.image_size o);
      ("network_capacity", Options.network_capacity o);
      ("fmap_max", Options.fmap_max o);
      ("transparent", Options.transparent o);
      ("lr", Options.learning_rate o);
      ("lr_mlp", Options.lr_mlp o);
      ("ttur_mult", Options.ttur_mult o);
      ("rel_disc_loss", Options.rel_disc_loss o);
      ("num_workers", Options.num_workers o);
      ("save_every", Options.save_every o);
      ("save_callback", Options.save_callback o);
      ("evaluate_every", Options.evaluate_every o);
      ("evaluate_callback", Options.evaluate_callback o);
      ("num_image_tiles", Options.num_image_tiles o);
      ("trunc_psi", Options.trunc_psi o);
      ("fp16", Options.fp16 o);
      ("no_pl_reg", Options.no_pl_reg o);
      ("cl_reg", Options.cl_reg o);
      ("fq_layers", Options.fq_layers o);
      ("fq_dict_size", Options.fq_dict_size o);
      ("attn_layers", Options.attn_layers o);
      ("no_const", Options.no_const o);
      ("aug_prob", Options.aug_prob o);
      ("aug_types", cast_list (Options.aug_types o));
      ("top_k_training", Options.top_k_training o);
      ("generator_top_k_gamma", Options.generator_top_k_gamma o);
      ("generator_top_k_frac", Options.generator_top_k_frac o);
      ("dual_contrast_loss", Options.dual_contrast_loss o);
      ("dataset_aug_prob", Options.dataset_aug_prob o);
      ("calculate_fid_every", Options.calculate_fid_every o);
      ("calculate_fid_num_images", Options.calculate_fid_num_images o);
      ("clear_fid_cache", Options.clear_fid_cache o);
      ("mixed_prob", Options.mixed_prob o);
      ("log", Options.log o);
      ("lookahead", Options.lookahead o);
      ("lookahead_alpha", Options.lookahead_alpha o);
      ("lookahead_k", Options.lookahead_k o);
      ("ema_beta", Options.ema_beta o);
      ("delete_old_models", Options.delete_old_models o);
      ("upload_models", Options.upload_models o);
      ("upload_every", Options.upload_every o);
      ("account_url", Options.account_url o);
      ("credential", Options.credential o);
      ("container_name", Options.container_name o) ].

Section EntryPoint.

Context {W : Type}.
Variable oracle : ∀ c : call, W → outcome (ret c) * W.

#[local] Abbreviation M := (M W).
#[local] Abbreviation ext := (ext oracle).

(** Lines 69-72, with the default prefix. *)
Definition timestamped_filename : M string :=
  let! timestamp := ext timestamp_now in
  mret ("generated-" +:+ timestamp).

(** Lines 269-273: sampling from a loaded model. *)
Definition sample_images (model : N) (o : Options.t) : M unit :=
  ext (model_load model (Options.load_from o)) ;;
  let! samples_name := timestamped_filename in
  let! count := lift_outcome (range_len (Options.num_generate o)) in
  ext (tqdm_range count) ;;
  for_each (seqZ 0 count)
    (λ num, ext (model_evaluate model (samples_name +:+ "-" +:+ pretty num) num
                   (Options.num_image_tiles o))) ;;
  print ("sample images generated at " +:+ py_str (Options.results_dir o) +:+ "/"
         +:+ py_str (Options.name o) +:+ "/" +:+ samples_name).

(** Lines 267-274. *)
Definition generate_samples (model_args : N) (o : Options.t) : M unit :=
  let! kwargs := dict_read model_args in
  let! model := ext (Trainer kwargs) in
  sample_images model o.

(** Lines 278-281: interpolating with a loaded model. *)
Definition interpolate (model : N) (o : Options.t) : M unit :=
  ext (model_load model (Options.load_from o)) ;;
  let! samples_name := timestamped_filename in
  ext (model_generate_interpolation model samples_name (Options.num_image_tiles o)
         (Options.interpolation_num_steps o) (Options.save_frames o)) ;;
  print ("interpolation generated at " +:+ py_str (Options.results_dir o) +:+ "/"
         +:+ py_str (Options.name o) +:+ "/" +:+ samples_name).

(** Lines 276-282. *)
Definition generate_interpolation (model_args : N) (o : Options.t) : M unit :=
  let! kwargs := dict_read model_args in
  let! model := ext (Trainer kwargs) in
  interpolate model o.

(** What [mp.spawn] is given at lines 290-293. *)
Definition spawn_args_of (world_size : Z) (kwargs : gmap string value)
    (o : Options.t) : spawn_args :=
  {| sp_world_size := world_size;
     sp_model_args := kwargs;
     sp_data := Options.data o;
     sp_load_from := Options.load_from o;
     sp_new := Options.new o;
     sp_num_train_steps := Options.num_train_steps o;
     sp_name := Options.name o;
     sp_seed := Options.seed o |}.

(** Lines 284-293. *)
Definition dispatch (fuel : nat) (model_args : N) (o : Options.t) : M completion :=
  let! world_size := ext cuda_device_count in
  let! in_process :=
    (if world_size =? 1 then mret true
     else let! multi := test (Options.multi_gpus o) in mret (negb multi)) in
  if in_process
  then run_training oracle fuel 0 1 model_args (Options.data o) (Options.load_from o)
         (Options.new o) (Options.num_train_steps o) (Options.name o) (Options.seed o)
  else
    let! kwargs := dict_read model_args in
    ext (mp_spawn world_size (spawn_args_of world_size kwargs o)) ;;
    mret Finished.

(** Lines 267-293: generation, interpolation or training. *)
Definition run_mode (fuel : nat) (model_args : N) (o : Options.t) : M completion :=
  let! generating := test (Options.generate o) in
  if generating
  then generate_samples model_args o ;; mret Finished
  else
    let! interpolating := test (Options.generate_interpolation o) in
    if interpolating
    then generate_interpolation model_args o ;; mret Finished
    else dispatch fuel model_args o.

Definition train_from_folder (fuel : nat) (o : Options.t) : M completion :=
  let! model_args := dict_new (build_model_args o) in
  run_mode fuel model_args o.

(** [mp.spawn(fn, args, nprocs)] starts [nprocs] processes; process [i]
    runs [fn(i, *args)]. *)
Definition spawn_children (nprocs : Z) (args : spawn_args) : list (Z * spawn_args) :=
  (λ i, (i, args)) <$> seqZ 0 nprocs.

(** A spawned child imports the module afresh and owns its copy of
    [model_args]. *)
Definition child_state (args : spawn_args) (w : W) : state W :=
  {| world := w; globs := module_globals;
     heap := {[ 0%N := sp_model_args args ]}; log := [] |}.

Definition run_child (fuel : nat) (child : Z * spawn_args) (w : W)
    : outcome completion * state W :=
  run_training oracle fuel (fst child) (sp_world_size (snd child)) 0%N
    (sp_data (snd child)) (sp_load_from (snd child)) (sp_new (snd child))
    (sp_num_train_steps (snd child)) (sp_name (snd child)) (sp_seed (snd child))
    (child_state (snd child) w).

End EntryPoint.

(** ** Observations on the log and frame conditions *)

(** The paths [os.remove] was called on, in order. *)
Definition removed_paths (evs : list event) : list string :=
  evs ≫= (λ ev, match ev with ECall (os_remove p) _ => [p] | _ => [] end).

(** The blobs [upload_blob] was called on. *)
Definition upload_calls (evs : list event) : list (N * N) :=
  evs ≫= (λ ev, match ev with ECall (upload_blob b d) _ => [(b, d)] | _ => [] end).

(** How each call of [train] ended. *)
Definition train_outcomes (evs : list event) : list (option exn) :=
  evs ≫= (λ ev, match ev with ECall (model_train _) r => [r] | _ => [] end).

(** The lengths of the sleeps. *)
Definition sleeps (evs : list event) : list Z :=
  evs ≫= (λ ev, match ev with ESleep s => [s] | _ => [] end).

(** The dictionaries the Trainer was constructed from. *)
Definition trainer_kwargs (evs : list event) : list (gmap string value) :=
  evs ≫= (λ ev, match ev with ECall (Trainer kw) _ => [kw] | _ => [] end).

(** Every external call recorded in the event satisfies [P]. *)
Definition calls_satisfy (P : call → Prop) (ev : event) : Prop :=
  ∀ c r, ev = ECall c r → P c.

(** Every failed [os.remove] whose exception is an [OSError] is followed
    at once by the line that reports it. *)
Definition caught_and_logged (evs : list event) : Prop :=
  ∀ n p e,
    evs !! n = Some (ECall (os_remove p) (Some e)) →
    isinstance e OSError = true →
    evs !! S n = Some (EPrint ("Caught exception: " +:+ exn_msg e)).

(** The log does not end with an [os.remove] that failed with an
    [OSError]. *)
Definition no_pending_OSError (evs : list event) : Prop :=
  ∀ p e, last evs = Some (ECall (os_remove p) (Some e)) →
         isinstance e OSError = false.

(** The only failed call in the event, if any, is an [os.remove] that
    raised an [OSError]. *)
Definition benign (ev : event) : Prop :=
  ∀ c e, ev = ECall c (Some e) →
         (∃ p, c = os_remove p) ∧ isinstance e OSError = true.

(** The entries the pruning loop tries to delete. *)
Definition deletable (model_path i : string) : bool :=
  is_model_file i && negb (PyStr.endswith model_path i).

(** The contents of [model_args] at line 121, when the Trainer is built,
    for a dictionary that held [d] when [run_training] was entered. *)
Definition trainer_arguments (rank world_size : Z) (d : gmap string value)
    : gmap string value :=
  let updated :=
    <["world_size" := VInt world_size]>
      (<["rank" := VInt rank]> (<["is_ddp" := VBool (1 <? world_size)]> d)) in
  let with_callback :=
    if rank =? 0 then <["save_callback" := VFunc "on_model_save"]> updated
    else updated in
  delete "container_name"
    (delete "credential"
       (delete "account_url"
          (delete "delete_old_models"
             (delete "upload_every" (delete "upload_models" with_callback))))).

(** What the callback removes: [file_path/i] for an entry [i] that is a
    model file and no suffix of the saved path. *)
Definition removes_deletable (file_path model_path : string) (c : call) : Prop :=
  ∀ p, c = os_remove p →
       ∃ i, p = file_path +:+ "/" +:+ i ∧ deletable model_path i = true.

(** A call other than the construction of the Trainer. *)
Definition not_trainer (c : call) : Prop := ∀ kw, c ≠ Trainer kw.

(** The keys of [model_args] that [run_training] removes. *)
Definition cloud_keys : list string :=
  ["upload_models"; "upload_every"; "delete_old_models";
   "account_url"; "credential"; "container_name"].

(** The keys of [model_args] that [run_training] writes. *)
Definition ddp_keys : list string := ["is_ddp"; "rank"; "world_size"].

(** All the keys of [model_args] that [run_training] touches. *)
Definition touched_keys : list string :=
  ddp_keys ++ ["save_callback"] ++ cloud_keys.

Section Frames.

Context {W : Type}.

(** [m] relates every state it starts in to the state it leaves. *)
Definition preserves {A} (R : state W → state W → Prop) (m : M W A) : Prop :=
  ∀ σ, R σ (snd (m σ)).

(** The log only grows, by events that satisfy [φ]. *)
Definition log_grows (φ : event → Prop) (σ σ' : state W) : Prop :=
  ∃ evs, log σ' = log σ ++ evs ∧ Forall φ evs.

(** When [m] returns normally, the events it added all satisfy [φ]. *)
Definition ok_only {A} (φ : event → Prop) (m : M W A) : Prop :=
  ∀ σ, ∃ evs, log (snd (m σ)) = log σ ++ evs ∧
              (∀ a, fst (m σ) = Ok a → Forall φ evs).

Definition same_globs (σ σ' : state W) : Prop := globs σ' = globs σ.

Definition same_heap (σ σ' : state W) : Prop := heap σ' = heap σ.

(** The three policy globals keep their values. *)
Definition same_policy (σ σ' : state W) : Prop :=
  _delete_old_models (globs σ') = _delete_old_models (globs σ) ∧
  _upload_models (globs σ') = _upload_models (globs σ) ∧
  _upload_every (globs σ') = _upload_every (globs σ).

(** Only the dictionary at [l] changes, and there only the keys in [keys]. *)
Definition heap_frame (l : N) (keys : list string) (σ σ' : state W) : Prop :=
  (∀ l', l' ≠ l → heap σ' !! l' = heap σ !! l') ∧
  (∀ d, heap σ !! l = Some d →
        ∃ d', heap σ' !! l = Some d' ∧ ∀ k, k ∉ keys → d' !! k = d !! k) ∧
  (heap σ !! l = None → heap σ' !! l = None).

End Frames.

(** ** A small concrete world

    One directory, a table of paths whose removal fails, a device count and
    a script of outcomes for successive calls of [train]; a successful
    [train] advances the step counter by one. *)

Module Mock.

Record t : Type := Make {
  listing : outcome (list string);
  remove_errors : list (string * exn);
  devices : Z;
  train_script : list (option exn);
  steps : Z;
  upload_error : option exn
}.

Fixpoint assoc (k : string) (l : list (string * exn)) : option exn :=
  match l with
  | [] => None
  | (k', e) :: rest => if String.eqb k k' then Some e else assoc k rest
  end.

Definition result_of (o : option exn) : outcome unit :=
  match o with
  | None => Ok tt
  | Some e => Raise e
  end.

Definition oracle (c : call) : t → outcome (ret c) * t :=
  match c as c0 return t → outcome (ret c0) * t with
  | os_listdir _ => λ w, (listing w, w)
  | os_remove path => λ w, (result_of (assoc path (remove_errors w)), w)
  | get_blob_client _ _ => λ w, (Ok 4%N, w)
  | open_rb _ => λ w, (Ok 5%N, w)
  | upload_blob _ _ => λ w, (result_of (upload_error w), w)
  | BlobServiceClient _ _ => λ w, (Ok 1%N, w)
  | get_container_client _ _ => λ w, (Ok 2%N, w)
  | Trainer _ => λ w, (Ok 3%N, w)
  | tqdm _ _ _ => λ w, (Ok 6%N, w)
  | model_steps _ => λ w, (Ok (steps w), w)
  | cuda_device_count => λ w, (Ok (devices w), w)
  | model_checkpoint_num _ => λ w, (Ok (VInt (steps w / 1000)), w)
  | timestamp_now => λ w, (Ok "01-01-2021_00-00-00", w)
  | model_train _ => λ w,
      match train_script w with
      | [] =>
          (Ok tt, {| listing := listing w; remove_errors := remove_errors w;
                     devices := devices w; train_script := [];
                     steps := steps w + 1; upload_error := upload_error w |})
      | o :: rest =>
          (result_of o,
           {| listing := listing w; remove_errors := remove_errors w;
              devices := devices w; train_script := rest;
              steps := (match o with Some _ => steps w | None => steps w + 1 end);
              upload_error := upload_error w |})
      end
  | _ => λ w, (Ok tt, w)
  end.

Definition quiet : t :=
  {| listing := Ok []; remove_errors := []; devices := 1;
     train_script := []; steps := 0; upload_error := None |}.

(** A process right after the module was imported. *)
Definition start (w : t) : state t :=
  {| world := w; globs := module_globals; heap := ∅; log := [] |}.

(** The same process once [train_from_folder] has built [model_args] from
    the options [o]. *)
Definition configured (o : Options.t) (w : t) : state t :=
  {| world := w; globs := module_globals;
     heap := {[ 0%N := build_model_args o ]}; log := [] |}.

(** A process in which the callback runs under the globals [g]. *)
Definition saving (g : globals) (w : t) : state t :=
  {| world := w; globs := g; heap := ∅; log := [] |}.

(** Globals with both clients in place. *)
Definition policy (delete upload : bool) (every : Z) : globals :=
  {| _blob_service_client := VObj 1;
     _container_client := VObj 2;
     _delete_old_models := VBool delete;
     _upload_models := VBool upload;
     _upload_every := VInt every |}.

Definition directory (entries : list string) : t :=
  {| listing := Ok entries; remove_errors := []; devices := 1;
     train_script := []; steps := 0; upload_error := None |}.

(** [model_00.pt] .. [model_29.pt] *)
Definition thirty_checkpoints : list string :=
  (λ n, "model_" +:+ pretty (n / 10) +:+ pretty (n mod 10) +:+ ".pt") <$> seqZ 0 30.

Definition nan : exn := Exn NanException "NaN detected for generator or discriminator".

(** The options [o] with generation of [count] samples switched on. *)
Definition generating (o : Options.t) (count : value) : Options.t :=
  {|
     Options.data := Options.data o;
     Options.results_dir := Options.results_dir o;
     Options.models_dir := Options.models_dir o;
     Options.name := Options.name o;
     Options.new := Options.new o;
     Options.load_from := Options.load_from o;
     Options.image_size := Options.image_size o;
     Options.network_capacity := Options.network_capacity o;
     Options.fmap_max := Options.fmap_max o;
     Options.transparent := Options.transparent o;
     Options.batch_size := Options.batch_size o;
     Options.gradient_accumulate_every := Options.gradient_accumulate_every o;
     Options.num_train_steps := Options.num_train_steps o;
     Options.learning_rate := Options.learning_rate o;
     Options.lr_mlp := Options.lr_mlp o;
     Options.ttur_mult := Options.ttur_mult o;
     Options.rel_disc_loss := Options.rel_disc_loss o;
     Options.num_workers := Options.num_workers o;
     Options.save_every := Options.save_every o;
     Options.save_callback := Options.save_callback o;
     Options.evaluate_every := Options.evaluate_every o;
     Options.evaluate_callback := Options.evaluate_callback o;
     Options.generate := VBool true;
     Options.num_generate := count;
     Options.generate_interpolation := Options.generate_interpolation o;
     Options.interpolation_num_steps := Options.interpolation_num_steps o;
     Options.save_frames := Options.save_frames o;
     Options.num_image_tiles := Options.num_image_tiles o;
     Options.trunc_psi := Options.trunc_psi o;
     Options.mixed_prob := Options.mixed_prob o;
     Options.fp16 := Options.fp16 o;
     Options.no_pl_reg := Options.no_pl_reg o;
     Options.cl_reg := Options.cl_reg o;
     Options.fq_layers := Options.fq_layers o;
     Options.fq_dict_size := Options.fq_dict_size o;
     Options.attn_layers := Options.attn_layers o;
     Options.no_const := Options.no_const o;
     Options.aug_prob := Options.aug_prob o;
     Options.aug_types := Options.aug_types o;
     Options.top_k_training := Options.top_k_training o;
     Options.generator_top_k_gamma := Options.generator_top_k_gamma o;
     Options.generator_top_k_frac := Options.generator_top_k_frac o;
     Options.dual_contrast_loss := Options.dual_contrast_loss o;
     Options.dataset_aug_prob := Options.dataset_aug_prob o;
     Options.multi_gpus := Options.multi_gpus o;
     Options.calculate_fid_every := Options.calculate_fid_every o;
     Options.calculate_fid_num_images := Options.calculate_fid_num_images o;
     Options.clear_fid_cache := Options.clear_fid_cache o;
     Options.seed := Options.seed o;
     Options.log := Options.log o;
     Options.lookahead := Options.lookahead o;
     Options.lookahead_alpha := Options.lookahead_alpha o;
     Options.lookahead_k := Options.lookahead_k o;
     Options.ema_beta := Options.ema_beta o;
     Options.delete_old_models := Options.delete_old_models o;
     Options.upload_models := Options.upload_models o;
     Options.upload_every := Options.upload_every o;
     Options.account_url := Options.account_url o;
     Options.credential := Options.credential o;
     Options.container_name := Options.container_name o |}.

(** A process that was configured for uploads by an earlier run and now
    holds the freshly built [model_args] of the next one. *)
Definition second_run (o : Options.t) (w : t) : state t :=
  {| world := w; globs := policy true true 10;
     heap := {[ 0%N := build_model_args o ]}; log := [] |}.

(** A process whose [model_args] is an empty dictionary. *)
Definition bare (w : t) : state t :=
  {| world := w; globs := module_globals; heap := {[ 0%N := ∅ ]}; log := [] |}.

(** The options [o] with interpolation switched on. *)
Definition interpolating (o : Options.t) : Options.t :=
  {|
     Options.data := Options.data o;
     Options.results_dir := Options.results_dir o;
     Options.models_dir := Options.models_dir o;
     Options.name := Options.name o;
     Options.new := Options.new o;
     Options.load_from := Options.load_from o;
     Options.image_size := Options.image_size o;
     Options.network_capacity := Options.network_capacity o;
     Options.fmap_max := Options.fmap_max o;
     Options.transparent := Options.transparent o;
     Options.batch_size := Options.batch_size o;
     Options.gradient_accumulate_every := Options.gradient_accumulate_every o;
     Options.num_train_steps := Options.num_train_steps o;
     Options.learning_rate := Options.learning_rate o;
     Options.lr_mlp := Options.lr_mlp o;
     Options.ttur_mult := Options.ttur_mult o;
     Options.rel_disc_loss := Options.rel_disc_loss o;
     Options.num_workers := Options.num_workers o;
     Options.save_every := Options.save_every o;
     Options.save_callback := Options.save_callback o;
     Options.evaluate_every := Options.evaluate_every o;
     Options.evaluate_callback := Options.evaluate_callback o;
     Options.generate := Options.generate o;
     Options.num_generate := Options.num_generate o;
     Options.generate_interpolation := VBool true;
     Options.interpolation_num_steps := Options.interpolation_num_steps o;
     Options.save_frames := Options.save_frames o;
     Options.num_image_tiles := Options.num_image_tiles o;
     Options.trunc_psi := Options.trunc_psi o;
     Options.mixed_prob := Options.mixed_prob o;
     Options.fp16 := Options.fp16 o;
     Options.no_pl_reg := Options.no_pl_reg o;
     Options.cl_reg := Options.cl_reg o;
     Options.fq_layers := Options.fq_layers o;
     Options.fq_dict_size := Options.fq_dict_size o;
     Options.attn_layers := Options.attn_layers o;
     Options.no_const := Options.no_const o;
     Options.aug_prob := Options.aug_prob o;
     Options.aug_types := Options.aug_types o;
     Options.top_k_training := Options.top_k_training o;
     Options.generator_top_k_gamma := Options.generator_top_k_gamma o;
     Options.generator_top_k_frac := Options.generator_top_k_frac o;
     Options.dual_contrast_loss := Options.dual_contrast_loss o;
     Options.dataset_aug_prob := Options.dataset_aug_prob o;
     Options.multi_gpus := Options.multi_gpus o;
     Options.calculate_fid_every := Options.calculate_fid_every o;
     Options.calculate_fid_num_images := Options.calculate_fid_num_images o;
     Options.clear_fid_cache := Options.clear_fid_cache o;
     Options.seed := Options.seed o;
     Options.log := Options.log o;
     Options.lookahead := Options.lookahead o;
     Options.lookahead_alpha := Options.lookahead_alpha o;
     Options.lookahead_k := Options.lookahead_k o;
     Options.ema_beta := Options.ema_beta o;
     Options.delete_old_models := Options.delete_old_models o;
     Options.upload_models := Options.upload_models o;
     Options.upload_every := Options.upload_every o;
     Options.account_url := Options.account_url o;
     Options.credential := Options.credential o;
     Options.container_name := Options.container_name o |}.

(** A world whose directory cannot be listed. *)
Definition unlistable : t :=
  {| listing := Raise (Exn FileNotFoundError "models/default"); remove_errors := [];
     devices := 1; train_script := []; steps := 0; upload_error := None |}.

End Mock.

(** ** Further observations *)

(** [c in s] for a character. *)
Fixpoint has_char (c : ascii) (s : string) : bool :=
  match s with
  | EmptyString => false
  | String x s' => Ascii.eqb x c || has_char c s'
  end.

(** The string holds a path separator. *)
Definition has_sep (s : string) : bool := has_char PyStr.sep s.

(** The string is empty or ends with a path separator. *)
Fixpoint ends_sep (s : string) : bool :=
  match s with
  | EmptyString => true
  | String c EmptyString => Ascii.eqb c PyStr.sep
  | String _ s' => ends_sep s'
  end.

(** The calls of [model.evaluate], as (name, number), in order. *)
Definition evaluations (evs : list event) : list (string * Z) :=
  evs ≫= (λ ev, match ev with
                | ECall (model_evaluate _ name num _) _ => [(name, num)]
                | _ => []
                end).

(** The calls the training loop makes on [model] and [bar]; the log line
    only when the process is the main one. *)
Definition loop_call (is_main : bool) (model bar : N) (c : call) : Prop :=
  c = model_train model ∨ c = model_steps model ∨
  (∃ n, c = tqdm_refresh bar n) ∨
  (is_main = true ∧ c = model_print_log model).

(** The calls through which the callback reaches the blob store. *)
Definition blob_call (c : call) : Prop :=
  (∃ container dest, c = get_blob_client container dest) ∨
  (∃ path, c = open_rb path) ∨
  (∃ blob data, c = upload_blob blob data) ∨
  (∃ data, c = file_close data).

(** The calls of the pruning loop. *)
Definition directory_call (c : call) : Prop :=
  (∃ p, c = os_listdir p) ∨ (∃ p, c = os_remove p).

(** How a [with] block ends: with the exception of the exit if it raised,
    else with that of the body. *)
Definition after_with (body close : option exn) : outcome unit :=
  match close with
  | Some e => Raise e
  | None => match body with Some e => Raise e | None => Ok tt end
  end.

(** The events of lines 58-62 for the container client [container] and
    the blob name [dest], and how the lines end. *)
Definition upload_events (container : N) (dest model_path : string)
    (evs : list event) (o : outcome unit) : Prop :=
  (∃ e, evs = [ECall (get_blob_client container dest) (Some e)] ∧ o = Raise e) ∨
  (∃ e, evs = [ECall (get_blob_client container dest) None;
               EPrint ("Uploading to " +:+ dest);
               ECall (open_rb model_path) (Some e)] ∧ o = Raise e) ∨
  (∃ blob data r r',
     evs = [ECall (get_blob_client container dest) None;
            EPrint ("Uploading to " +:+ dest);
            ECall (open_rb model_path) None;
            ECall (upload_blob blob data) r;
            ECall (file_close data) r'] ∧ o = after_with r r').

(** The conditions of lines 54-58 under which the callback reaches the
    blob store. *)
Definition upload_gate (g : globals) (file_name : string) (container : N) : Prop :=
  truthy (_upload_models g) = Some true ∧
  _container_client g = VObj container ∧
  ∃ digits, PyStr.re_match_model file_name = Some digits ∧
            mod_is_zero (PyStr.int digits) (_upload_every g) = Ok true.

(** The calls of [set_seed] and of the process group. *)
Definition distributed_call (c : call) : Prop :=
  (∃ seed, c = torch_manual_seed seed) ∨ (∃ flag b, c = cudnn_set flag b) ∨
  (∃ seed, c = np_random_seed seed) ∨ (∃ seed, c = random_seed seed) ∨
  (∃ k v, c = environ_set k v) ∨
  (∃ backend rank ws, c = init_process_group backend rank ws) ∨
  c = destroy_process_group.

(** The calls of lines 90-121: joining the process group when the run is
    distributed, the two clients on the main process, the Trainer. *)
Definition setup_call (is_main is_ddp : bool) (c : call) : Prop :=
  (is_ddp = true ∧ distributed_call c ∧ c ≠ destroy_process_group) ∨
  (is_main = true ∧
   ((∃ url credential, c = BlobServiceClient url credential) ∨
    (∃ service name, c = get_container_client service name))) ∨
  (∃ kwargs, c = Trainer kwargs).

(** The calls that lines 90-107 make before the Trainer is built: those of
    [set_seed] and of the process group in a distributed run, the two
    clients on the main process when uploading is already enabled. *)
Definition early_call (is_main is_ddp uploading : bool) (c : call) : Prop :=
  (is_ddp = true ∧ distributed_call c ∧ c ≠ destroy_process_group) ∨
  (is_main = true ∧ uploading = true ∧
   ((∃ url credential, c = BlobServiceClient url credential) ∨
    (∃ service name, c = get_container_client service name))).

(** What the main process needs of [model_args] (lines 106-112): a flag
    whose truth value exists, the three policy entries, and the three
    entries of the clients when uploading is already enabled. *)
Definition main_entries (flag : value) (d : gmap string value) : Prop :=
  is_Some (truthy flag) ∧
  is_Some (d !! "upload_models") ∧ is_Some (d !! "upload_every") ∧
  is_Some (d !! "delete_old_models") ∧
  (truthy flag = Some true →
   is_Some (d !! "account_url") ∧ is_Some (d !! "credential") ∧
   is_Some (d !! "container_name")).

(** The calls of lines 123-141 on the Trainer [model]. *)
Definition training_call (new load_from : value) (is_main is_ddp : bool)
    (model : N) (c : call) : Prop :=
  (truthy new = Some false ∧ c = model_load model load_from) ∨
  (truthy new = Some true ∧ c = model_clear model) ∨
  (∃ data, c = model_set_data_src model data) ∨
  c = model_steps model ∨
  (∃ initial total desc, c = tqdm initial total desc) ∨
  (∃ bar, loop_call is_main model bar c) ∨
  c = model_checkpoint_num model ∨
  (∃ num, c = model_save model num) ∨
  (is_ddp = true ∧ c = destroy_process_group).

(** The calls of [run_training]. *)
Definition run_training_call (new load_from : value) (is_main is_ddp : bool)
    (c : call) : Prop :=
  setup_call is_main is_ddp c ∨
  ∃ model, training_call new load_from is_main is_ddp model c.

(** What a process of another rank than 0 never calls. *)
Definition worker_call (c : call) : Prop :=
  (∀ model, c ≠ model_print_log model) ∧
  (∀ url credential, c ≠ BlobServiceClient url credential) ∧
  (∀ service name, c ≠ get_container_client service name).

(** A call other than the three that end [run_training] (lines 138-141). *)
Definition not_closing (c : call) : Prop :=
  (∀ model, c ≠ model_checkpoint_num model) ∧
  (∀ model num, c ≠ model_save model num) ∧
  c ≠ destroy_process_group.

(** How lines 138-141 run on [model]: the events they add and how they
    end. *)
Definition final_save (is_ddp : bool) (model : N) (tail : list event)
    (o : outcome completion) : Prop :=
  (∃ e, tail = [ECall (model_checkpoint_num model) (Some e)] ∧ o = Raise e) ∨
  (∃ num e, tail = [ECall (model_checkpoint_num model) None;
                    ECall (model_save model num) (Some e)] ∧ o = Raise e) ∨
  (∃ num, is_ddp = false ∧
          tail = [ECall (model_checkpoint_num model) None;
                  ECall (model_save model num) None] ∧ o = Ok Finished) ∨
  (∃ num r, is_ddp = true ∧
            tail = [ECall (model_checkpoint_num model) None;
                    ECall (model_save model num) None;
                    ECall destroy_process_group r] ∧
            o = match r with Some e => Raise e | None => Ok Finished end).

(** The calls of generation mode (lines 267-274). *)
Definition generation_call (c : call) : Prop :=
  (∃ kw, c = Trainer kw) ∨ (∃ m x, c = model_load m x) ∨ c = timestamp_now ∨
  (∃ n, c = tqdm_range n) ∨ (∃ m name num tiles, c = model_evaluate m name num tiles).

(** * Properties *)

(** ** Strings and paths *)

Lemma append_nil_l s : EmptyString +:+ s = s.
Proof. reflexivity. Qed.

Lemma append_cons c s t : String c s +:+ t = String c (s +:+ t).
Proof. reflexivity. Qed.

Lemma endswith_refl s : PyStr.endswith s s = true.
Proof. destruct s; cbn [PyStr.endswith]; rewrite String.eqb_refl; reflexivity. Qed.

Lemma endswith_app pre suf : PyStr.endswith (pre +:+ suf) suf = true.
Proof.
  induction pre as [|c pre IH]; simpl.
  - apply endswith_refl.
  - rewrite IH. apply orb_true_r.
Qed.

Lemma append_assoc a b c : (a +:+ b) +:+ c = a +:+ b +:+ c.
Proof. induction a as [|x a IH]; [reflexivity|]. rewrite !append_cons, IH. reflexivity. Qed.

Lemma endswith_app2 a b suf : PyStr.endswith (a +:+ b +:+ suf) suf = true.
Proof. rewrite <- append_assoc. apply endswith_app. Qed.

Lemma endswith_inv s suf :
  PyStr.endswith s suf = true → ∃ pre, s = pre +:+ suf.
Proof.
  induction s as [|c s IH]; cbn [PyStr.endswith]; intros H.
  - rewrite orb_false_r in H. apply String.eqb_eq in H. subst suf.
    exists EmptyString. reflexivity.
  - apply orb_true_iff in H as [H|H].
    + apply String.eqb_eq in H. subst suf. exists EmptyString. reflexivity.
    + destruct (IH H) as [pre ->]. exists (String c pre). reflexivity.
Qed.

Lemma append_cancel_l p a b : p +:+ a = p +:+ b → a = b.
Proof. apply String.app_inj. Qed.

Lemma split_at_last_sep_app p :
  p = fst (PyStr.split_at_last_sep p) +:+ snd (PyStr.split_at_last_sep p).
Proof.
  induction p as [|c p IH]; simpl; [reflexivity|].
  destruct (PyStr.split_at_last_sep p) as [h t]; simpl in *.
  destruct h as [|a h]; simpl in *.
  - rewrite append_nil_l in IH. subst p.
    destruct (Ascii.eqb c PyStr.sep); simpl;
      rewrite ?append_cons, ?append_nil_l; reflexivity.
  - rewrite append_cons. congruence.
Qed.

Lemma path_split_tail p :
  snd (PyStr.path_split p) = snd (PyStr.split_at_last_sep p).
Proof.
  unfold PyStr.path_split. destruct (PyStr.split_at_last_sep p) as [h t].
  destruct (negb (PyStr.is_empty h) && negb (PyStr.all_sep h)); reflexivity.
Qed.

(** The saved path ends with its own file name. *)
Lemma endswith_file_name p : PyStr.endswith p (snd (PyStr.path_split p)) = true.
Proof.
  rewrite path_split_tail. rewrite (split_at_last_sep_app p) at 1.
  apply endswith_app.
Qed.

(** ** Frame rules *)

Section FrameRules.

Context {W : Type}.
Context (R : state W → state W → Prop) `{!PreOrder R}.

Lemma preserves_ret {A} (a : A) : preserves R (mret a).
Proof. intros σ. reflexivity. Qed.

Lemma preserves_raise {A} cls msg : preserves R (raise (A := A) cls msg).
Proof. intros σ. reflexivity. Qed.

Lemma preserves_lift {A} (o : outcome A) : preserves R (lift_outcome o).
Proof. intros σ. reflexivity. Qed.

Lemma preserves_get_globals : preserves R get_globals.
Proof. intros σ. reflexivity. Qed.

Lemma preserves_test v : preserves R (test v).
Proof. intros σ. unfold test. destruct (truthy v); reflexivity. Qed.

Lemma preserves_bind {A B} (m : M W A) (k : A → M W B) :
  preserves R m → (∀ a, preserves R (k a)) → preserves R (mbind m k).
Proof.
  intros Hm Hk σ. unfold mbind. specialize (Hm σ).
  destruct (m σ) as [[a|e] σ1]; simpl in *; [|assumption].
  etransitivity; [eassumption|apply Hk].
Qed.

Lemma preserves_try_except {A} (m : M W A) cls (handler : exn → M W A) :
  preserves R m → (∀ e, preserves R (handler e)) →
  preserves R (try_except m cls handler).
Proof.
  intros Hm Hh σ. unfold try_except. specialize (Hm σ).
  destruct (m σ) as [[a|e] σ1]; simpl in *; [assumption|].
  destruct (isinstance e cls); [|assumption].
  etransitivity; [eassumption|apply Hh].
Qed.

Lemma preserves_try_finally {A} (m : M W A) (cleanup : M W unit) :
  preserves R m → preserves R cleanup → preserves R (try_finally m cleanup).
Proof.
  intros Hm Hc σ. unfold try_finally. specialize (Hm σ).
  destruct (m σ) as [o σ1]; simpl in *. specialize (Hc σ1).
  destruct (cleanup σ1) as [[u|e] σ2]; simpl in *; etransitivity; eassumption.
Qed.

Lemma preserves_for_each {A} (l : list A) (body : A → M W unit) :
  (∀ i, preserves R (body i)) → preserves R (for_each l body).
Proof.
  intros Hb. induction l as [|i l IH]; simpl.
  - apply preserves_ret.
  - apply preserves_bind; [apply Hb|intros _; exact IH].
Qed.

(** A step that leaves a related state behind. *)
Lemma preserves_step {A} (m : M W A) :
  (∀ σ, R σ (snd (m σ))) → preserves R m.
Proof. auto. Qed.

End FrameRules.

(** Finds the case of a disjunction of conjunctions and existentials that
    holds by the hypotheses. *)
Ltac pick :=
  first [ reflexivity | eassumption | split; pick | eexists; pick
        | left; pick | right; pick ].

(** Splits a frame goal along the structure of the program, down to the
    primitive steps, which [leaf] has to solve. *)
Ltac frame_with leaf :=
  repeat first
    [ match goal with
      | |- PreOrder _ => apply _
      | |- ∀ _, preserves _ _ => intros ?
      end
    | leaf
    | apply preserves_ret
    | apply preserves_raise
    | apply preserves_lift
    | apply preserves_get_globals
    | apply preserves_test
    | apply preserves_bind
    | apply preserves_try_except
    | apply preserves_try_finally
    | apply preserves_for_each
    | match goal with
      | |- preserves _ (if ?b then _ else _) => destruct b eqn:?
      | |- preserves _ (match ?x with _ => _ end) => destruct x eqn:?
      end ].

(** ** The three relations are preorders *)

Section Relations.

Context {W : Type}.

#[global] Instance log_grows_preorder φ : PreOrder (log_grows (W := W) φ).
Proof.
  split.
  - intros σ. exists []. rewrite app_nil_r. auto.
  - intros σ1 σ2 σ3 (e1 & H1 & F1) (e2 & H2 & F2). exists (e1 ++ e2).
    rewrite H2, H1, app_assoc. split; [reflexivity|]. apply Forall_app; auto.
Qed.

#[global] Instance same_globs_preorder : PreOrder (same_globs (W := W)).
Proof. unfold same_globs. split; [intros σ; reflexivity|intros σ1 σ2 σ3; congruence]. Qed.

#[global] Instance same_heap_preorder : PreOrder (same_heap (W := W)).
Proof. unfold same_heap. split; [intros σ; reflexivity|intros σ1 σ2 σ3; congruence]. Qed.

#[global] Instance same_policy_preorder : PreOrder (same_policy (W := W)).
Proof.
  unfold same_policy. split; [intros σ; auto|].
  intros σ1 σ2 σ3 (A1 & B1 & C1) (A2 & B2 & C2). repeat split; congruence.
Qed.

#[global] Instance heap_frame_preorder l keys : PreOrder (heap_frame (W := W) l keys).
Proof.
  split.
  - intros σ. split; [auto|split; eauto].
  - intros σ1 σ2 σ3 (A1 & B1 & C1) (A2 & B2 & C2). split; [|split].
    + intros l' Hl'. rewrite A2, A1; auto.
    + intros d Hd. destruct (B1 d Hd) as (d1 & Hd1 & K1).
      destruct (B2 d1 Hd1) as (d2 & Hd2 & K2). exists d2. split; [assumption|].
      intros k Hk. rewrite K2, K1; auto.
    + auto.
Qed.

Lemma log_grows_same φ (σ σ' : state W) : log σ' = log σ → log_grows φ σ σ'.
Proof. intros H. exists []. rewrite app_nil_r. auto. Qed.

Lemma log_grows_one φ (σ σ' : state W) ev :
  log σ' = log σ ++ [ev] → φ ev → log_grows φ σ σ'.
Proof. intros H Hev. exists [ev]. auto. Qed.

Lemma log_grows_weaken (φ ψ : event → Prop) (σ σ' : state W) :
  (∀ ev, φ ev → ψ ev) → log_grows φ σ σ' → log_grows ψ σ σ'.
Proof.
  intros Himp (evs & H & F). exists evs. split; [assumption|].
  eapply Forall_impl; eauto.
Qed.

Variable oracle : ∀ c : call, W → outcome (ret c) * W.

Lemma ext_log φ c : (∀ r, φ (ECall c r)) → preserves (log_grows φ) (ext oracle c).
Proof.
  intros H σ. unfold ext. destruct (oracle c (world σ)) as [o w'].
  eapply log_grows_one; [reflexivity|apply H].
Qed.

Lemma print_log φ line : φ (EPrint line) → preserves (W := W) (log_grows φ) (print line).
Proof. intros H σ. eapply log_grows_one; [reflexivity|apply H]. Qed.

Lemma warn_log φ line : φ (EWarn line) → preserves (W := W) (log_grows φ) (warn line).
Proof. intros H σ. eapply log_grows_one; [reflexivity|apply H]. Qed.

Lemma sleep_log φ s : φ (ESleep s) → preserves (W := W) (log_grows φ) (sleep s).
Proof. intros H σ. eapply log_grows_one; [reflexivity|apply H]. Qed.

Lemma ext_same_globs c : preserves same_globs (ext oracle c).
Proof. intros σ. unfold ext. destruct (oracle c (world σ)). reflexivity. Qed.

Lemma ext_same_heap c : preserves same_heap (ext oracle c).
Proof. intros σ. unfold ext. destruct (oracle c (world σ)). reflexivity. Qed.

Lemma print_same_globs line : preserves (W := W) same_globs (print line).
Proof. intros σ. reflexivity. Qed.

Lemma print_same_heap line : preserves (W := W) same_heap (print line).
Proof. intros σ. reflexivity. Qed.

End Relations.

(** ** Pruning (lines 36-52) *)

Lemma removed_paths_spec evs p :
  p ∈ removed_paths evs ↔ ∃ r, ECall (os_remove p) r ∈ evs.
Proof.
  unfold removed_paths. rewrite list_elem_of_bind. split.
  - intros (ev & Hp & Hev). destruct ev as [| | |c r]; try (by inversion Hp).
    destruct c; try (by inversion Hp).
    apply list_elem_of_singleton in Hp. subst. eauto.
  - intros (r & Hev). exists (ECall (os_remove p) r). split; [|assumption].
    apply list_elem_of_singleton. reflexivity.
Qed.

(** Solves the frame goal of a primitive step whose call is none of those
    the property [P] speaks about. *)
Ltac other_call :=
  solve [ match goal with
          | |- preserves _ (ext ?o ?c) => apply (ext_log o _ c)
          end; intros ? ? ? [= <- <-]; intros; discriminate
        | apply print_log; intros ? ? [=]
        | apply warn_log; intros ? ? [=]
        | apply sleep_log; intros ? ? [=] ].

Section Pruning.

Context {W : Type}.
Variable oracle : ∀ c : call, W → outcome (ret c) * W.

Lemma prune_entry_removes file_path model_path i :
  preserves (log_grows (calls_satisfy (removes_deletable file_path model_path)))
    (prune_entry oracle file_path model_path i).
Proof.
  unfold prune_entry.
  destruct (PyStr.startswith i "model_") eqn:Hs,
           (PyStr.endswith i ".pt") eqn:He; simpl;
    try (apply print_log; intros ? ? [=]).
  destruct (PyStr.endswith model_path i) eqn:Hm;
    [apply print_log; intros ? ? [=]|].
  frame_with other_call.
  apply (ext_log oracle _ (os_remove _)).
  intros r c r' [= <- <-] p [= <-]. exists i. split; [reflexivity|].
  unfold deletable, is_model_file. rewrite Hs, He, Hm. reflexivity.
Qed.

Lemma on_model_save_removes model_path :
  preserves
    (log_grows (calls_satisfy
       (removes_deletable (fst (PyStr.path_split model_path)) model_path)))
    (on_model_save oracle model_path).
Proof.
  unfold on_model_save. destruct (PyStr.path_split model_path) as [fp fn]. simpl.
  unfold prune, upload.
  frame_with ltac:(first [other_call | apply prune_entry_removes]).
Qed.

End Pruning.

(** C2. Whatever the directory holds and whatever the oracle answers,
    [on_model_save] never calls [os.remove] on the path it was given, nor on
    [file_path/file_name], the same file written through [os.path.split]. *)
Theorem prune_never_removes_saved_path {W}
    (oracle : ∀ c : call, W → outcome (ret c) * W) (σ : state W) (model_path : string) :
  ∃ evs, log (snd (on_model_save oracle model_path σ)) = log σ ++ evs ∧
    ∀ p, p ∈ removed_paths evs →
      p ≠ model_path ∧
      p ≠ fst (PyStr.path_split model_path) +:+ "/" +:+ snd (PyStr.path_split model_path).
Proof.
  destruct (on_model_save_removes oracle model_path σ) as (evs & Hlog & Hall).
  exists evs. split; [assumption|].
  intros p [r Hin]%removed_paths_spec.
  rewrite Forall_forall in Hall.
  destruct (Hall _ Hin _ _ eq_refl p eq_refl) as (i & -> & Hdel).
  unfold deletable in Hdel. apply andb_true_iff in Hdel as [_ Hsuf].
  apply negb_true_iff in Hsuf. split.
  - intros Heq. rewrite <- Heq, endswith_app2 in Hsuf. discriminate.
  - intros Heq. apply append_cancel_l in Heq. apply append_cancel_l in Heq.
    subst i. rewrite endswith_file_name in Hsuf. discriminate.
Qed.

Section PruningEntries.

Context {W : Type}.
Variable oracle : ∀ c : call, W → outcome (ret c) * W.

Lemma not_deletable_not_removed (σ : state W) model_path i :
  deletable model_path i = false →
  ∃ evs, log (snd (on_model_save oracle model_path σ)) = log σ ++ evs ∧
         fst (PyStr.path_split model_path) +:+ "/" +:+ i ∉ removed_paths evs.
Proof.
  intros Hdel.
  destruct (on_model_save_removes oracle model_path σ) as (evs & Hlog & Hall).
  exists evs. split; [assumption|].
  intros [r Hin]%removed_paths_spec. rewrite Forall_forall in Hall.
  destruct (Hall _ Hin _ _ eq_refl _ eq_refl) as (j & Heq & Hj).
  do 2 apply append_cancel_l in Heq. congruence.
Qed.

(** An entry that is not deletable costs one line of output. *)
Lemma prune_entry_skip file_path model_path i (σ : state W) :
  deletable model_path i = false →
  prune_entry oracle file_path model_path i σ =
    print ("Skipping delete of " +:+ i +:+
           (if is_model_file i then " (current epoch)" else " (not model file)")) σ.
Proof.
  unfold deletable, is_model_file, prune_entry.
  destruct (PyStr.startswith i "model_"), (PyStr.endswith i ".pt"); simpl;
    try reflexivity.
  intros ->%negb_false_iff. reflexivity.
Qed.

Lemma prune_entry_delete file_path model_path i (σ : state W) :
  deletable model_path i = true →
  prune_entry oracle file_path model_path i σ =
    (print ("Deleting " +:+ i) ;;
     try_except (ext oracle (os_remove (file_path +:+ "/" +:+ i))) OSError
       (λ e, print ("Caught exception: " +:+ exn_msg e))) σ.
Proof.
  unfold deletable, is_model_file, prune_entry.
  destruct (PyStr.startswith i "model_"), (PyStr.endswith i ".pt"); simpl;
    try discriminate.
  intros ->%negb_true_iff. reflexivity.
Qed.

End PruningEntries.

(** C3. An entry that does not start with [model_] or does not end with
    [.pt] only produces the line "Skipping delete of ... (not model file)",
    and [on_model_save] never calls [os.remove] on it. *)
Theorem prune_skips_unexpected_files {W}
    (oracle : ∀ c : call, W → outcome (ret c) * W) (σ : state W)
    (model_path i : string) :
  is_model_file i = false →
  prune_entry oracle (fst (PyStr.path_split model_path)) model_path i σ =
    print ("Skipping delete of " +:+ i +:+ " (not model file)") σ ∧
  ∃ evs, log (snd (on_model_save oracle model_path σ)) = log σ ++ evs ∧
         fst (PyStr.path_split model_path) +:+ "/" +:+ i ∉ removed_paths evs.
Proof.
  intros Hi.
  assert (Hdel : deletable model_path i = false)
    by (unfold deletable; rewrite Hi; reflexivity).
  split.
  - rewrite prune_entry_skip by assumption. rewrite Hi. reflexivity.
  - apply not_deletable_not_removed. assumption.
Qed.

(** C9, as amended.  The skip test is a suffix test on the saved path:
    saving [models/default/best_model_20.pt] skips the entry [model_20.pt],
    which is a model file and not the file being saved.  The path
    [models/default/model_120.pt] does not end with [model_20.pt], so there
    the entry [model_20.pt] is deleted like any other. *)
Theorem suffix_test_skips_other_file {W}
    (oracle : ∀ c : call, W → outcome (ret c) * W) (σ : state W) :
  PyStr.path_split "models/default/best_model_20.pt"
    = ("models/default", "best_model_20.pt") ∧
  is_model_file "model_20.pt" = true ∧
  prune_entry oracle "models/default" "models/default/best_model_20.pt" "model_20.pt" σ =
    print "Skipping delete of model_20.pt (current epoch)" σ ∧
  (∃ evs,
     log (snd (on_model_save oracle "models/default/best_model_20.pt" σ)) = log σ ++ evs ∧
     "models/default/model_20.pt" ∉ removed_paths evs) ∧
  deletable "models/default/model_120.pt" "model_20.pt" = true.
Proof.
  split; [reflexivity|]. split; [reflexivity|]. split; [|split; [|reflexivity]].
  - rewrite prune_entry_skip by reflexivity. reflexivity.
  - apply (not_deletable_not_removed oracle σ "models/default/best_model_20.pt" "model_20.pt").
    reflexivity.
Qed.

(** ** Deletion errors (lines 49-52) *)

Section DeletionErrors.

Context {W : Type}.
Variable oracle : ∀ c : call, W → outcome (ret c) * W.

(** The events of one turn of the loop on a deletable entry, by what
    [os.remove] answered. *)
Lemma prune_entry_delete_run file_path model_path i (σ : state W) :
  deletable model_path i = true →
  let p := file_path +:+ "/" +:+ i in
  let r := prune_entry oracle file_path model_path i σ in
  world (snd r) = snd (oracle (os_remove p) (world σ)) ∧
  match fst (oracle (os_remove p) (world σ)) with
  | Ok _ =>
      fst r = Ok tt ∧
      log (snd r) = log σ ++ [EPrint ("Deleting " +:+ i); ECall (os_remove p) None]
  | Raise e =>
      if isinstance e OSError
      then fst r = Ok tt ∧
           log (snd r) = log σ ++ [EPrint ("Deleting " +:+ i);
                                   ECall (os_remove p) (Some e);
                                   EPrint ("Caught exception: " +:+ exn_msg e)]
      else fst r = Raise e ∧
           log (snd r) = log σ ++ [EPrint ("Deleting " +:+ i);
                                   ECall (os_remove p) (Some e)]
  end.
Proof.
  intros Hdel p r. subst r. rewrite prune_entry_delete by assumption.
  unfold mbind, print, try_except, ext. simpl. fold p.
  destruct (oracle (os_remove p) (world σ)) as [[[]|e] w']; simpl.
  - rewrite <- app_assoc. auto.
  - destruct (isinstance e OSError); simpl; rewrite <- !app_assoc; auto.
Qed.

End DeletionErrors.

Lemma caught_and_logged_app a b :
  caught_and_logged a → no_pending_OSError a → caught_and_logged b →
  caught_and_logged (a ++ b).
Proof.
  intros Ha Hlast Hb n p e Hn Hos.
  destruct (decide (n < length a)%nat) as [Hlt|Hge].
  - rewrite lookup_app_l in Hn by assumption.
    destruct (decide (S n < length a)%nat) as [Hlt'|Hge'].
    + rewrite lookup_app_l by assumption. eauto.
    + assert (Hl : last a = Some (ECall (os_remove p) (Some e))).
      { rewrite last_lookup. replace (pred (length a)) with n by lia. assumption. }
      apply Hlast in Hl. congruence.
  - rewrite lookup_app_r in Hn by lia. rewrite lookup_app_r by lia.
    replace (S n - length a)%nat with (S (n - length a)) by lia. eauto.
Qed.

Lemma no_pending_app a b :
  no_pending_OSError a → no_pending_OSError b → no_pending_OSError (a ++ b).
Proof.
  intros Ha Hb p e. destruct b as [|x b] using rev_ind.
  - rewrite app_nil_r. apply Ha.
  - rewrite app_assoc, !last_snoc. intros H. apply (Hb p e). rewrite last_snoc. assumption.
Qed.

Lemma caught_no_pending evs : caught_and_logged evs → no_pending_OSError evs.
Proof.
  intros H p e Hl. destruct (isinstance e OSError) eqn:Hos; [|reflexivity].
  rewrite last_lookup in Hl. destruct evs as [|x evs]; [discriminate|]. simpl in Hl.
  specialize (H _ _ _ Hl Hos). apply lookup_lt_Some in H. simpl in H. lia.
Qed.

Lemma removed_paths_app a b : removed_paths (a ++ b) = removed_paths a ++ removed_paths b.
Proof. apply bind_app. Qed.

Section PruneLoop.

Context {W : Type}.
Variable oracle : ∀ c : call, W → outcome (ret c) * W.

Lemma prune_loop_run file_path model_path entries (σ : state W) :
  let r := for_each entries (prune_entry oracle file_path model_path) σ in
  ∃ evs, log (snd r) = log σ ++ evs ∧ caught_and_logged evs ∧
    match fst r with
    | Ok _ =>
        removed_paths evs =
          (λ i, file_path +:+ "/" +:+ i) <$> List.filter (deletable model_path) entries
    | Raise e =>
        isinstance e OSError = false ∧
        ∃ p, last evs = Some (ECall (os_remove p) (Some e))
    end.
Proof.
  revert σ. induction entries as [|i entries IH]; intros σ; simpl.
  - exists []. rewrite app_nil_r. repeat split; try reflexivity.
    intros n p e Hn. discriminate.
  - unfold mbind.
    (* the rest of the loop, once the turn for [i] has left [σ1] behind *)
    assert (Hrest : ∀ σ1 a,
      log σ1 = log σ ++ a → caught_and_logged a → no_pending_OSError a →
      removed_paths a = (λ i, file_path +:+ "/" +:+ i) <$>
                          (if deletable model_path i then [i] else []) →
      let r := for_each entries (prune_entry oracle file_path model_path) σ1 in
      ∃ evs, log (snd r) = log σ ++ evs ∧ caught_and_logged evs ∧
        match fst r with
        | Ok _ =>
            removed_paths evs =
              (λ i, file_path +:+ "/" +:+ i) <$>
                (if deletable model_path i
                 then i :: List.filter (deletable model_path) entries
                 else List.filter (deletable model_path) entries)
        | Raise e =>
            isinstance e OSError = false ∧
            ∃ p, last evs = Some (ECall (os_remove p) (Some e))
        end).
    { intros σ1 a Hlog Ha Hpend Hrm. specialize (IH σ1). revert IH. simpl.
      destruct (for_each entries _ σ1) as [[u|e2] σ2]; simpl;
        intros (evs & Hl & Hc & Hres); exists (a ++ evs);
        rewrite Hl, Hlog, <- app_assoc; (split; [reflexivity|]);
        (split; [apply caught_and_logged_app; assumption|]).
      - rewrite removed_paths_app, Hres, Hrm.
        destruct (deletable model_path i); reflexivity.
      - destruct Hres as (Hos & p & Hp). split; [assumption|]. exists p.
        destruct evs as [|x evs _] using rev_ind; [discriminate|].
        rewrite app_assoc, last_snoc. rewrite last_snoc in Hp. assumption. }
    destruct (deletable model_path i) eqn:Hdel.
    + pose proof (prune_entry_delete_run oracle file_path model_path i σ Hdel) as Hrun.
      simpl in Hrun. destruct Hrun as [_ Hrun].
      destruct (prune_entry oracle file_path model_path i σ) as [o1 σ1]. simpl in Hrun.
      revert Hrun.
      destruct (oracle (os_remove (file_path +:+ "/" +:+ i)) (world σ)) as [[[]|e] w'];
        simpl; [|destruct (isinstance e OSError) eqn:Hos]; intros [-> Hlog].
      * eapply Hrest; [exact Hlog| | |reflexivity].
        -- intros [|[|n]] p e H; simpl in H; discriminate.
        -- intros p e H. simpl in H. discriminate.
      * eapply Hrest; [exact Hlog| | |reflexivity].
        -- intros [|[|[|n]]] p e' H; simpl in H; try discriminate.
           injection H as <- <-. intros _. reflexivity.
        -- intros p e' H. simpl in H. discriminate.
      * simpl. eexists. split; [exact Hlog|]. split.
        -- intros [|[|n]] p e' H; simpl in H; try discriminate.
           injection H as <- <-. congruence.
        -- split; [assumption|]. eexists. reflexivity.
    + rewrite prune_entry_skip by assumption. unfold print. simpl.
      eapply Hrest; [reflexivity| | |reflexivity].
      * intros [|n] p e H; simpl in H; discriminate.
      * intros p e H. simpl in H. discriminate.
Qed.

End PruneLoop.

Lemma no_removes_caught evs :
  Forall (calls_satisfy (λ c, ∀ p, c ≠ os_remove p)) evs → caught_and_logged evs.
Proof.
  intros Hall n p e Hn _. rewrite Forall_forall in Hall.
  apply list_elem_of_lookup_2 in Hn. exfalso. exact (Hall _ Hn _ _ eq_refl p eq_refl).
Qed.

Section CallbackErrors.

Context {W : Type}.
Variable oracle : ∀ c : call, W → outcome (ret c) * W.

Lemma prune_caught file_path model_path (σ : state W) :
  ∃ evs, log (snd (prune oracle file_path model_path σ)) = log σ ++ evs ∧
         caught_and_logged evs.
Proof.
  unfold prune, mbind, get_globals, test.
  destruct (truthy (_delete_old_models (globs σ))) as [[|]|]; simpl;
    try (exists []; rewrite app_nil_r; split; [reflexivity|intros n ? ? ?; discriminate]).
  unfold ext. destruct (oracle (os_listdir file_path) (world σ)) as [[entries|e] w']; simpl.
  - match goal with |- context [for_each entries _ ?σ1] =>
      destruct (prune_loop_run oracle file_path model_path entries σ1)
        as (evs & Hl & Hc & _)
    end.
    simpl in Hl. eexists (_ ++ evs). rewrite Hl, <- app_assoc. split; [reflexivity|].
    apply caught_and_logged_app; [| |assumption].
    + intros [|n] p e H; simpl in H; discriminate.
    + intros p e H. simpl in H. discriminate.
  - eexists. split; [reflexivity|]. intros [|n] p e' H; simpl in H; discriminate.
Qed.

Lemma upload_no_remove model_path model_name file_name :
  preserves (log_grows (calls_satisfy (λ c, ∀ p, c ≠ os_remove p)))
    (upload oracle model_path model_name file_name).
Proof.
  unfold upload.
  frame_with ltac:(solve
    [ match goal with
      | |- preserves _ (ext ?o ?c) => apply (ext_log o _ c)
      end; intros ? ? ? [= <- <-]; intros; discriminate
    | apply print_log; intros ? ? [=] ]).
Qed.

End CallbackErrors.

(** C6. Inside the pruning loop a failed [os.remove] whose exception is an
    [OSError] is reported by the next line of output and the loop goes on:
    when the loop ends normally it has tried every deletable entry, and it
    ends with an exception only for one that is no [OSError].  Over the whole
    callback the same holds for the log, which never stops at a failed
    [os.remove] with an [OSError]. *)
Theorem deletion_errors_are_swallowed {W}
    (oracle : ∀ c : call, W → outcome (ret c) * W) :
  (∀ file_path model_path entries (σ : state W),
     let r := for_each entries (prune_entry oracle file_path model_path) σ in
     ∃ evs, log (snd r) = log σ ++ evs ∧ caught_and_logged evs ∧
       match fst r with
       | Ok _ =>
           removed_paths evs =
             (λ i, file_path +:+ "/" +:+ i) <$> List.filter (deletable model_path) entries
       | Raise e =>
           isinstance e OSError = false ∧
           ∃ p, last evs = Some (ECall (os_remove p) (Some e))
       end) ∧
  (∀ model_path (σ : state W),
     ∃ evs, log (snd (on_model_save oracle model_path σ)) = log σ ++ evs ∧
            caught_and_logged evs ∧ no_pending_OSError evs).
Proof.
  split; [apply prune_loop_run|].
  intros model_path σ.
  assert (H : ∃ evs, log (snd (on_model_save oracle model_path σ)) = log σ ++ evs ∧
                     caught_and_logged evs).
  { unfold on_model_save. destruct (PyStr.path_split model_path) as [fp fn].
    unfold mbind.
    destruct (prune_caught oracle fp model_path σ) as (a & Ha & Hca).
    destruct (prune oracle fp model_path σ) as [[u|e] σ1]; simpl in *; [|eauto].
    destruct (upload_no_remove oracle model_path (snd (PyStr.path_split fp)) fn σ1)
      as (b & Hb & Hnb).
    exists (a ++ b). rewrite Hb, Ha, <- app_assoc. split; [reflexivity|].
    apply caught_and_logged_app; auto using caught_no_pending, no_removes_caught. }
  destruct H as (evs & Hl & Hc). exists evs. auto using caught_no_pending.
Qed.

(** ** Failures that are not swallowed *)

Section OkOnly.

Context {W : Type}.
Variable φ : event → Prop.

Lemma ok_only_pure {A} (m : M W A) :
  (∀ σ, snd (m σ) = σ) → ok_only φ m.
Proof. intros H σ. exists []. rewrite H, app_nil_r. auto. Qed.

Lemma ok_only_ret {A} (a : A) : ok_only (W := W) φ (mret a).
Proof. apply ok_only_pure. reflexivity. Qed.

Lemma ok_only_raise {A} cls msg : ok_only (W := W) φ (raise (A := A) cls msg).
Proof. apply ok_only_pure. reflexivity. Qed.

Lemma ok_only_lift {A} (o : outcome A) : ok_only (W := W) φ (lift_outcome o).
Proof. apply ok_only_pure. reflexivity. Qed.

Lemma ok_only_get_globals : ok_only (W := W) φ get_globals.
Proof. apply ok_only_pure. reflexivity. Qed.

Lemma ok_only_test v : ok_only (W := W) φ (test v).
Proof. apply ok_only_pure. intros σ. unfold test. destruct (truthy v); reflexivity. Qed.

Lemma ok_only_print line : φ (EPrint line) → ok_only (W := W) φ (print line).
Proof. intros H σ. exists [EPrint line]. split; [reflexivity|]. auto. Qed.

Lemma ok_only_ext (oracle : ∀ c : call, W → outcome (ret c) * W) c :
  φ (ECall c None) → ok_only φ (ext oracle c).
Proof.
  intros H σ. unfold ext. destruct (oracle c (world σ)) as [[a|e] w']; simpl.
  - eexists. split; [reflexivity|]. auto.
  - eexists. split; [reflexivity|]. intros a [=].
Qed.

Lemma ok_only_bind {A B} (m : M W A) (k : A → M W B) :
  ok_only φ m → (∀ a, ok_only φ (k a)) → ok_only φ (mbind m k).
Proof.
  intros Hm Hk σ. unfold mbind. destruct (Hm σ) as (e1 & H1 & F1).
  destruct (m σ) as [[a|e] σ1]; simpl in *.
  - destruct (Hk a σ1) as (e2 & H2 & F2). exists (e1 ++ e2).
    rewrite H2, H1, app_assoc. split; [reflexivity|].
    intros b Hb. apply Forall_app. eauto.
  - exists e1. split; [assumption|]. intros b [=].
Qed.

Lemma ok_only_try_finally {A} (m : M W A) (cleanup : M W unit) :
  ok_only φ m → ok_only φ cleanup → ok_only φ (try_finally m cleanup).
Proof.
  intros Hm Hc σ. unfold try_finally. destruct (Hm σ) as (e1 & H1 & F1).
  destruct (m σ) as [o σ1]; simpl in *. destruct (Hc σ1) as (e2 & H2 & F2).
  destruct (cleanup σ1) as [[u|e] σ2]; simpl in *;
    exists (e1 ++ e2); rewrite H2, H1, app_assoc; (split; [reflexivity|]).
  - intros a ->. apply Forall_app. eauto.
  - intros a [=].
Qed.

Lemma ok_only_for_each {A} (l : list A) (body : A → M W unit) :
  (∀ i, ok_only φ (body i)) → ok_only φ (for_each l body).
Proof.
  intros Hb. induction l as [|i l IH]; simpl.
  - apply ok_only_ret.
  - apply ok_only_bind; [apply Hb|intros _; exact IH].
Qed.

End OkOnly.

Ltac ok_with leaf :=
  repeat first
    [ match goal with
      | |- ∀ _, ok_only _ _ => intros ?
      end
    | apply ok_only_ret
    | apply ok_only_raise
    | apply ok_only_lift
    | apply ok_only_get_globals
    | apply ok_only_test
    | apply ok_only_bind
    | apply ok_only_try_finally
    | apply ok_only_for_each
    | match goal with
      | |- ok_only _ (if ?b then _ else _) => destruct b eqn:?
      | |- ok_only _ (match ?x with _ => _ end) => destruct x eqn:?
      end
    | leaf ].

Ltac benign_step :=
  solve [ match goal with
          | |- ok_only _ (ext ?o ?c) => apply (ok_only_ext _ o c)
          end; intros ? ? [=]
        | apply ok_only_print; intros ? ? [=] ].

Section Propagation.

Context {W : Type}.
Variable oracle : ∀ c : call, W → outcome (ret c) * W.

Lemma prune_entry_benign file_path model_path i :
  ok_only benign (prune_entry oracle file_path model_path i).
Proof.
  unfold prune_entry.
  ok_with benign_step.
  intros σ. unfold try_except, ext, print.
  destruct (oracle (os_remove _) (world σ)) as [[[]|e] w']; simpl.
  - eexists. split; [reflexivity|]. intros _ _.
    constructor; [intros ? ? [=]|constructor].
  - destruct (isinstance e OSError) eqn:Hos; simpl.
    + eexists. rewrite <- app_assoc. split; [reflexivity|]. intros _ _.
      constructor; [|constructor; [intros ? ? [=]|constructor]].
      intros c e' [= <- <-]. eauto.
    + eexists. split; [reflexivity|]. intros ? [=].
Qed.

Lemma on_model_save_benign model_path :
  ok_only benign (on_model_save oracle model_path).
Proof.
  unfold on_model_save. destruct (PyStr.path_split model_path) as [fp fn].
  unfold prune, upload.
  ok_with ltac:(first [benign_step | apply prune_entry_benign]).
Qed.

Lemma prune_same_globs file_path model_path :
  preserves same_globs (prune oracle file_path model_path).
Proof.
  unfold prune, prune_entry.
  frame_with ltac:(first [apply ext_same_globs | apply print_same_globs]).
Qed.

(** With uploading enabled, a file name the pattern does not match makes
    the upload part raise. *)
Lemma upload_malformed model_path model_name file_name (σ : state W) :
  truthy (_upload_models (globs σ)) = Some true →
  PyStr.re_match_model file_name = None →
  upload oracle model_path model_name file_name σ =
    (Raise (Exn AttributeError "'NoneType' object has no attribute 'groups'"), σ).
Proof.
  intros Hup Hre. unfold upload, mbind, get_globals, test. rewrite Hup. simpl.
  rewrite Hre. reflexivity.
Qed.

End Propagation.

(** C7. With uploading enabled, a saved file name that
    [re.match(r'model_(\d+).pt', ...)] does not match makes [on_model_save]
    raise.  More generally the callback returns normally only if no call
    failed except an [os.remove] with an [OSError]: a failure of
    [os.listdir], [get_blob_client], [open], [upload_blob] or of closing the
    file always ends in an exception. *)
Theorem upload_failures_propagate {W}
    (oracle : ∀ c : call, W → outcome (ret c) * W) (σ : state W) (model_path : string) :
  (truthy (_upload_models (globs σ)) = Some true →
   PyStr.re_match_model (snd (PyStr.path_split model_path)) = None →
   ∃ e, fst (on_model_save oracle model_path σ) = Raise e) ∧
  (∃ evs, log (snd (on_model_save oracle model_path σ)) = log σ ++ evs ∧
     ∀ c e, ECall c (Some e) ∈ evs →
            (∀ p, c = os_remove p → isinstance e OSError = false) →
            ∃ e', fst (on_model_save oracle model_path σ) = Raise e').
Proof.
  split.
  - intros Hup Hre. unfold on_model_save.
    destruct (PyStr.path_split model_path) as [fp fn]. simpl in Hre.
    unfold mbind. pose proof (prune_same_globs oracle fp model_path σ) as Hg.
    destruct (prune oracle fp model_path σ) as [[u|e] σ1]; simpl in *; [|eauto].
    unfold same_globs in Hg. rewrite upload_malformed; [eauto| |assumption].
    rewrite Hg. assumption.
  - destruct (on_model_save_benign oracle model_path σ) as (evs & Hl & Hok).
    exists evs. split; [assumption|]. intros c e Hin Hc.
    destruct (fst (on_model_save oracle model_path σ)) as [a|e'] eqn:Hr; [|eauto].
    specialize (Hok a eq_refl). rewrite Forall_forall in Hok.
    destruct (Hok _ Hin c e eq_refl) as [[p ->] Hos].
    rewrite (Hc p eq_refl) in Hos. discriminate.
Qed.

(** ** Stepping through a run *)

Section Runs.

Context {W : Type}.

Lemma bind_ok {A B} (m : M W A) (k : A → M W B) σ b σ' :
  mbind m k σ = (Ok b, σ') →
  ∃ a σm, m σ = (Ok a, σm) ∧ k a σm = (Ok b, σ').
Proof.
  unfold mbind. destruct (m σ) as [[a|e] σm]; [eauto|discriminate].
Qed.

Lemma dict_read_run l d (σ : state W) :
  heap σ !! l = Some d → dict_read l σ = (Ok d, σ).
Proof. intros H. unfold dict_read. rewrite H. reflexivity. Qed.

Lemma dict_getitem_run l k d (σ : state W) :
  heap σ !! l = Some d →
  dict_getitem l k σ =
    (match d !! k with Some v => Ok v | None => Raise (Exn KeyError k) end, σ).
Proof.
  intros H. unfold dict_getitem, mbind. rewrite (dict_read_run l d) by assumption.
  destruct (d !! k); reflexivity.
Qed.

Lemma dict_setitem_run l k v d (σ : state W) :
  heap σ !! l = Some d →
  dict_setitem l k v σ =
    (Ok tt, {| world := world σ; globs := globs σ;
               heap := <[l := <[k := v]> d]> (heap σ); log := log σ |}).
Proof.
  intros H. unfold dict_setitem, mbind. rewrite (dict_read_run l d) by assumption.
  reflexivity.
Qed.

Lemma dict_pop_run l k d (σ : state W) :
  heap σ !! l = Some d →
  dict_pop l k σ =
    (Ok (default VNone (d !! k)),
     {| world := world σ; globs := globs σ;
        heap := <[l := delete k d]> (heap σ); log := log σ |}).
Proof.
  intros H. unfold dict_pop, mbind. rewrite (dict_read_run l d) by assumption.
  reflexivity.
Qed.

End Runs.


(** Solves the frame goal of a step that is a function of the state alone
    or a plain external call. *)
Ltac plain_step :=
  solve [ apply preserves_step; intros σ;
          unfold same_heap, same_globs, same_policy,
            ext, print, warn, sleep, assign_global, dict_getitem, dict_read,
            mbind, mret, raise;
          repeat (simpl;
                  match goal with
                  | |- context [match ?x with _ => _ end] => destruct x
                  end);
          simpl; auto ].

(** The same for a property of the log. *)
Ltac silent_step :=
  solve [ other_call
        | apply preserves_step; intros σ; apply log_grows_same;
          unfold assign_global, dict_getitem, dict_read, dict_write, dict_setitem,
            dict_pop, set_heap, mbind, mret, raise;
          repeat (simpl;
                  match goal with
                  | |- context [match ?x with _ => _ end] => destruct x
                  end);
          reflexivity ].

Section Setup.

Context {W : Type}.
Variable oracle : ∀ c : call, W → outcome (ret c) * W.

Lemma init_distributed_heap rank ws seed :
  preserves same_heap (init_distributed oracle rank ws seed).
Proof. unfold init_distributed, set_seed. frame_with plain_step. Qed.

Lemma init_distributed_globs rank ws seed :
  preserves same_globs (init_distributed oracle rank ws seed).
Proof. unfold init_distributed, set_seed. frame_with plain_step. Qed.

Lemma init_distributed_log rank ws seed :
  preserves (log_grows (calls_satisfy not_trainer)) (init_distributed oracle rank ws seed).
Proof. unfold init_distributed, set_seed. frame_with silent_step. Qed.

Lemma create_clients_heap ma : preserves same_heap (create_clients oracle ma).
Proof. unfold create_clients. frame_with plain_step. Qed.

Lemma create_clients_policy ma : preserves same_policy (create_clients oracle ma).
Proof. unfold create_clients. frame_with plain_step. Qed.

Lemma create_clients_log ma :
  preserves (log_grows (calls_satisfy not_trainer)) (create_clients oracle ma).
Proof. unfold create_clients. frame_with silent_step. Qed.


Lemma adopt_policy_ok model_args d (σ σ' : state W) :
  heap σ !! model_args = Some d →
  adopt_policy model_args σ = (Ok tt, σ') →
  ∃ um ue dm,
    d !! "upload_models" = Some um ∧ d !! "upload_every" = Some ue ∧
    d !! "delete_old_models" = Some dm ∧
    σ' = {| world := world σ;
            globs := with_delete_old_models dm
                       (with_upload_every ue (with_upload_models um (globs σ)));
            heap := <[model_args := <["save_callback" := VFunc "on_model_save"]> d]> (heap σ);
            log := log σ |}.
Proof.
  intros Hd. unfold adopt_policy.
  unfold mbind at 1. rewrite (dict_setitem_run _ _ _ d) by assumption.
  set (d' := <["save_callback" := VFunc "on_model_save"]> d).
  assert (Hd' : ∀ (w : W) g lg,
    heap {| world := w; globs := g; heap := <[model_args := d']> (heap σ); log := lg |}
      !! model_args = Some d') by (intros; apply lookup_insert_eq).
  unfold mbind at 1. rewrite (dict_getitem_run _ _ d') by apply Hd'.
  unfold d' at 1. rewrite lookup_insert_ne by discriminate.
  destruct (d !! "upload_models") as [um|]; [|discriminate].
  unfold mbind at 1, assign_global at 1. cbn [world globs heap log].
  unfold mbind at 1. rewrite (dict_getitem_run _ _ d') by apply Hd'.
  unfold d' at 1. rewrite lookup_insert_ne by discriminate.
  destruct (d !! "upload_every") as [ue|]; [|discriminate].
  unfold mbind at 1, assign_global at 1. cbn [world globs heap log].
  unfold mbind at 1. rewrite (dict_getitem_run _ _ d') by apply Hd'.
  unfold d' at 1. rewrite lookup_insert_ne by discriminate.
  destruct (d !! "delete_old_models") as [dm|]; [|discriminate].
  unfold assign_global. cbn [world globs heap log].
  intros [= <-]. eauto 10.
Qed.

(** What rank 0 leaves behind when [configure_main] returns. *)
Lemma configure_main_ok model_args d (σ σ' : state W) :
  heap σ !! model_args = Some d →
  configure_main oracle model_args σ = (Ok tt, σ') →
  heap σ' = <[model_args := <["save_callback" := VFunc "on_model_save"]> d]> (heap σ) ∧
  log_grows (calls_satisfy not_trainer) σ σ' ∧
  (∃ um ue dm,
     d !! "upload_models" = Some um ∧ d !! "upload_every" = Some ue ∧
     d !! "delete_old_models" = Some dm ∧
     _upload_models (globs σ') = um ∧ _upload_every (globs σ') = ue ∧
     _delete_old_models (globs σ') = dm) ∧
  (truthy (_upload_models (globs σ)) = Some false →
   _blob_service_client (globs σ') = _blob_service_client (globs σ) ∧
   _container_client (globs σ') = _container_client (globs σ)).
Proof.
  intros Hd Hrun. unfold configure_main in Hrun.
  apply bind_ok in Hrun as (g & σ1 & [= <- <-] & Hrun).
  apply bind_ok in Hrun as (uploading & σ1 & Htest & Hrun).
  unfold test in Htest. destruct (truthy (_upload_models (globs σ))) as [b|] eqn:Hb;
    [|discriminate]. injection Htest as <- <-.
  apply bind_ok in Hrun as ([] & σ2 & Hcl & Hrun).
  destruct b.
  - pose proof (create_clients_heap model_args σ) as Hh.
    pose proof (create_clients_log model_args σ) as Hl.
    rewrite Hcl in Hh, Hl. simpl in Hh, Hl. unfold same_heap in Hh.
    apply (adopt_policy_ok _ d) in Hrun as (um & ue & dm & ? & ? & ? & ->);
      [|rewrite Hh; assumption].
    simpl. rewrite Hh. split; [reflexivity|]. split.
    + destruct Hl as (evs & Hl & Hf). exists evs. auto.
    + split; [eauto 10|]. intros [=].
  - injection Hcl as <-.
    apply (adopt_policy_ok _ d) in Hrun as (um & ue & dm & ? & ? & ? & ->);
      [|assumption].
    simpl. split; [reflexivity|]. split; [apply log_grows_same; reflexivity|].
    split; [eauto 10|]. auto.
Qed.

Lemma pop_cloud_keys_run model_args d (σ : state W) :
  heap σ !! model_args = Some d →
  pop_cloud_keys model_args σ =
    (Ok tt,
     {| world := world σ; globs := globs σ;
        heap := <[model_args :=
                    delete "container_name"
                      (delete "credential"
                         (delete "account_url"
                            (delete "delete_old_models"
                               (delete "upload_every" (delete "upload_models" d)))))]>
                  (heap σ);
        log := log σ |}).
Proof.
  intros Hd. unfold pop_cloud_keys.
  unfold mbind at 1. rewrite (dict_pop_run _ _ d) by assumption.
  do 5 (unfold mbind at 1; erewrite dict_pop_run by apply lookup_insert_eq;
        cbn [world globs heap log]; rewrite insert_insert_eq).
  reflexivity.
Qed.


(** What [run_training] has done when it is about to build the Trainer. *)
Lemma prepare_model_args_ok rank ws model_args seed d (σ σ' : state W) :
  heap σ !! model_args = Some d →
  prepare_model_args oracle rank ws model_args seed σ = (Ok tt, σ') →
  heap σ' = <[model_args := trainer_arguments rank ws d]> (heap σ) ∧
  log_grows (calls_satisfy not_trainer) σ σ' ∧
  (if rank =? 0
   then (∃ um ue dm,
           d !! "upload_models" = Some um ∧ d !! "upload_every" = Some ue ∧
           d !! "delete_old_models" = Some dm ∧
           _upload_models (globs σ') = um ∧ _upload_every (globs σ') = ue ∧
           _delete_old_models (globs σ') = dm) ∧
        (truthy (_upload_models (globs σ)) = Some false →
         _blob_service_client (globs σ') = _blob_service_client (globs σ) ∧
         _container_client (globs σ') = _container_client (globs σ))
   else globs σ' = globs σ).
Proof.
  intros Hd Hrun. unfold prepare_model_args in Hrun.
  apply bind_ok in Hrun as ([] & σ1 & Hinit & Hrun).
  assert (Hσ1 : heap σ1 = heap σ ∧ globs σ1 = globs σ ∧
                log_grows (calls_satisfy not_trainer) σ σ1).
  { destruct (1 <? ws).
    - pose proof (init_distributed_heap rank ws seed σ) as H1.
      pose proof (init_distributed_globs rank ws seed σ) as H2.
      pose proof (init_distributed_log rank ws seed σ) as H3.
      rewrite Hinit in H1, H2, H3. auto.
    - injection Hinit as <-. repeat split. reflexivity. }
  destruct Hσ1 as (Hh1 & Hg1 & (pre1 & Hl1 & Hf1)).
  apply bind_ok in Hrun as ([] & σ2 & Hupd & Hrun).
  unfold update_ranks, mbind in Hupd.
  rewrite (dict_read_run _ d) in Hupd by (rewrite Hh1; assumption).
  injection Hupd as <-.
  set (d3 := <["world_size" := VInt ws]>
               (<["rank" := VInt rank]> (<["is_ddp" := VBool (1 <? ws)]> d))) in *.
  apply bind_ok in Hrun as ([] & σ3 & Hcfg & Hrun).
  assert (Hσ3 : ∃ d4 pre3,
    heap σ3 = <[model_args := d4]> (heap σ) ∧
    d4 = (if rank =? 0 then <["save_callback" := VFunc "on_model_save"]> d3 else d3) ∧
    log σ3 = log σ ++ pre1 ++ pre3 ∧ Forall (calls_satisfy not_trainer) pre3 ∧
    (if rank =? 0
     then (∃ um ue dm,
             d !! "upload_models" = Some um ∧ d !! "upload_every" = Some ue ∧
             d !! "delete_old_models" = Some dm ∧
             _upload_models (globs σ3) = um ∧ _upload_every (globs σ3) = ue ∧
             _delete_old_models (globs σ3) = dm) ∧
          (truthy (_upload_models (globs σ)) = Some false →
           _blob_service_client (globs σ3) = _blob_service_client (globs σ) ∧
           _container_client (globs σ3) = _container_client (globs σ))
     else globs σ3 = globs σ)).
  { destruct (rank =? 0).
    - apply (configure_main_ok _ d3) in Hcfg as (Hh & (pre3 & Hl3 & Hf3) & Hpol & Hcl);
        [|apply lookup_insert_eq].
      simpl in *. exists (<["save_callback" := VFunc "on_model_save"]> d3), pre3.
      rewrite Hh, Hh1, insert_insert_eq, Hl3, Hl1, <- app_assoc, <- Hg1.
      do 3 (split; [reflexivity|]). split; [assumption|]. split; [|exact Hcl].
      destruct Hpol as (um & ue & dm & H1 & H2 & H3 & H4).
      exists um, ue, dm. unfold d3 in H1, H2, H3.
      rewrite !lookup_insert_ne in H1, H2, H3 by discriminate. auto.
    - injection Hcfg as <-. exists d3, []. simpl.
      rewrite Hh1, Hl1, app_nil_r. repeat split; auto. }
  destruct Hσ3 as (d4 & pre3 & Hh3 & Hd4 & Hl3 & Hf3 & Hglobs).
  rewrite (pop_cloud_keys_run _ d4) in Hrun by (rewrite Hh3; apply lookup_insert_eq).
  injection Hrun as <-. cbn [world globs heap log].
  assert (Hargs : delete "container_name"
             (delete "credential"
                (delete "account_url"
                   (delete "delete_old_models"
                      (delete "upload_every" (delete "upload_models" d4)))))
           = trainer_arguments rank ws d).
  { unfold trainer_arguments. fold d3. rewrite Hd4. reflexivity. }
  rewrite Hargs, Hh3, insert_insert_eq.
  split; [reflexivity|]. split; [|assumption].
  exists (pre1 ++ pre3). split; [assumption|]. apply Forall_app; auto.
Qed.

(** Whatever happens, nothing before line 121 builds a Trainer. *)
Lemma prepare_model_args_log rank ws model_args seed :
  preserves (log_grows (calls_satisfy not_trainer))
    (prepare_model_args oracle rank ws model_args seed).
Proof.
  unfold prepare_model_args, update_ranks, configure_main, adopt_policy, pop_cloud_keys.
  frame_with ltac:(first [ silent_step
                         | apply init_distributed_log
                         | apply create_clients_log ]).
Qed.

(** Other ranks leave the globals alone. *)
Lemma prepare_model_args_globs rank ws model_args seed :
  (rank =? 0) = false →
  preserves same_globs (prepare_model_args oracle rank ws model_args seed).
Proof.
  intros Hrank. unfold prepare_model_args, update_ranks, pop_cloud_keys. rewrite Hrank.
  frame_with ltac:(first [ apply init_distributed_globs
                         | apply preserves_step; intros σ; unfold same_globs,
                             dict_read, dict_write, dict_pop, set_heap, mbind, mret;
                           repeat (simpl;
                                   match goal with
                                   | |- context [match ?x with _ => _ end] => destruct x
                                   end);
                           reflexivity ]).
Qed.

End Setup.

(** ** What the Trainer is given (lines 98-121) *)

Lemma trainer_arguments_cloud rank ws d k :
  k ∈ cloud_keys → trainer_arguments rank ws d !! k = None.
Proof.
  unfold cloud_keys, trainer_arguments. intros Hk.
  repeat (apply elem_of_cons in Hk as [->|Hk]); [..|by apply elem_of_nil in Hk];
    by simplify_map_eq.
Qed.

Lemma trainer_arguments_other rank ws d k :
  k ∉ cloud_keys → k ∉ ddp_keys → k ≠ "save_callback" →
  trainer_arguments rank ws d !! k = d !! k.
Proof.
  unfold cloud_keys, ddp_keys, trainer_arguments. intros Hc Hd Hs.
  repeat (apply not_elem_of_cons in Hc as [? Hc]).
  repeat (apply not_elem_of_cons in Hd as [? Hd]).
  destruct (rank =? 0); by simplify_map_eq.
Qed.

Lemma trainer_arguments_ranks rank ws d :
  trainer_arguments rank ws d !! "is_ddp" = Some (VBool (1 <? ws)) ∧
  trainer_arguments rank ws d !! "rank" = Some (VInt rank) ∧
  trainer_arguments rank ws d !! "world_size" = Some (VInt ws).
Proof. unfold trainer_arguments. destruct (rank =? 0); by simplify_map_eq. Qed.

Lemma trainer_arguments_callback rank ws d :
  trainer_arguments rank ws d !! "save_callback" =
    if rank =? 0 then Some (VFunc "on_model_save") else d !! "save_callback".
Proof. unfold trainer_arguments. destruct (rank =? 0); by simplify_map_eq. Qed.

Lemma no_trainer_kwargs evs :
  Forall (calls_satisfy not_trainer) evs → trainer_kwargs evs = [].
Proof.
  induction 1 as [|ev evs Hev _ IH]; [reflexivity|].
  unfold trainer_kwargs in *. rewrite bind_cons, IH, app_nil_r.
  destruct ev as [| | |c r]; try reflexivity. destruct c; try reflexivity.
  exfalso. exact (Hev _ _ eq_refl _ eq_refl).
Qed.

Section TrainerArguments.

Context {W : Type}.
Variable oracle : ∀ c : call, W → outcome (ret c) * W.

Lemma setup_trainer_globs rank ws model_args seed :
  (rank =? 0) = false →
  preserves same_globs (setup_trainer oracle rank ws model_args seed).
Proof.
  intros Hrank. unfold setup_trainer.
  frame_with ltac:(first [ apply prepare_model_args_globs; assumption
                         | plain_step ]).
Qed.

(** The run of [setup_trainer], by whether line 121 was reached. *)
Lemma setup_trainer_run rank ws model_args seed d (σ : state W) :
  heap σ !! model_args = Some d →
  let r := setup_trainer oracle rank ws model_args seed σ in
  ∃ pre, Forall (calls_satisfy not_trainer) pre ∧
    ((∃ e, fst r = Raise e ∧ log (snd r) = log σ ++ pre) ∨
     (log (snd r) =
        log σ ++ pre ++ [ECall (Trainer (trainer_arguments rank ws d)) (raised_of (fst r))] ∧
      heap (snd r) = <[model_args := trainer_arguments rank ws d]> (heap σ) ∧
      ((rank =? 0) = true →
       ∃ um ue dm,
         d !! "upload_models" = Some um ∧ d !! "upload_every" = Some ue ∧
         d !! "delete_old_models" = Some dm ∧
         _upload_models (globs (snd r)) = um ∧ _upload_every (globs (snd r)) = ue ∧
         _delete_old_models (globs (snd r)) = dm) ∧
      ((rank =? 0) = true → truthy (_upload_models (globs σ)) = Some false →
       _blob_service_client (globs (snd r)) = _blob_service_client (globs σ) ∧
       _container_client (globs (snd r)) = _container_client (globs σ)))).
Proof.
  intros Hd r. subst r. unfold setup_trainer, mbind.
  destruct (prepare_model_args_log oracle rank ws model_args seed σ) as (pre & Hl & Hf).
  destruct (prepare_model_args oracle rank ws model_args seed σ) as [[[]|e] σ1] eqn:Hp;
    simpl in Hl; exists pre; (split; [assumption|]); [|left; eauto].
  right. apply (prepare_model_args_ok _ _ _ _ _ d) in Hp as (Hh & _ & Hg); [|assumption].
  erewrite dict_read_run by (rewrite Hh; apply lookup_insert_eq).
  unfold ext. destruct (oracle (Trainer _) (world σ1)) as [o w']. simpl.
  rewrite Hl, <- app_assoc. split; [reflexivity|]. split; [assumption|].
  split; intros Hrank; rewrite Hrank in Hg; apply Hg.
Qed.

End TrainerArguments.

(** ** Reaching line 121 *)

Section SetupReturns.

Context {W : Type}.
Variable oracle : ∀ c : call, W → outcome (ret c) * W.

(** A call that the oracle answers in every world returns and leaves
    globals and heap as they are. *)
Lemma ext_returns c (σ : state W) :
  (∀ w, ∃ a w', oracle c w = (Ok a, w')) →
  ∃ a σ1, ext oracle c σ = (Ok a, σ1) ∧ globs σ1 = globs σ ∧ heap σ1 = heap σ.
Proof.
  intros H. destruct (H (world σ)) as (a & w' & Ha). unfold ext. rewrite Ha.
  eexists a, _. split; [reflexivity|]. auto.
Qed.

Lemma bind_ext_returns {B} c (k : ret c → M W B) (σ : state W)
    (P : outcome B * state W → Prop) :
  (∀ w, ∃ a w', oracle c w = (Ok a, w')) →
  (∀ a σ1, globs σ1 = globs σ → heap σ1 = heap σ → P (k a σ1)) →
  P (mbind (ext oracle c) k σ).
Proof.
  intros H HP. destruct (ext_returns c σ H) as (a & σ1 & Ha & Hg & Hh).
  unfold mbind. rewrite Ha. auto.
Qed.

Lemma set_seed_returns seed (σ : state W) :
  (∀ c w, distributed_call c → c ≠ destroy_process_group →
          ∃ a w', oracle c w = (Ok a, w')) →
  ∃ σ1, set_seed oracle seed σ = (Ok tt, σ1) ∧ globs σ1 = globs σ ∧ heap σ1 = heap σ.
Proof.
  intros H. unfold set_seed.
  do 4 (match goal with
        | |- context [@mbind ?W0 ?A0 ?B0 (ext ?o ?c) ?k ?σ0] =>
            pattern (@mbind W0 A0 B0 (ext o c) k σ0);
            match goal with |- ?P _ => apply (bind_ext_returns c k σ0 P) end;
            [intros w; apply H; [unfold distributed_call; pick|discriminate]
            |intros ? ? ? ?; cbv beta]
        end).
  match goal with
  | |- ∃ σ1, ext _ ?c ?σ0 = _ ∧ _ =>
      destruct (ext_returns c σ0) as ([] & σlast & -> & ? & ?);
      [intros w; apply H; [unfold distributed_call; pick|discriminate]|]
  end.
  exists σlast. split; [reflexivity|]. split; congruence.
Qed.

Lemma init_distributed_returns rank ws seed (σ : state W) :
  (∀ c w, distributed_call c → c ≠ destroy_process_group →
          ∃ a w', oracle c w = (Ok a, w')) →
  ∃ σ1, init_distributed oracle rank ws seed σ = (Ok tt, σ1) ∧
        globs σ1 = globs σ ∧ heap σ1 = heap σ.
Proof.
  intros H. unfold init_distributed.
  destruct (set_seed_returns seed σ H) as (σ0 & Hs & Hg0 & Hh0).
  unfold mbind at 1. rewrite Hs.
  do 3 (match goal with
        | |- context [@mbind ?W0 ?A0 ?B0 (ext ?o ?c) ?k ?σ0] =>
            pattern (@mbind W0 A0 B0 (ext o c) k σ0);
            match goal with |- ?P _ => apply (bind_ext_returns c k σ0 P) end;
            [intros w; apply H; [unfold distributed_call; pick|discriminate]
            |intros ? ? ? ?; cbv beta]
        end).
  unfold print. eexists. split; [reflexivity|]. cbn [globs heap]. split; congruence.
Qed.

Lemma create_clients_returns model_args d (σ : state W) :
  heap σ !! model_args = Some d →
  is_Some (d !! "account_url") → is_Some (d !! "credential") →
  is_Some (d !! "container_name") →
  (∀ c w, (∃ url credential, c = BlobServiceClient url credential) ∨
          (∃ service name, c = get_container_client service name) →
          ∃ a w', oracle c w = (Ok a, w')) →
  ∃ σ1, create_clients oracle model_args σ = (Ok tt, σ1) ∧ heap σ1 = heap σ.
Proof.
  intros Hd [url Hurl] [cr Hcr] [name Hname] H. unfold create_clients.
  unfold mbind at 1. rewrite (dict_getitem_run _ _ d), Hurl by assumption.
  unfold mbind at 1. rewrite (dict_getitem_run _ _ d), Hcr by assumption.
  match goal with
  | |- context [@mbind ?W0 ?A0 ?B0 (ext ?o ?c) ?k ?σ0] =>
      pattern (@mbind W0 A0 B0 (ext o c) k σ0);
            match goal with |- ?P _ => apply (bind_ext_returns c k σ0 P) end;
      [intros w; apply H; eauto|intros service σb Hgb Hhb; cbv beta]
  end.
  unfold mbind at 1, assign_global. unfold mbind at 1, get_globals.
  cbn [world globs heap log].
  unfold mbind at 1. rewrite (dict_getitem_run _ _ d), Hname
    by (cbn [heap]; rewrite Hhb; assumption).
  cbn [world globs heap log with_blob_service_client _blob_service_client].
  match goal with
  | |- context [@mbind ?W0 ?A0 ?B0 (ext ?o ?c) ?k ?σ0] =>
      pattern (@mbind W0 A0 B0 (ext o c) k σ0);
            match goal with |- ?P _ => apply (bind_ext_returns c k σ0 P) end;
      [intros w; apply H; eauto|intros container σc Hgc Hhc; cbv beta]
  end.
  eexists. split; [reflexivity|]. cbn [heap] in *. congruence.
Qed.

Lemma adopt_policy_returns model_args d (σ : state W) :
  heap σ !! model_args = Some d →
  is_Some (d !! "upload_models") → is_Some (d !! "upload_every") →
  is_Some (d !! "delete_old_models") →
  ∃ σ1, adopt_policy model_args σ = (Ok tt, σ1).
Proof.
  intros Hd [um Hum] [ue Hue] [dm Hdm]. unfold adopt_policy.
  unfold mbind at 1. rewrite (dict_setitem_run _ _ _ d) by assumption.
  unfold mbind at 1. erewrite dict_getitem_run by apply lookup_insert_eq.
  rewrite lookup_insert_ne, Hum by discriminate.
  unfold mbind at 1, assign_global. cbn [world globs heap log].
  unfold mbind at 1. erewrite dict_getitem_run by apply lookup_insert_eq.
  rewrite lookup_insert_ne, Hue by discriminate.
  unfold mbind at 1. cbn [world globs heap log].
  unfold mbind at 1. erewrite dict_getitem_run by apply lookup_insert_eq.
  rewrite lookup_insert_ne, Hdm by discriminate.
  eexists. reflexivity.
Qed.

Lemma configure_main_returns model_args d (σ : state W) :
  heap σ !! model_args = Some d →
  main_entries (_upload_models (globs σ)) d →
  (∀ c w, early_call true false (default false (truthy (_upload_models (globs σ)))) c →
          ∃ a w', oracle c w = (Ok a, w')) →
  ∃ σ1, configure_main oracle model_args σ = (Ok tt, σ1).
Proof.
  intros Hd ([b Hb] & Hum & Hue & Hdm & Hcl) H. unfold configure_main.
  unfold mbind at 1, get_globals. unfold mbind at 1, test. rewrite Hb. cbn [mret].
  rewrite Hb in H. cbn [default] in H.
  destruct b.
  - destruct (Hcl Hb) as (Hurl & Hcr & Hname).
    destruct (create_clients_returns model_args d σ Hd Hurl Hcr Hname)
      as (σ1 & Hrun & Hh1).
    { intros c w Hc. apply H. right. auto. }
    unfold mbind at 1. rewrite Hrun.
    apply (adopt_policy_returns model_args d); [rewrite Hh1|..]; assumption.
  - unfold mbind at 1. cbn [mret].
    apply (adopt_policy_returns model_args d); assumption.
Qed.

(** The setup gets as far as the Trainer when every call before it is
    answered and, on the main process, [model_args] has the entries that
    are read. *)
Lemma prepare_model_args_returns rank ws model_args seed d (σ : state W) :
  heap σ !! model_args = Some d →
  (∀ c w, early_call (rank =? 0) (1 <? ws)
            (default false (truthy (_upload_models (globs σ)))) c →
          ∃ a w', oracle c w = (Ok a, w')) →
  (rank = 0 → main_entries (_upload_models (globs σ)) d) →
  ∃ σ1, prepare_model_args oracle rank ws model_args seed σ = (Ok tt, σ1).
Proof.
  intros Hd H Hmain. unfold prepare_model_args.
  assert (Hinit : ∃ σ0, (if 1 <? ws then init_distributed oracle rank ws seed
                         else mret tt) σ = (Ok tt, σ0) ∧
                        globs σ0 = globs σ ∧ heap σ0 = heap σ).
  { destruct (1 <? ws) eqn:Hddp.
    - apply init_distributed_returns. intros c w Hc Hne. apply H. left. auto.
    - exists σ. auto. }
  destruct Hinit as (σ0 & Hinit & Hg0 & Hh0).
  unfold mbind at 1. rewrite Hinit.
  unfold mbind at 1, update_ranks, mbind at 1.
  rewrite (dict_read_run _ d) by (rewrite Hh0; assumption).
  unfold dict_write, set_heap. cbn [world globs heap log].
  set (d3 := <["world_size" := VInt ws]>
               (<["rank" := VInt rank]> (<["is_ddp" := VBool (1 <? ws)]> d))).
  destruct (Z.eqb_spec rank 0) as [Hrank|Hrank].
  - destruct (Hmain Hrank) as (Hb & Hum & Hue & Hdm & Hcl).
    match goal with
    | |- ∃ σ1, mbind (configure_main _ _) _ ?σ2 = _ =>
        destruct (configure_main_returns model_args d3 σ2) as (σ3 & Hcfg)
    end.
    + apply lookup_insert_eq.
    + cbn [globs]. rewrite Hg0. unfold main_entries, d3.
      rewrite !lookup_insert_ne by discriminate. auto.
    + cbn [globs]. rewrite Hg0. intros c w Hc. apply H.
      destruct Hc as [([=] & _)|Hc]; right; exact Hc.
    + unfold mbind at 1. rewrite Hcfg.
      pose proof (configure_main_ok oracle model_args d3 _ σ3
                    (lookup_insert_eq _ _ _) Hcfg) as (Hh3 & _).
      erewrite pop_cloud_keys_run by (rewrite Hh3; apply lookup_insert_eq).
      eexists. reflexivity.
  - unfold mbind at 1. cbn [mret].
    erewrite pop_cloud_keys_run by apply lookup_insert_eq.
    eexists. reflexivity.
Qed.

Lemma setup_trainer_reaches rank ws model_args seed d (σ : state W) :
  heap σ !! model_args = Some d →
  (∀ c w, early_call (rank =? 0) (1 <? ws)
            (default false (truthy (_upload_models (globs σ)))) c →
          ∃ a w', oracle c w = (Ok a, w')) →
  (rank = 0 → main_entries (_upload_models (globs σ)) d) →
  let r := setup_trainer oracle rank ws model_args seed σ in
  (∃ pre, log (snd r) =
            log σ ++ pre ++
            [ECall (Trainer (trainer_arguments rank ws d)) (raised_of (fst r))] ∧
          Forall (calls_satisfy not_trainer) pre) ∧
  heap (snd r) = <[model_args := trainer_arguments rank ws d]> (heap σ) ∧
  (rank = 0 →
   d !! "upload_models" = Some (_upload_models (globs (snd r))) ∧
   d !! "upload_every" = Some (_upload_every (globs (snd r))) ∧
   d !! "delete_old_models" = Some (_delete_old_models (globs (snd r)))).
Proof.
  intros Hd H Hmain r.
  destruct (prepare_model_args_returns rank ws model_args seed d σ Hd H Hmain)
    as (σ1 & Hp).
  destruct (setup_trainer_run oracle rank ws model_args seed d σ Hd)
    as (pre & Hpre & Hrun). fold r in Hrun.
  assert (Hreached : log (snd r) =
            log σ ++ pre ++
            [ECall (Trainer (trainer_arguments rank ws d)) (raised_of (fst r))] ∧
          heap (snd r) = <[model_args := trainer_arguments rank ws d]> (heap σ) ∧
          ((rank =? 0) = true →
           ∃ um ue dm,
             d !! "upload_models" = Some um ∧ d !! "upload_every" = Some ue ∧
             d !! "delete_old_models" = Some dm ∧
             _upload_models (globs (snd r)) = um ∧ _upload_every (globs (snd r)) = ue ∧
             _delete_old_models (globs (snd r)) = dm)).
  { destruct Hrun as [(e & He & Hl)|(Hl & Hh & Hg & _)]; [|auto].
    exfalso. subst r. unfold setup_trainer, mbind in Hl, He.
    rewrite Hp in Hl, He.
    pose proof (prepare_model_args_ok oracle rank ws model_args seed d σ σ1 Hd Hp)
      as (Hh1 & (pre1 & Hl1 & Hf1) & _).
    erewrite dict_read_run in Hl, He by (rewrite Hh1; apply lookup_insert_eq).
    unfold ext in Hl, He.
    destruct (oracle (Trainer (trainer_arguments rank ws d)) (world σ1)) as [o w'].
    cbn [fst snd log] in Hl. rewrite Hl1, <- app_assoc in Hl.
    apply app_inv_head in Hl.
    assert (Hk : trainer_kwargs (pre1 ++ [ECall (Trainer (trainer_arguments rank ws d))
                                            (raised_of o)]) = trainer_kwargs pre)
      by (rewrite Hl; reflexivity).
    pose proof (no_trainer_kwargs pre Hpre) as N1.
    pose proof (no_trainer_kwargs pre1 Hf1) as N2.
    unfold trainer_kwargs in Hk, N1, N2. rewrite bind_app, N1, N2 in Hk.
    discriminate Hk. }
  destruct Hreached as (Hl & Hh & Hg). split; [eauto|]. split; [assumption|].
  intros Hrank. apply Z.eqb_eq in Hrank.
  destruct (Hg Hrank) as (um & ue & dm & H1 & H2 & H3 & H4 & H5 & H6). subst. auto.
Qed.

End SetupReturns.

(** C10. When [run_training] builds the Trainer it passes the dictionary
    [trainer_arguments rank world_size d], on every rank: the six cloud keys
    are gone, [is_ddp], [rank] and [world_size] are set, and every other
    entry except [save_callback] is the one of [model_args].  On a rank other
    than 0 [save_callback] is left as it was and the globals are untouched;
    on rank 0 [save_callback] is [on_model_save] and the three policy globals
    hold the values of [model_args].  Once the Trainer has been called,
    [model_args] itself holds what the Trainer was given.  And the Trainer is
    called: when every call before line 121 is answered and, on rank 0,
    [model_args] has the entries that are read, the setup ends with the call
    of the Trainer on [trainer_arguments rank world_size d], with
    [model_args] rewritten to that dictionary and, on rank 0, the policy
    globals taken from it. *)
Theorem trainer_gets_no_cloud_keys {W}
    (oracle : ∀ c : call, W → outcome (ret c) * W)
    (rank ws : Z) (model_args : N) (seed : value) (d : gmap string value)
    (σ : state W) :
  heap σ !! model_args = Some d →
  let r := setup_trainer oracle rank ws model_args seed σ in
  let kwargs := trainer_arguments rank ws d in
  (∃ evs, log (snd r) = log σ ++ evs ∧
          (∀ kw, kw ∈ trainer_kwargs evs → kw = kwargs) ∧
          (∀ model, fst r = Ok model → trainer_kwargs evs = [kwargs])) ∧
  (∀ k, k ∈ cloud_keys → kwargs !! k = None) ∧
  (kwargs !! "is_ddp" = Some (VBool (1 <? ws)) ∧
   kwargs !! "rank" = Some (VInt rank) ∧
   kwargs !! "world_size" = Some (VInt ws)) ∧
  (∀ k, k ∉ cloud_keys → k ∉ ddp_keys → k ≠ "save_callback" → kwargs !! k = d !! k) ∧
  (rank ≠ 0 →
   kwargs !! "save_callback" = d !! "save_callback" ∧ globs (snd r) = globs σ) ∧
  (rank = 0 →
   kwargs !! "save_callback" = Some (VFunc "on_model_save") ∧
   ∀ model, fst r = Ok model →
     d !! "upload_models" = Some (_upload_models (globs (snd r))) ∧
     d !! "upload_every" = Some (_upload_every (globs (snd r))) ∧
     d !! "delete_old_models" = Some (_delete_old_models (globs (snd r)))) ∧
  (∃ evs, log (snd r) = log σ ++ evs ∧
          (trainer_kwargs evs ≠ [] →
           heap (snd r) = <[model_args := kwargs]> (heap σ))) ∧
  ((∀ c w, early_call (rank =? 0) (1 <? ws)
             (default false (truthy (_upload_models (globs σ)))) c →
           ∃ a w', oracle c w = (Ok a, w')) →
   (rank = 0 → main_entries (_upload_models (globs σ)) d) →
   (∃ pre, log (snd r) =
             log σ ++ pre ++ [ECall (Trainer kwargs) (raised_of (fst r))] ∧
           Forall (calls_satisfy not_trainer) pre) ∧
   heap (snd r) = <[model_args := kwargs]> (heap σ) ∧
   (rank = 0 →
    d !! "upload_models" = Some (_upload_models (globs (snd r))) ∧
    d !! "upload_every" = Some (_upload_every (globs (snd r))) ∧
    d !! "delete_old_models" = Some (_delete_old_models (globs (snd r))))).
Proof.
  intros Hd r kwargs.
  destruct (setup_trainer_run oracle rank ws model_args seed d σ Hd)
    as (pre & Hpre & Hrun). fold r in Hrun. fold kwargs in Hrun.
  pose proof (no_trainer_kwargs pre Hpre) as Hnone.
  split; [|split; [|split; [|split; [|split; [|split; [|split]]]]]].
  - destruct Hrun as [(e & He & Hl)|(Hl & _)].
    + exists pre. split; [assumption|]. rewrite Hnone. split.
      * intros kw Hkw. by apply elem_of_nil in Hkw.
      * intros model Hm. congruence.
    + eexists. split; [exact Hl|].
      unfold trainer_kwargs in *. rewrite bind_app, Hnone. simpl. split.
      * intros kw Hkw. by apply list_elem_of_singleton in Hkw.
      * reflexivity.
  - apply trainer_arguments_cloud.
  - apply trainer_arguments_ranks.
  - apply trainer_arguments_other.
  - intros Hrank. apply Z.eqb_neq in Hrank. split.
    + unfold kwargs. rewrite trainer_arguments_callback, Hrank. reflexivity.
    + apply (setup_trainer_globs oracle rank ws model_args seed Hrank σ).
  - intros ->. split; [unfold kwargs; rewrite trainer_arguments_callback; reflexivity|].
    intros model Hm.
    destruct Hrun as [(e & He & _)|(_ & _ & Hg & _)]; [congruence|].
    destruct (Hg eq_refl) as (um & ue & dm & H1 & H2 & H3 & H4 & H5 & H6).
    subst. auto.
  - destruct Hrun as [(e & He & Hl)|(Hl & Hh & _)].
    + exists pre. split; [assumption|]. rewrite Hnone. congruence.
    + eexists. split; [exact Hl|]. intros _. exact Hh.
  - intros Hcalls Hmain.
    exact (setup_trainer_reaches oracle rank ws model_args seed d σ Hd Hcalls Hmain).
Qed.

(** ** The upload gate (lines 54-64) *)

Lemma digits_dot_pt_digits ds :
  PyStr.all_digits ds = true → ds ≠ EmptyString →
  PyStr.digits_dot_pt (ds +:+ ".pt") = Some ds.
Proof.
  induction ds as [|c ds IH]; [congruence|]. intros Hall _.
  simpl in Hall. apply andb_true_iff in Hall as [Hc Hds].
  rewrite append_cons. cbn [PyStr.digits_dot_pt]. rewrite Hc.
  destruct ds as [|c' ds].
  - reflexivity.
  - rewrite IH by (assumption || discriminate). reflexivity.
Qed.

(** A file name [model_<digits>.pt] matches, and group 1 is the digits. *)
Lemma re_match_model_digits ds :
  PyStr.all_digits ds = true → ds ≠ EmptyString →
  PyStr.re_match_model ("model_" +:+ ds +:+ ".pt") = Some ds.
Proof.
  intros Hall Hne. unfold PyStr.re_match_model.
  change (PyStr.drop_prefix "model_" ("model_" +:+ ds +:+ ".pt"))
    with (Some (ds +:+ ".pt")).
  apply digits_dot_pt_digits; assumption.
Qed.

Lemma upload_calls_app a b : upload_calls (a ++ b) = upload_calls a ++ upload_calls b.
Proof. apply bind_app. Qed.

Lemma no_upload_calls evs :
  Forall (calls_satisfy (λ c, ∀ b d, c ≠ upload_blob b d)) evs → upload_calls evs = [].
Proof.
  induction 1 as [|ev evs Hev _ IH]; [reflexivity|].
  unfold upload_calls in *. rewrite bind_cons, IH, app_nil_r.
  destruct ev as [| | |c r]; try reflexivity. destruct c; try reflexivity.
  exfalso. exact (Hev _ _ eq_refl _ _ eq_refl).
Qed.

Section UploadGate.

Context {W : Type}.
Variable oracle : ∀ c : call, W → outcome (ret c) * W.

Lemma prune_no_upload file_path model_path :
  preserves (log_grows (calls_satisfy (λ c, ∀ b d, c ≠ upload_blob b d)))
    (prune oracle file_path model_path).
Proof. unfold prune, prune_entry. frame_with other_call. Qed.

(** The epoch is not a multiple of the interval: one line, no call. *)
Lemma upload_not_due model_path model_name file_name digits (σ : state W) :
  truthy (_upload_models (globs σ)) = Some true →
  PyStr.re_match_model file_name = Some digits →
  mod_is_zero (PyStr.int digits) (_upload_every (globs σ)) = Ok false →
  upload oracle model_path model_name file_name σ = print "Skipping upload" σ.
Proof.
  intros Hup Hre Hmod. unfold upload, mbind, get_globals, test, lift_outcome.
  rewrite Hup. simpl. rewrite Hre. simpl. rewrite Hmod. reflexivity.
Qed.

(** The epoch is a multiple of the interval but no container client was
    created: the callback fails before it calls anything. *)
Lemma upload_due_without_client model_path model_name file_name digits (σ : state W) :
  truthy (_upload_models (globs σ)) = Some true →
  PyStr.re_match_model file_name = Some digits →
  mod_is_zero (PyStr.int digits) (_upload_every (globs σ)) = Ok true →
  _container_client (globs σ) = VNone →
  upload oracle model_path model_name file_name σ =
    (Raise (Exn AttributeError "object has no attribute 'get_blob_client'"), σ).
Proof.
  intros Hup Hre Hmod Hcc. unfold upload, mbind, get_globals, test, lift_outcome.
  rewrite Hup. simpl. rewrite Hre. simpl. rewrite Hmod. simpl. rewrite Hcc. reflexivity.
Qed.

(** The epoch is a multiple of the interval and the clients exist: the
    checkpoint is handed to [upload_blob]. *)
Lemma upload_due_with_client model_path model_name file_name digits container
    blob data (σ : state W) w1 w2 :
  truthy (_upload_models (globs σ)) = Some true →
  PyStr.re_match_model file_name = Some digits →
  mod_is_zero (PyStr.int digits) (_upload_every (globs σ)) = Ok true →
  _container_client (globs σ) = VObj container →
  oracle (get_blob_client container (model_name +:+ "/" +:+ file_name)) (world σ)
    = (Ok blob, w1) →
  oracle (open_rb model_path) w1 = (Ok data, w2) →
  ∃ r w3, oracle (upload_blob blob data) w2 = (r, w3) ∧
  ∃ evs,
    log (snd (upload oracle model_path model_name file_name σ)) =
      log σ ++ [ECall (get_blob_client container (model_name +:+ "/" +:+ file_name)) None;
                EPrint ("Uploading to " +:+ model_name +:+ "/" +:+ file_name);
                ECall (open_rb model_path) None;
                ECall (upload_blob blob data) (raised_of r)] ++ evs ∧
    upload_calls evs = [].
Proof.
  intros Hup Hre Hmod Hcc Hblob Hopen.
  unfold upload, mbind, get_globals, test, lift_outcome.
  rewrite Hup. simpl. rewrite Hre. simpl. rewrite Hmod. simpl. rewrite Hcc.
  unfold ext at 1. rewrite Hblob. unfold print. cbn [world globs heap log].
  unfold ext at 1. cbn [world globs heap log]. rewrite Hopen.
  unfold try_finally, ext. cbn [world globs heap log].
  destruct (oracle (upload_blob blob data) w2) as [r w3]. exists r, w3.
  split; [reflexivity|]. cbn [world globs heap log].
  destruct (oracle (file_close data) w3) as [[[]|e] w4]; cbn [snd log];
    eexists; rewrite <- !app_assoc; (split; [reflexivity|reflexivity]).
Qed.

End UploadGate.

(** C1.  The gate itself is [model_num % _upload_every == 0], but the
    clients it needs are never created: [run_training] tests the global
    [_upload_models] at line 105 before it assigns it at line 110.  In a
    process that starts from the module's initial globals, once rank 0 has
    built its Trainer from a configuration that enables uploading, every
    save of a checkpoint [model_<n>.pt] whose [n] is a multiple of the
    interval raises, and [upload_blob] is never called. *)
Theorem upload_unreachable_after_setup {W}
    (oracle : ∀ c : call, W → outcome (ret c) * W)
    (σ0 σ : state W) (ws : Z) (model_args : N) (seed : value)
    (d : gmap string value) (every : Z) (model_path digits : string) (model : N) :
  globs σ0 = module_globals →
  heap σ0 !! model_args = Some d →
  d !! "upload_models" = Some (VBool true) →
  d !! "upload_every" = Some (VInt every) →
  every ≠ 0 →
  fst (setup_trainer oracle 0 ws model_args seed σ0) = Ok model →
  globs σ = globs (snd (setup_trainer oracle 0 ws model_args seed σ0)) →
  snd (PyStr.path_split model_path) = "model_" +:+ digits +:+ ".pt" →
  PyStr.all_digits digits = true → digits ≠ EmptyString →
  PyStr.int digits mod every = 0 →
  (∃ e, fst (on_model_save oracle model_path σ) = Raise e) ∧
  (∃ evs, log (snd (on_model_save oracle model_path σ)) = log σ ++ evs ∧
          upload_calls evs = []).
Proof.
  intros Hg0 Hd Hum Hue Hne Hok Hglobs Hfn Hdig Hnz Hmod.
  destruct (setup_trainer_run oracle 0 ws model_args seed d σ0 Hd)
    as (pre & _ & [(e & He & _)|(_ & _ & Hg & Hcl)]); [congruence|].
  destruct (Hg eq_refl) as (um & ue & dm & H1 & H2 & _ & H4 & H5 & _).
  destruct (Hcl eq_refl) as [_ Hcc]; [rewrite Hg0; reflexivity|].
  rewrite Hg0 in Hcc. simpl in Hcc. rewrite <- Hglobs in H4, H5, Hcc.
  rewrite Hum in H1. injection H1 as <-. rewrite Hue in H2. injection H2 as <-.
  clear Hg Hcl.
  unfold on_model_save. destruct (PyStr.path_split model_path) as [fp fn].
  simpl in Hfn. subst fn. unfold mbind.
  pose proof (prune_same_globs oracle fp model_path σ) as Hsame.
  destruct (prune_no_upload oracle fp model_path σ) as (evs & Hl & Hno).
  apply no_upload_calls in Hno.
  destruct (prune oracle fp model_path σ) as [[u|e] σp]; simpl in *; [|eauto].
  unfold same_globs in Hsame.
  rewrite (upload_due_without_client oracle _ _ _ digits).
  - simpl. eauto.
  - rewrite Hsame, H4. reflexivity.
  - apply re_match_model_digits; assumption.
  - rewrite Hsame, H5. simpl. apply Z.eqb_neq in Hne. rewrite Hne, Hmod. reflexivity.
  - rewrite Hsame. assumption.
Qed.

(** ** The training loop under a frame *)

Section LoopFrames.

Context {W : Type}.
Variable oracle : ∀ c : call, W → outcome (ret c) * W.
Context (R : state W → state W → Prop) `{!PreOrder R}.
Hypothesis R_ext : ∀ c, not_trainer c → preserves R (ext oracle c).
Hypothesis R_warn : ∀ line, preserves R (warn line).
Hypothesis R_sleep : ∀ s, preserves R (sleep s).

Lemma retry_call_preserves {A} (f : M W A) tries exceptions delay backoff jitter :
  preserves R f →
  preserves R (retry_call f tries exceptions delay backoff jitter).
Proof.
  intros Hf. revert delay. induction tries as [|n IH]; intros delay; simpl.
  - apply preserves_ret; assumption.
  - frame_with ltac:(first [exact Hf | apply R_warn | apply R_sleep | apply IH]).
Qed.

Lemma train_step_preserves is_main model bar :
  preserves R (train_step oracle is_main model bar).
Proof.
  unfold train_step.
  frame_with ltac:(first [ apply retry_call_preserves
                         | match goal with
                           | |- preserves _ (ext _ ?c) => apply (R_ext c)
                           end; intros ? [=] ]).
Qed.

Lemma train_loop_preserves fuel is_main model bar num_train_steps :
  preserves R (train_loop oracle fuel is_main model bar num_train_steps).
Proof.
  induction fuel as [|fuel IH]; simpl.
  - apply preserves_ret; assumption.
  - frame_with ltac:(first [ exact IH
                           | apply train_step_preserves
                           | match goal with
                           | |- preserves _ (ext _ ?c) => apply (R_ext c)
                           end; intros ? [=] ]).
Qed.

End LoopFrames.

(** ** The dictionary under [run_training] *)

Section HeapFrames.

Context {W : Type}.
Variable oracle : ∀ c : call, W → outcome (ret c) * W.

Lemma preserves_weaken {A} (R R' : state W → state W → Prop) (m : M W A) :
  (∀ σ σ', R σ σ' → R' σ σ') → preserves R m → preserves R' m.
Proof. intros Himp Hm σ. apply Himp, Hm. Qed.

Lemma heap_frame_same l keys (σ σ' : state W) :
  heap σ' = heap σ → heap_frame l keys σ σ'.
Proof.
  intros H. unfold heap_frame. rewrite H. split; [auto|]. split; [eauto|auto].
Qed.

Lemma same_heap_frame {A} l keys (m : M W A) :
  preserves same_heap m → preserves (heap_frame l keys) m.
Proof. apply preserves_weaken. intros σ σ'. apply heap_frame_same. Qed.

(** Writing [d'] over the dictionary at [l] respects the frame when [d']
    agrees with the old contents outside [keys]. *)
Lemma heap_frame_write l keys d d' (σ : state W) w g lg :
  heap σ !! l = Some d → (∀ k, k ∉ keys → d' !! k = d !! k) →
  heap_frame l keys σ {| world := w; globs := g; heap := <[l := d']> (heap σ); log := lg |}.
Proof.
  intros Hd Hagree. unfold heap_frame. simpl. split; [|split].
  - intros l' Hl'. apply lookup_insert_ne. congruence.
  - intros d0 Hd0. assert (d0 = d) by congruence. subst d0.
    exists d'. rewrite lookup_insert_eq. auto.
  - congruence.
Qed.

Lemma update_ranks_frame l rank ws :
  preserves (heap_frame l touched_keys) (update_ranks (W := W) l rank ws).
Proof.
  intros σ. unfold update_ranks, mbind, dict_read, dict_write, set_heap.
  destruct (heap σ !! l) as [d|] eqn:Hd; simpl; [|apply heap_frame_same; reflexivity].
  apply (heap_frame_write _ _ d); [assumption|].
  intros k Hk. unfold touched_keys, ddp_keys in Hk.
  repeat (apply not_elem_of_cons in Hk as [? Hk]). by simplify_map_eq.
Qed.

Lemma dict_setitem_frame l k v :
  k ∈ touched_keys → preserves (heap_frame l touched_keys) (dict_setitem (W := W) l k v).
Proof.
  intros Hin σ. unfold dict_setitem, mbind, dict_read, dict_write, set_heap.
  destruct (heap σ !! l) as [d|] eqn:Hd; simpl; [|apply heap_frame_same; reflexivity].
  apply (heap_frame_write _ _ d); [assumption|].
  intros k' Hk'. apply lookup_insert_ne. congruence.
Qed.

Lemma dict_pop_frame l k :
  k ∈ touched_keys → preserves (heap_frame l touched_keys) (dict_pop (W := W) l k).
Proof.
  intros Hin σ. unfold dict_pop, mbind, dict_read, dict_write, set_heap, mret.
  destruct (heap σ !! l) as [d|] eqn:Hd; simpl; [|apply heap_frame_same; reflexivity].
  apply (heap_frame_write _ _ d); [assumption|].
  intros k' Hk'. apply lookup_delete_ne. congruence.
Qed.

Lemma prepare_model_args_frame rank ws l seed :
  preserves (heap_frame l touched_keys) (prepare_model_args oracle rank ws l seed).
Proof.
  unfold prepare_model_args, configure_main, adopt_policy, pop_cloud_keys.
  frame_with ltac:(first
    [ apply update_ranks_frame
    | apply dict_setitem_frame; unfold touched_keys, ddp_keys, cloud_keys; set_solver
    | apply dict_pop_frame; unfold touched_keys, ddp_keys, cloud_keys; set_solver
    | apply same_heap_frame;
      first [apply init_distributed_heap | apply create_clients_heap | plain_step] ]).
Qed.

Lemma train_model_heap fuel rank ws model data load_from new num_train_steps name :
  preserves same_heap
    (train_model oracle fuel rank ws model data load_from new num_train_steps name).
Proof.
  unfold train_model.
  frame_with ltac:(first
    [ apply train_loop_preserves;
      [apply _ | intros; apply ext_same_heap | intros; plain_step | intros; plain_step]
    | plain_step ]).
Qed.

Lemma train_model_log fuel rank ws model data load_from new num_train_steps name :
  preserves (log_grows (calls_satisfy not_trainer))
    (train_model oracle fuel rank ws model data load_from new num_train_steps name).
Proof.
  unfold train_model.
  frame_with ltac:(first
    [ apply train_loop_preserves;
      [ apply _
      | intros c Hc; apply (ext_log oracle _ c); intros ? ? ? [= <- <-]; exact Hc
      | intros; silent_step | intros; silent_step]
    | silent_step ]).
Qed.

Lemma sample_images_heap model o : preserves same_heap (sample_images oracle model o).
Proof. unfold sample_images, timestamped_filename. frame_with plain_step. Qed.

Lemma sample_images_log model o :
  preserves (log_grows (calls_satisfy not_trainer)) (sample_images oracle model o).
Proof. unfold sample_images, timestamped_filename. frame_with silent_step. Qed.

Lemma interpolate_heap model o : preserves same_heap (interpolate oracle model o).
Proof. unfold interpolate, timestamped_filename. frame_with plain_step. Qed.

Lemma interpolate_log model o :
  preserves (log_grows (calls_satisfy not_trainer)) (interpolate oracle model o).
Proof. unfold interpolate, timestamped_filename. frame_with silent_step. Qed.

Lemma run_training_frame fuel rank ws l data load_from new num_train_steps name seed :
  preserves (heap_frame l touched_keys)
    (run_training oracle fuel rank ws l data load_from new num_train_steps name seed).
Proof.
  unfold run_training, setup_trainer.
  frame_with ltac:(first
    [ apply prepare_model_args_frame
    | apply same_heap_frame; first [apply train_model_heap | plain_step] ]).
Qed.

End HeapFrames.

Lemma trainer_kwargs_app a b : trainer_kwargs (a ++ b) = trainer_kwargs a ++ trainer_kwargs b.
Proof. apply bind_app. Qed.

Section TrainerContents.

Context {W : Type}.
Variable oracle : ∀ c : call, W → outcome (ret c) * W.

(** Building the Trainer from the dictionary at [l] and then using it
    without touching the heap: the Trainer was given what the dictionary
    holds at the end. *)
Lemma build_and_use {A} l d (k : N → M W A) (σ : state W) :
  heap σ !! l = Some d →
  (∀ model, preserves same_heap (k model)) →
  (∀ model, preserves (log_grows (calls_satisfy not_trainer)) (k model)) →
  let r := (let! kwargs := dict_read l in let! model := ext oracle (Trainer kwargs) in
            k model) σ in
  heap (snd r) = heap σ ∧
  ∃ evs, log (snd r) = log σ ++ evs ∧ ∀ kw, kw ∈ trainer_kwargs evs → kw = d.
Proof.
  intros Hd Hheap Hlog r. subst r. unfold mbind.
  rewrite !(dict_read_run l d) by assumption.
  unfold ext. destruct (oracle (Trainer d) (world σ)) as [[model|e] w']; simpl.
  - match goal with |- context [k model ?σ1] =>
      pose proof (Hheap model σ1) as Hh; destruct (Hlog model σ1) as (post & Hl & Hf)
    end.
    unfold same_heap in Hh. simpl in Hh, Hl. split; [assumption|].
    eexists. rewrite Hl, <- app_assoc. split; [reflexivity|].
    rewrite trainer_kwargs_app, (no_trainer_kwargs post Hf). simpl.
    intros kw Hkw. by apply list_elem_of_singleton in Hkw.
  - split; [reflexivity|]. eexists. split; [reflexivity|].
    intros kw Hkw. by apply list_elem_of_singleton in Hkw.
Qed.

Lemma run_training_trainer fuel rank ws l data load_from new num_train_steps name seed d
    (σ : state W) :
  heap σ !! l = Some d →
  let r := run_training oracle fuel rank ws l data load_from new num_train_steps name seed σ in
  ∃ evs, log (snd r) = log σ ++ evs ∧
         ∀ kw, kw ∈ trainer_kwargs evs → heap (snd r) !! l = Some kw.
Proof.
  intros Hd r. subst r. unfold run_training, mbind.
  destruct (setup_trainer_run oracle rank ws l seed d σ Hd) as (pre & Hpre & Hrun).
  simpl in Hrun. apply no_trainer_kwargs in Hpre.
  destruct (setup_trainer oracle rank ws l seed σ) as [[model|e] σ1]; simpl in *.
  - destruct Hrun as [(e & [=] & _)|(Hl & Hh & _)].
    match goal with |- context [train_model oracle ?f ?rk ?w ?m ?a ?b ?c ?n ?nm σ1] =>
      pose proof (train_model_heap oracle f rk w m a b c n nm σ1) as Hh2;
      destruct (train_model_log oracle f rk w m a b c n nm σ1) as (post & Hl2 & Hf)
    end.
    unfold same_heap in Hh2. apply no_trainer_kwargs in Hf.
    eexists. rewrite Hl2, Hl, <- !app_assoc. split; [reflexivity|].
    rewrite !trainer_kwargs_app, Hpre, Hf. simpl.
    intros kw ->%list_elem_of_singleton. rewrite Hh2, Hh. apply lookup_insert_eq.
  - destruct Hrun as [(e' & _ & Hl)|(Hl & Hh & _)].
    + exists pre. split; [assumption|]. rewrite Hpre. intros kw Hkw.
      by apply elem_of_nil in Hkw.
    + eexists. split; [exact Hl|]. rewrite trainer_kwargs_app, Hpre. simpl.
      intros kw ->%list_elem_of_singleton. rewrite Hh. apply lookup_insert_eq.
Qed.

End TrainerContents.

Section EntryPointFrames.

Context {W : Type}.
Variable oracle : ∀ c : call, W → outcome (ret c) * W.

Lemma dispatch_frame fuel l o :
  preserves (heap_frame l touched_keys) (dispatch oracle fuel l o).
Proof.
  unfold dispatch.
  frame_with ltac:(first [ apply run_training_frame
                         | apply same_heap_frame; plain_step ]).
Qed.

Lemma dispatch_trainer fuel l o d (σ : state W) :
  heap σ !! l = Some d →
  let r := dispatch oracle fuel l o σ in
  ∃ evs, log (snd r) = log σ ++ evs ∧
         ∀ kw, kw ∈ trainer_kwargs evs → heap (snd r) !! l = Some kw.
Proof.
  intros Hd r. remember (dispatch oracle fuel l o σ) as res eqn:Hres. subst r.
  unfold dispatch, mbind in Hres. unfold ext at 1 in Hres.
  destruct (oracle cuda_device_count (world σ)) as [[n|e] w1]; simpl in Hres.
  - set (σ1 := {| world := w1; globs := globs σ; heap := heap σ;
                  log := log σ ++ [ECall cuda_device_count None] |}) in *.
    assert (Hin : ∀ res,
      res = run_training oracle fuel 0 1 l (Options.data o) (Options.load_from o)
              (Options.new o) (Options.num_train_steps o) (Options.name o)
              (Options.seed o) σ1 →
      ∃ evs, log (snd res) = log σ ++ evs ∧
             ∀ kw, kw ∈ trainer_kwargs evs → heap (snd res) !! l = Some kw).
    { intros ? ->.
      destruct (run_training_trainer oracle fuel 0 1 l (Options.data o)
                  (Options.load_from o) (Options.new o) (Options.num_train_steps o)
                  (Options.name o) (Options.seed o) d σ1 Hd) as (evs & Hl & Hkw).
      eexists. rewrite Hl. unfold σ1 at 1. simpl. rewrite <- app_assoc.
      split; [reflexivity|]. rewrite trainer_kwargs_app. exact Hkw. }
    assert (Hout : ∀ res,
      res = (let! kwargs := dict_read l in
             ext oracle (mp_spawn n (spawn_args_of n kwargs o)) ;; mret Finished) σ1 →
      ∃ evs, log (snd res) = log σ ++ evs ∧
             ∀ kw, kw ∈ trainer_kwargs evs → heap (snd res) !! l = Some kw).
    { intros ? ->. unfold mbind. rewrite (dict_read_run l d) by exact Hd.
      unfold ext. destruct (oracle (mp_spawn _ _) (world σ1)) as [[[]|e] w2]; simpl;
        rewrite <- app_assoc; (eexists; split; [reflexivity|]);
        intros kw Hkw; by apply elem_of_nil in Hkw. }
    destruct (n =? 1); simpl in Hres; [apply Hin, Hres|].
    unfold test in Hres. destruct (truthy (Options.multi_gpus o)) as [[|]|];
      simpl in Hres; [apply Hout, Hres|apply Hin, Hres|].
    subst res. simpl. exists [ECall cuda_device_count None].
    split; [reflexivity|]. intros kw Hkw. by apply elem_of_nil in Hkw.
  - subst res. simpl. eexists. split; [reflexivity|].
    intros kw Hkw. by apply elem_of_nil in Hkw.
Qed.

Lemma run_mode_frame fuel l o :
  preserves (heap_frame l touched_keys) (run_mode oracle fuel l o).
Proof.
  unfold run_mode, generate_samples, generate_interpolation.
  frame_with ltac:(first
    [ apply dispatch_frame
    | apply same_heap_frame;
      first [apply sample_images_heap | apply interpolate_heap | plain_step] ]).
Qed.

Lemma run_mode_trainer fuel l o d (σ : state W) :
  heap σ !! l = Some d →
  let r := run_mode oracle fuel l o σ in
  ∃ evs, log (snd r) = log σ ++ evs ∧
         ∀ kw, kw ∈ trainer_kwargs evs → heap (snd r) !! l = Some kw.
Proof.
  intros Hd r. remember (run_mode oracle fuel l o σ) as res eqn:Hres. subst r.
  assert (Hgen : ∀ (k : N → M W unit) res,
    (∀ model, preserves same_heap (k model)) →
    (∀ model, preserves (log_grows (calls_satisfy not_trainer)) (k model)) →
    res = ((let! kwargs := dict_read l in let! model := ext oracle (Trainer kwargs) in
            k model) ;; mret Finished) σ →
    ∃ evs, log (snd res) = log σ ++ evs ∧
           ∀ kw, kw ∈ trainer_kwargs evs → heap (snd res) !! l = Some kw).
  { intros k res0 Hk1 Hk2 Hres0. unfold mbind at 1 in Hres0.
    pose proof (build_and_use oracle l d k σ Hd Hk1 Hk2) as Hbuild.
    cbv zeta in Hbuild.
    remember ((let! kwargs := dict_read l in let! model := ext oracle (Trainer kwargs) in
               k model) σ) as inner eqn:Hinner.
    clear Hinner. destruct Hbuild as (Hh & evs & Hl & Hkw).
    destruct inner as [[[]|e] σ2]; subst res0; simpl in *;
      exists evs; (split; [assumption|]); intros kw ->%Hkw; rewrite Hh; assumption. }
  unfold run_mode, mbind at 1, test in Hres.
  destruct (truthy (Options.generate o)) as [[|]|]; simpl in Hres.
  - apply (Hgen (λ model, sample_images oracle model o));
      [intros; apply sample_images_heap|intros; apply sample_images_log|exact Hres].
  - unfold mbind at 1, test in Hres.
    destruct (truthy (Options.generate_interpolation o)) as [[|]|]; simpl in Hres.
    + apply (Hgen (λ model, interpolate oracle model o));
        [intros; apply interpolate_heap|intros; apply interpolate_log|exact Hres].
    + subst res. apply (dispatch_trainer fuel l o d). assumption.
    + subst res. simpl. exists []. rewrite app_nil_r. split; [reflexivity|].
      intros kw Hkw. by apply elem_of_nil in Hkw.
  - subst res. simpl. exists []. rewrite app_nil_r. split; [reflexivity|].
    intros kw Hkw. by apply elem_of_nil in Hkw.
Qed.

End EntryPointFrames.

(** ** What [run_training] writes into [model_args] *)

Section Mutation.

Context {W : Type}.
Variable oracle : ∀ c : call, W → outcome (ret c) * W.

Lemma bind_same_heap {A B} (m : M W A) (k : A → M W B) (σ : state W) :
  (∀ a, preserves same_heap (k a)) →
  heap (snd (mbind m k σ)) = heap (snd (m σ)).
Proof.
  intros Hk. unfold mbind. destruct (m σ) as [[a|e] σ1]; [|reflexivity].
  apply (Hk a σ1).
Qed.

Lemma dict_setitem_frame_keys l k v keys :
  k ∈ keys → preserves (heap_frame l keys) (dict_setitem (W := W) l k v).
Proof.
  intros Hin σ. unfold dict_setitem, mbind, dict_read, dict_write, set_heap.
  destruct (heap σ !! l) as [d|] eqn:Hd; simpl; [|apply heap_frame_same; reflexivity].
  apply (heap_frame_write _ _ d); [assumption|].
  intros k' Hk'. apply lookup_insert_ne. congruence.
Qed.

Lemma dict_pop_frame_keys l k keys :
  k ∈ keys → preserves (heap_frame l keys) (dict_pop (W := W) l k).
Proof.
  intros Hin σ. unfold dict_pop, mbind, dict_read, dict_write, set_heap, mret.
  destruct (heap σ !! l) as [d|] eqn:Hd; simpl; [|apply heap_frame_same; reflexivity].
  apply (heap_frame_write _ _ d); [assumption|].
  intros k' Hk'. apply lookup_delete_ne. congruence.
Qed.

Lemma trainer_call_heap l :
  preserves same_heap
    (let! kwargs := dict_read l in ext oracle (Trainer kwargs)).
Proof. frame_with plain_step. Qed.

(** After lines 98-102 only [save_callback] and the six cloud keys are
    written or removed. *)
Lemma after_ranks_frame (is_main : bool) l :
  preserves (heap_frame l ("save_callback" :: cloud_keys))
    ((if is_main then configure_main oracle l else mret tt) ;; pop_cloud_keys l).
Proof.
  unfold configure_main, adopt_policy, pop_cloud_keys.
  frame_with ltac:(first
    [ apply dict_setitem_frame_keys; unfold cloud_keys; set_solver
    | apply dict_pop_frame_keys; unfold cloud_keys; set_solver
    | apply same_heap_frame; first [apply create_clients_heap | plain_step] ]).
Qed.

(** A run that is not distributed always writes [is_ddp], [rank] and
    [world_size] into [model_args], whatever happens afterwards. *)
Lemma run_training_writes_ranks fuel rank ws l data load_from new num_train_steps
    name seed d (σ : state W) :
  heap σ !! l = Some d → ws ≤ 1 →
  ∃ d', heap (snd (run_training oracle fuel rank ws l data load_from new
                     num_train_steps name seed σ)) !! l = Some d' ∧
        d' !! "is_ddp" = Some (VBool false) ∧
        d' !! "rank" = Some (VInt rank) ∧
        d' !! "world_size" = Some (VInt ws).
Proof.
  intros Hd Hws. assert (Hddp : (1 <? ws) = false) by (apply Z.ltb_ge; lia).
  unfold run_training.
  rewrite bind_same_heap by (intros; apply train_model_heap).
  unfold setup_trainer.
  rewrite bind_same_heap
    by (intros; apply trainer_call_heap).
  unfold prepare_model_args. rewrite Hddp.
  unfold mbind at 1. cbn [mret]. unfold mbind at 1, update_ranks, mbind at 1.
  rewrite (dict_read_run _ d) by assumption.
  unfold dict_write, set_heap. cbn [world globs heap log].
  match goal with
  | |- context [mbind ?m ?k ?σ2] =>
      destruct (after_ranks_frame (rank =? 0) l σ2) as (_ & Hat & _)
  end.
  destruct (Hat _ (lookup_insert_eq _ _ _)) as (d' & Hd' & Hagree).
  exists d'. split; [exact Hd'|].
  assert (Hout : ∀ k, k ∈ ddp_keys → k ∉ "save_callback" :: cloud_keys).
  { unfold ddp_keys, cloud_keys. intros k Hk Hin.
    repeat (apply elem_of_cons in Hk as [->|Hk]);
      try (by apply elem_of_nil in Hk);
      repeat (apply elem_of_cons in Hin as [Hin|Hin]; [discriminate Hin|]);
      by apply elem_of_nil in Hin. }
  rewrite !Hagree by (apply Hout; unfold ddp_keys; set_solver).
  rewrite Hddp. split; [|split]; by simplify_map_eq.
Qed.

(** Training in the current process is [run_training(0, 1, ...)] on the
    dictionary just built. *)
Lemma in_process_dispatch fuel o (σ : state W) n w1 :
  truthy (Options.generate o) = Some false →
  truthy (Options.generate_interpolation o) = Some false →
  oracle cuda_device_count (world σ) = (Ok n, w1) →
  n = 1 ∨ truthy (Options.multi_gpus o) = Some false →
  train_from_folder oracle fuel o σ =
    run_training oracle fuel 0 1 (fresh (dom (heap σ))) (Options.data o)
      (Options.load_from o) (Options.new o) (Options.num_train_steps o)
      (Options.name o) (Options.seed o)
      {| world := w1; globs := globs σ;
         heap := <[fresh (dom (heap σ)) := build_model_args o]> (heap σ);
         log := log σ ++ [ECall cuda_device_count None] |}.
Proof.
  intros Hgen Hint Hn Hhere.
  unfold train_from_folder, mbind at 1, dict_new. cbn beta iota.
  unfold run_mode, mbind at 1, test. rewrite Hgen. cbn [mret]. cbn beta iota.
  unfold mbind at 1, test. rewrite Hint. cbn [mret]. cbn beta iota.
  unfold dispatch, mbind at 1, ext at 1. cbn [world globs heap log].
  rewrite Hn. cbn beta iota.
  destruct (Z.eqb_spec n 1) as [->|Hne].
  - unfold mbind at 1. reflexivity.
  - destruct Hhere as [?|Hmulti]; [contradiction|].
    unfold mbind at 1 2, test. rewrite Hmulti. reflexivity.
Qed.

(** With the early calls answered, [run_training] builds the Trainer once
    and leaves in the dictionary what the Trainer was given. *)
Lemma in_process_rewrites fuel l data load_from new num_train_steps name seed d
    (σ : state W) :
  heap σ !! l = Some d →
  main_entries (_upload_models (globs σ)) d →
  (∀ c w, early_call true false
            (default false (truthy (_upload_models (globs σ)))) c →
          ∃ a w', oracle c w = (Ok a, w')) →
  let r := run_training oracle fuel 0 1 l data load_from new num_train_steps name
             seed σ in
  heap (snd r) !! l = Some (trainer_arguments 0 1 d) ∧
  ∃ evs, log (snd r) = log σ ++ evs ∧ trainer_kwargs evs = [trainer_arguments 0 1 d].
Proof.
  intros Hd Hmain Hearly r. subst r.
  destruct (setup_trainer_reaches oracle 0 1 l seed d σ Hd Hearly (λ _, Hmain))
    as ((pre & Hl & Hpre) & Hh & _).
  unfold run_training.
  rewrite bind_same_heap by (intros; apply train_model_heap).
  cbv zeta in Hh. rewrite Hh, lookup_insert_eq. split; [reflexivity|].
  unfold mbind. cbv zeta in Hl.
  destruct (setup_trainer oracle 0 1 l seed σ) as [[model|e] σ1]; cbn [fst snd] in *.
  - destruct (train_model_log oracle fuel 0 1 model data load_from new num_train_steps
                name σ1) as (post & Hlp & Hpost).
    eexists. rewrite Hlp, Hl, <- !app_assoc. split; [reflexivity|].
    rewrite !trainer_kwargs_app, (no_trainer_kwargs pre Hpre),
      (no_trainer_kwargs post Hpost). reflexivity.
  - eexists. split; [exact Hl|].
    rewrite !trainer_kwargs_app, (no_trainer_kwargs pre Hpre). reflexivity.
Qed.

(** Every Trainer that [run_training] builds is given
    [trainer_arguments rank world_size d]. *)
Lemma run_training_kwargs fuel rank ws l data load_from new num_train_steps name seed d
    (σ : state W) :
  heap σ !! l = Some d →
  ∃ evs, log (snd (run_training oracle fuel rank ws l data load_from new
                     num_train_steps name seed σ)) = log σ ++ evs ∧
         ∀ kw, kw ∈ trainer_kwargs evs → kw = trainer_arguments rank ws d.
Proof.
  intros Hd.
  destruct (setup_trainer_run oracle rank ws l seed d σ Hd) as (pre & Hpre & Hrun).
  cbv zeta in Hrun. unfold run_training, mbind.
  destruct (setup_trainer oracle rank ws l seed σ) as [[model|e] σ1];
    cbn [fst snd] in *.
  - destruct Hrun as [(e & [=] & _)|(Hl & _)].
    destruct (train_model_log oracle fuel rank ws model data load_from new
                num_train_steps name σ1) as (post & Hlp & Hpost).
    eexists. rewrite Hlp, Hl, <- !app_assoc. split; [reflexivity|].
    rewrite !trainer_kwargs_app, (no_trainer_kwargs pre Hpre),
      (no_trainer_kwargs post Hpost).
    intros kw Hkw. by apply list_elem_of_singleton in Hkw.
  - destruct Hrun as [(e' & _ & Hl)|(Hl & _)]; (eexists; split; [exact Hl|]).
    + rewrite (no_trainer_kwargs pre Hpre). intros kw Hkw. by apply elem_of_nil in Hkw.
    + rewrite trainer_kwargs_app, (no_trainer_kwargs pre Hpre).
      intros kw Hkw. by apply list_elem_of_singleton in Hkw.
Qed.

End Mutation.

(** C5, as amended.  [train_from_folder] creates one dictionary and touches
    no other; the dictionary is not immutable, but only [is_ddp], [rank],
    [world_size], [save_callback] and the six cloud keys are ever added,
    overwritten or removed, every other key keeps the value it was built
    with; and whenever a Trainer is constructed it is given the entries the
    dictionary then holds, which are also the ones it holds at the end.
    The dictionary is changed: whenever training runs in the current
    process, [is_ddp], [rank] and [world_size], which it was built without,
    are written into it, and every Trainer that is built is given
    [trainer_arguments 0 1] of the dictionary as built, in which
    [save_callback] is [on_model_save] and the six cloud keys, which the
    dictionary was built with, are gone; and when the calls that create the
    two clients return (there are none unless uploading was enabled before),
    the Trainer is built, once, and the dictionary ends as what the Trainer
    was given. *)
Theorem model_args_updated_in_place {W}
    (oracle : ∀ c : call, W → outcome (ret c) * W)
    (fuel : nat) (o : Options.t) (σ : state W) :
  let l := fresh (dom (heap σ)) in
  let r := train_from_folder oracle fuel o σ in
  heap σ !! l = None ∧
  (∀ l', l' ≠ l → heap (snd r) !! l' = heap σ !! l') ∧
  (∃ d', heap (snd r) !! l = Some d' ∧
         ∀ k, k ∉ touched_keys → d' !! k = build_model_args o !! k) ∧
  (∃ evs, log (snd r) = log σ ++ evs ∧
          ∀ kw, kw ∈ trainer_kwargs evs → heap (snd r) !! l = Some kw) ∧
  (truthy (Options.generate o) = Some false →
   truthy (Options.generate_interpolation o) = Some false →
   ∀ n w1, oracle cuda_device_count (world σ) = (Ok n, w1) →
   n = 1 ∨ truthy (Options.multi_gpus o) = Some false →
   (∃ d', heap (snd r) !! l = Some d' ∧
          d' !! "is_ddp" = Some (VBool false) ∧
          d' !! "rank" = Some (VInt 0) ∧
          d' !! "world_size" = Some (VInt 1)) ∧
   (build_model_args o !! "is_ddp" = None ∧
    build_model_args o !! "rank" = None ∧
    build_model_args o !! "world_size" = None) ∧
   (∃ evs, log (snd r) = log σ ++ evs ∧
           ∀ kw, kw ∈ trainer_kwargs evs →
                 kw = trainer_arguments 0 1 (build_model_args o)) ∧
   trainer_arguments 0 1 (build_model_args o) !! "save_callback" =
     Some (VFunc "on_model_save") ∧
   (∀ k, k ∈ cloud_keys →
         trainer_arguments 0 1 (build_model_args o) !! k = None ∧
         is_Some (build_model_args o !! k)) ∧
   (is_Some (truthy (_upload_models (globs σ))) →
    (∀ c w, early_call true false
              (default false (truthy (_upload_models (globs σ)))) c →
            ∃ a w', oracle c w = (Ok a, w')) →
    heap (snd r) !! l = Some (trainer_arguments 0 1 (build_model_args o)) ∧
    ∃ evs, log (snd r) = log σ ++ evs ∧
           trainer_kwargs evs = [trainer_arguments 0 1 (build_model_args o)])).
Proof.
  intros l r.
  assert (Hfresh : heap σ !! l = None)
    by (apply not_elem_of_dom, is_fresh).
  split; [assumption|].
  set (d := build_model_args o).
  set (σ1 := {| world := world σ; globs := globs σ;
                heap := <[l := d]> (heap σ); log := log σ |}).
  assert (Hr : r = run_mode oracle fuel l o σ1) by reflexivity.
  assert (Hd1 : heap σ1 !! l = Some d) by apply lookup_insert_eq.
  destruct (run_mode_frame oracle fuel l o σ1) as (Hothers & Hat & _).
  destruct (Hat d Hd1) as (d' & Hd' & Hagree).
  destruct (run_mode_trainer oracle fuel l o d σ1 Hd1) as (evs & Hl & Hkw).
  split; [|split; [|split]].
  - rewrite Hr. intros l' Hl'. rewrite Hothers by assumption.
    apply lookup_insert_ne. congruence.
  - rewrite Hr. eauto.
  - rewrite Hr. eauto.
  - clear Hr Hothers Hat d' Hd' Hagree evs Hl Hkw.
    intros Hgen Hint n w1 Hn Hhere.
    assert (Hrun : r = run_training oracle fuel 0 1 l (Options.data o)
                         (Options.load_from o) (Options.new o)
                         (Options.num_train_steps o) (Options.name o) (Options.seed o)
                         {| world := w1; globs := globs σ; heap := <[l := d]> (heap σ);
                            log := log σ ++ [ECall cuda_device_count None] |})
      by (eapply in_process_dispatch; eassumption).
    rewrite Hrun. clear Hrun r.
    set (σ2 := {| world := w1; globs := globs σ; heap := <[l := d]> (heap σ);
                  log := log σ ++ [ECall cuda_device_count None] |}).
    assert (Hd2 : heap σ2 !! l = Some d) by apply lookup_insert_eq.
    split; [|split; [|split; [|split; [|split]]]].
    + apply (run_training_writes_ranks oracle fuel 0 1 l _ _ _ _ _ _ d σ2 Hd2). lia.
    + repeat split; reflexivity.
    + destruct (run_training_kwargs oracle fuel 0 1 l (Options.data o)
                  (Options.load_from o) (Options.new o) (Options.num_train_steps o)
                  (Options.name o) (Options.seed o) d σ2 Hd2) as (evs & Hl & Hkw).
      eexists. rewrite Hl. unfold σ2 at 1. cbn [log]. rewrite <- app_assoc.
      split; [reflexivity|]. rewrite trainer_kwargs_app. exact Hkw.
    + reflexivity.
    + intros k Hk.
      split; [apply trainer_arguments_cloud; assumption|].
      unfold cloud_keys in Hk.
      repeat (apply elem_of_cons in Hk as [->|Hk]); try (eexists; reflexivity).
      by apply elem_of_nil in Hk.
    + intros Hflag Hearly.
      destruct (in_process_rewrites oracle fuel l (Options.data o)
                  (Options.load_from o) (Options.new o) (Options.num_train_steps o)
                  (Options.name o) (Options.seed o) d σ2 Hd2)
        as (Hh & evs & Hl & Hkw).
      { unfold main_entries. split; [exact Hflag|].
        repeat split; eexists; reflexivity. }
      { exact Hearly. }
      split; [exact Hh|].
      eexists. rewrite Hl. unfold σ2 at 1. cbn [log]. rewrite <- app_assoc.
      split; [reflexivity|]. rewrite trainer_kwargs_app. exact Hkw.
Qed.

(** ** Dispatch (lines 284-293) *)

(** C8. With the device count [n] that [torch.cuda.device_count()]
    returned: if [n] is 1 or [multi_gpus] is false, training runs in the
    current process as [run_training(0, 1, ...)] on the same dictionary;
    otherwise [mp.spawn] is called once with [nprocs = n] and no training
    happens in the current process, and the children it stands for are the
    ranks [0 .. n-1], each run as [run_training] with world size [n]. *)
Theorem dispatch_by_device_count {W}
    (oracle : ∀ c : call, W → outcome (ret c) * W)
    (fuel : nat) (model_args : N) (o : Options.t) (σ : state W) (n : Z) (w1 : W) :
  oracle cuda_device_count (world σ) = (Ok n, w1) →
  let σ1 := {| world := w1; globs := globs σ; heap := heap σ;
               log := log σ ++ [ECall cuda_device_count None] |} in
  (n = 1 ∨ truthy (Options.multi_gpus o) = Some false →
   dispatch oracle fuel model_args o σ =
     run_training oracle fuel 0 1 model_args (Options.data o) (Options.load_from o)
       (Options.new o) (Options.num_train_steps o) (Options.name o) (Options.seed o) σ1) ∧
  (n ≠ 1 → truthy (Options.multi_gpus o) = Some true →
   ∀ kwargs, heap σ !! model_args = Some kwargs →
     let args := spawn_args_of n kwargs o in
     let r := oracle (mp_spawn n args) w1 in
     snd (dispatch oracle fuel model_args o σ) =
       {| world := snd r; globs := globs σ; heap := heap σ;
          log := log σ ++ [ECall cuda_device_count None;
                           ECall (mp_spawn n args) (raised_of (fst r))] |} ∧
     sp_world_size args = n ∧
     fst <$> spawn_children n args = seqZ 0 n ∧
     ∀ child w, child ∈ spawn_children n args →
       0 ≤ fst child < n ∧
       run_child oracle fuel child w =
         run_training oracle fuel (fst child) n 0%N (Options.data o)
           (Options.load_from o) (Options.new o) (Options.num_train_steps o)
           (Options.name o) (Options.seed o)
           {| world := w; globs := module_globals;
              heap := {[ 0%N := kwargs ]}; log := [] |}).
Proof.
  intros Hn σ1. split.
  - intros Hsingle. unfold dispatch, mbind. unfold ext at 1. rewrite Hn. simpl.
    fold σ1. destruct (Z.eqb_spec n 1) as [->|Hne]; simpl; [reflexivity|].
    destruct Hsingle as [?|Hm]; [contradiction|].
    unfold test. rewrite Hm. reflexivity.
  - intros Hne Hm kwargs Hd args r. split; [|split; [reflexivity|split]].
    + unfold dispatch, mbind. unfold ext at 1. rewrite Hn. simpl. fold σ1.
      apply Z.eqb_neq in Hne. rewrite Hne. unfold test. rewrite Hm. simpl.
      rewrite (dict_read_run model_args kwargs) by exact Hd.
      unfold ext. simpl. fold args. subst r.
      destruct (oracle (mp_spawn n args) w1) as [[[]|e] w2]; simpl;
        rewrite <- app_assoc; reflexivity.
    + unfold spawn_children. rewrite <- list_fmap_compose.
      apply list_fmap_id.
    + intros child w Hin. unfold spawn_children in Hin.
      apply list_elem_of_fmap in Hin as (i & -> & Hi).
      apply elem_of_seqZ in Hi. simpl. split; [lia|reflexivity].
Qed.

(** ** Retrying [train] (lines 131-132) *)

(** Closes one case of the analysis of three attempts. *)
Ltac retry_done :=
  eexists; rewrite <- ?app_assoc; (split; [reflexivity|]); simpl;
  repeat split; try lia; auto; try congruence;
  try (intros [|[|[|i]]] x Hi Hx; simpl in *; try lia; injection Hx as <-; eauto).

Section Retry.

Context {W : Type}.
Variable oracle : ∀ c : call, W → outcome (ret c) * W.

(** One attempt of [f = model.train] inside [retry_call]. *)
Lemma retry_call_step {A} (f : M W A) n exceptions delay backoff jitter (σ : state W) :
  retry_call f (S n) exceptions delay backoff jitter σ =
    match f σ with
    | (Ok a, σ1) => (Ok (Some a), σ1)
    | (Raise e, σ1) =>
        if isinstance e exceptions
        then match n with
             | O => (Raise e, σ1)
             | S _ =>
                 (warn (exn_msg e +:+ ", retrying in " +:+ pretty delay +:+ " seconds...") ;;
                  sleep delay ;;
                  retry_call f n exceptions (delay * backoff + jitter) backoff jitter) σ1
             end
        else (Raise e, σ1)
    end.
Proof.
  simpl. unfold try_except, mbind at 1, mret.
  destruct (f σ) as [[a|e] σ1]; [reflexivity|].
  destruct (isinstance e exceptions); [|reflexivity]. destruct n; reflexivity.
Qed.

Lemma train_call_run model (σ : state W) :
  ext oracle (model_train model) σ =
    (fst (oracle (model_train model) (world σ)),
     {| world := snd (oracle (model_train model) (world σ)); globs := globs σ;
        heap := heap σ;
        log := log σ ++ [ECall (model_train model)
                           (raised_of (fst (oracle (model_train model) (world σ))))] |}).
Proof. unfold ext. destruct (oracle (model_train model) (world σ)). reflexivity. Qed.

Lemma retry_train_run model (σ : state W) :
  let r := retry_call (ext oracle (model_train model)) 3 NanException 0 1 0 σ in
  ∃ evs, log (snd r) = log σ ++ evs ∧
    (1 ≤ length (train_outcomes evs) ≤ 3)%nat ∧
    Forall (λ s, s = 0) (sleeps evs) ∧
    length (sleeps evs) = pred (length (train_outcomes evs)) ∧
    (∀ i x, (S i < length (train_outcomes evs))%nat → train_outcomes evs !! i = Some x →
            ∃ e, x = Some e ∧ isinstance e NanException = true) ∧
    match fst r with
    | Ok _ => last (train_outcomes evs) = Some None
    | Raise e =>
        last (train_outcomes evs) = Some (Some e) ∧
        (isinstance e NanException = true → length (train_outcomes evs) = 3%nat)
    end.
Proof.
  intros r. remember (retry_call _ _ _ _ _ _ σ) as res eqn:Hres. subst r.
  rewrite retry_call_step, train_call_run in Hres.
  destruct (oracle (model_train model) (world σ)) as [[[]|e1] w1];
    cbn [fst snd raised_of world globs heap log] in Hres; [subst res; retry_done|].
  destruct (isinstance e1 NanException) eqn:H1; [|subst res; retry_done].
  unfold mbind at 1, warn at 1 in Hres. unfold mbind at 1, sleep at 1 in Hres.
  rewrite retry_call_step, train_call_run in Hres. cbn [world globs heap log] in Hres.
  destruct (oracle (model_train model) w1) as [[[]|e2] w2];
    cbn [fst snd raised_of world globs heap log] in Hres; [subst res; retry_done|].
  destruct (isinstance e2 NanException) eqn:H2; [|subst res; retry_done].
  unfold mbind at 1, warn at 1 in Hres. unfold mbind at 1, sleep at 1 in Hres.
  rewrite retry_call_step, train_call_run in Hres. cbn [world globs heap log] in Hres.
  destruct (oracle (model_train model) w2) as [[[]|e3] w3];
    cbn [fst snd raised_of world globs heap log] in Hres; [subst res; retry_done|].
  destruct (isinstance e3 NanException) eqn:H3; subst res; retry_done.
Qed.

End Retry.

(** C4. [retry_call(model.train, tries=3, exceptions=NanException)] calls
    [train] at least once and at most three times; every attempt but the
    last one made raised a [NanException] and was followed by a sleep of zero
    seconds, so there is no backoff.  The block returns when an attempt
    succeeds, and raises the exception of the last attempt otherwise: at once
    when it is no [NanException], after the third attempt when it is.  That
    exception leaves [train_step] and, from whatever turn it happens in, the
    training loop. *)
Theorem train_retried_three_times {W}
    (oracle : ∀ c : call, W → outcome (ret c) * W) (model : N) :
  let attempt := retry_call (ext oracle (model_train model)) 3 NanException 0 1 0 in
  (∀ σ : state W,
     ∃ evs, log (snd (attempt σ)) = log σ ++ evs ∧
       (1 ≤ length (train_outcomes evs) ≤ 3)%nat ∧
       Forall (λ s, s = 0) (sleeps evs) ∧
       length (sleeps evs) = pred (length (train_outcomes evs)) ∧
       (∀ i x, (S i < length (train_outcomes evs))%nat →
               train_outcomes evs !! i = Some x →
               ∃ e, x = Some e ∧ isinstance e NanException = true) ∧
       match fst (attempt σ) with
       | Ok _ => last (train_outcomes evs) = Some None
       | Raise e =>
           last (train_outcomes evs) = Some (Some e) ∧
           (isinstance e NanException = true → length (train_outcomes evs) = 3%nat)
       end) ∧
  (∀ is_main bar (σ : state W) e,
     fst (attempt σ) = Raise e →
     train_step oracle is_main model bar σ = (Raise e, snd (attempt σ))) ∧
  (∀ fuel is_main bar num_train_steps (σ : state W) steps w1,
     oracle (model_steps model) (world σ) = (Ok steps, w1) →
     int_lt steps num_train_steps = Ok true →
     let σ1 := {| world := w1; globs := globs σ; heap := heap σ;
                  log := log σ ++ [ECall (model_steps model) None] |} in
     train_loop oracle (S fuel) is_main model bar num_train_steps σ =
       match train_step oracle is_main model bar σ1 with
       | (Ok _, σ2) => train_loop oracle fuel is_main model bar num_train_steps σ2
       | (Raise e, σ2) => (Raise e, σ2)
       end).
Proof.
  intros attempt. split; [|split].
  - intros σ. apply retry_train_run.
  - intros is_main bar σ e He. unfold train_step, mbind at 1. fold attempt.
    destruct (attempt σ) as [[a|e'] σ1]; simpl in *; congruence.
  - intros fuel is_main bar num σ steps w1 Hsteps Hlt σ1.
    cbn [train_loop]. unfold mbind at 1, ext at 1. rewrite Hsteps.
    cbn [raised_of]. fold σ1. unfold mbind at 1, lift_outcome. rewrite Hlt.
    reflexivity.
Qed.

(** * Worked examples *)

Example path_split_nested :
  PyStr.path_split "models/default/model_20.pt" = ("models/default", "model_20.pt").
Proof. reflexivity. Qed.

Example path_split_bare : PyStr.path_split "model_20.pt" = (EmptyString, "model_20.pt").
Proof. reflexivity. Qed.

Example path_split_root : PyStr.path_split "/model_20.pt" = ("/", "model_20.pt").
Proof. reflexivity. Qed.

Example path_split_doubled :
  PyStr.path_split "a//b///model_20.pt" = ("a//b", "model_20.pt").
Proof. reflexivity. Qed.

Example re_match_plain : PyStr.re_match_model "model_20.pt" = Some "20".
Proof. reflexivity. Qed.

(** The dot of the pattern matches any character, and the digits give one
    back for it. *)
Example re_match_backtracks : PyStr.re_match_model "model_123pt" = Some "12".
Proof. reflexivity. Qed.

Example re_match_letters : PyStr.re_match_model "model_abc.pt" = None.
Proof. reflexivity. Qed.

Example int_leading_zeros : PyStr.int "007" = 7.
Proof. reflexivity. Qed.

(** Section 8 of the specification: with an interval of 10 and
    [model_00.pt] .. [model_29.pt] in the directory, saving [model_20.pt]
    deletes the 29 others and uploads [model_20.pt] alone, provided the
    container client exists. *)
Example prune_and_upload_model_20 :
  let r := on_model_save Mock.oracle "models/default/model_20.pt"
             (Mock.saving (Mock.policy true true 10)
                (Mock.directory Mock.thirty_checkpoints)) in
  fst r = Ok tt ∧
  removed_paths (log (snd r)) =
    (λ i, "models/default/" +:+ i) <$>
      List.filter (λ i, negb (String.eqb i "model_20.pt")) Mock.thirty_checkpoints ∧
  length (removed_paths (log (snd r))) = 29%nat ∧
  drop 60 (log (snd r)) =
    [ECall (get_blob_client 2 "default/model_20.pt") None;
     EPrint "Uploading to default/model_20.pt";
     ECall (open_rb "models/default/model_20.pt") None;
     ECall (upload_blob 4 5) None;
     ECall (file_close 5) None].
Proof. vm_compute. repeat split; reflexivity. Qed.

(** An epoch that is no multiple of the interval is not uploaded. *)
Example skip_upload_model_21 :
  let r := on_model_save Mock.oracle "models/default/model_21.pt"
             (Mock.saving (Mock.policy false true 10) (Mock.directory [])) in
  fst r = Ok tt ∧ log (snd r) = [EPrint "Skipping upload"].
Proof. vm_compute. split; reflexivity. Qed.

(** An interval given as a float: line 56 computes [20 % 2.5 == 0], which
    holds, and [model_20.pt] is uploaded. *)
Example float_interval_uploads :
  let g := {| _blob_service_client := VObj 1; _container_client := VObj 2;
              _delete_old_models := VBool false; _upload_models := VBool true;
              _upload_every := VFloat "2.5" |} in
  let r := on_model_save Mock.oracle "models/default/model_20.pt"
             (Mock.saving g Mock.quiet) in
  mod_is_zero 20 (VFloat "2.5") = Ok true ∧
  fst r = Ok tt ∧
  upload_calls (log (snd r)) = [(4%N, 5%N)].
Proof. vm_compute. repeat split; reflexivity. Qed.

(** The remainder is that of the doubles: [0.1] is not a tenth, so
    [3 % 0.1] is not zero; a zero interval raises. *)
Example float_remainders :
  mod_is_zero 3 (VFloat "0.1") = Ok false ∧
  mod_is_zero 1 (VFloat "0.5") = Ok true ∧
  mod_is_zero 7 (VFloat "1e400") = Ok false ∧
  mod_is_zero 20 (VFloat "0.0") = Raise (Exn ZeroDivisionError "float modulo").
Proof. vm_compute. repeat split; reflexivity. Qed.

(** The pruning test is weaker than the upload pattern: [model_abc.pt] is a
    model file for the loop and is deleted. *)
Example prune_deletes_model_abc :
  let r := on_model_save Mock.oracle "models/default/model_20.pt"
             (Mock.saving (Mock.policy true false 10)
                (Mock.directory ["model_abc.pt"; "notes.txt"; "model_20.pt"])) in
  removed_paths (log (snd r)) = ["models/default/model_abc.pt"].
Proof. reflexivity. Qed.

(** The default invocation: after [train_from_folder] has configured rank
    0, uploading is enabled but no client exists, and saving epoch 10
    fails at [_container_client.get_blob_client]. *)
Example default_run_cannot_upload :
  let σ := snd (train_from_folder Mock.oracle 0 Options.defaults (Mock.start Mock.quiet)) in
  _upload_models (globs σ) = VBool true ∧
  _upload_every (globs σ) = VInt 10 ∧
  _container_client (globs σ) = VNone ∧
  fst (on_model_save Mock.oracle "models/default/model_10.pt" σ) =
    Raise (Exn AttributeError "object has no attribute 'get_blob_client'") ∧
  upload_calls (log (snd (on_model_save Mock.oracle "models/default/model_10.pt" σ))) = [].
Proof. vm_compute. repeat split; reflexivity. Qed.

(** Three NaN failures in a row end the run; nothing is saved. *)
Example three_nans_end_training :
  let w := {| Mock.listing := Ok []; Mock.remove_errors := []; Mock.devices := 1;
              Mock.train_script := [None; Some Mock.nan; Some Mock.nan; Some Mock.nan];
              Mock.steps := 0; Mock.upload_error := None |} in
  let r := run_training Mock.oracle 5 0 1 0%N (VStr "./data") (VInt (-1)) (VBool false)
             (VInt 2) (VStr "default") (VInt 42) (Mock.configured Options.defaults w) in
  fst r = Raise Mock.nan ∧
  train_outcomes (log (snd r)) = [None; Some Mock.nan; Some Mock.nan; Some Mock.nan] ∧
  sleeps (log (snd r)) = [0; 0].
Proof. vm_compute. repeat split; reflexivity. Qed.

(** Two NaN failures and a success: the loop goes on. *)
Example two_nans_are_retried :
  let w := {| Mock.listing := Ok []; Mock.remove_errors := []; Mock.devices := 1;
              Mock.train_script := [Some Mock.nan; Some Mock.nan; None];
              Mock.steps := 0; Mock.upload_error := None |} in
  let r := run_training Mock.oracle 5 0 1 0%N (VStr "./data") (VInt (-1)) (VBool false)
             (VInt 2) (VStr "default") (VInt 42) (Mock.configured Options.defaults w) in
  fst r = Ok Finished ∧
  train_outcomes (log (snd r)) = [Some Mock.nan; Some Mock.nan; None; None].
Proof. vm_compute. split; reflexivity. Qed.

(** * Instances of the theorems *)

(** C1 at the default configuration and [models/default/model_10.pt]. *)
Lemma upload_unreachable_witness :
  fst (setup_trainer Mock.oracle 0 1 0%N (VInt 42)
         (Mock.configured Options.defaults Mock.quiet)) = Ok 3%N ∧
  (∃ e, fst (on_model_save Mock.oracle "models/default/model_10.pt"
               (snd (setup_trainer Mock.oracle 0 1 0%N (VInt 42)
                       (Mock.configured Options.defaults Mock.quiet)))) = Raise e).
Proof.
  split; [vm_compute; reflexivity|].
  apply (upload_unreachable_after_setup Mock.oracle
           (Mock.configured Options.defaults Mock.quiet)
           (snd (setup_trainer Mock.oracle 0 1 0%N (VInt 42)
                   (Mock.configured Options.defaults Mock.quiet)))
           1 0%N (VInt 42) (build_model_args Options.defaults) 10
           "models/default/model_10.pt" "10" 3%N);
    solve [reflexivity | vm_compute; reflexivity | vm_compute; discriminate].
Defined.

(** C3 at the entry [notes.txt]. *)
Lemma prune_skips_unexpected_files_witness :
  is_model_file "notes.txt" = false ∧
  ∃ evs,
    log (snd (on_model_save Mock.oracle "models/default/model_20.pt"
                (Mock.saving (Mock.policy true false 10)
                   (Mock.directory ["notes.txt"; "model_19.pt"])))) = [] ++ evs ∧
    "models/default/notes.txt" ∉ removed_paths evs.
Proof.
  split; [reflexivity|].
  apply (prune_skips_unexpected_files Mock.oracle
           (Mock.saving (Mock.policy true false 10)
              (Mock.directory ["notes.txt"; "model_19.pt"]))
           "models/default/model_20.pt" "notes.txt").
  reflexivity.
Defined.

(** C4 with a Trainer whose first three steps fail with NaN. *)
Lemma train_retried_three_times_witness :
  fst (retry_call (ext Mock.oracle (model_train 3)) 3 NanException 0 1 0
         (Mock.saving module_globals
            {| Mock.listing := Ok []; Mock.remove_errors := []; Mock.devices := 1;
               Mock.train_script := [Some Mock.nan; Some Mock.nan; Some Mock.nan];
               Mock.steps := 0; Mock.upload_error := None |})) = Raise Mock.nan ∧
  fst (train_step Mock.oracle true 3 6
         (Mock.saving module_globals
            {| Mock.listing := Ok []; Mock.remove_errors := []; Mock.devices := 1;
               Mock.train_script := [Some Mock.nan; Some Mock.nan; Some Mock.nan];
               Mock.steps := 0; Mock.upload_error := None |})) = Raise Mock.nan.
Proof.
  split; [vm_compute; reflexivity|].
  destruct (train_retried_three_times Mock.oracle 3) as (_ & Hstep & _).
  rewrite (Hstep true 6%N _ Mock.nan); [reflexivity|vm_compute; reflexivity].
Defined.

(** C7 at a file name without an epoch number. *)
Lemma upload_failures_propagate_witness :
  PyStr.re_match_model "latest.pt" = None ∧
  ∃ e, fst (on_model_save Mock.oracle "models/default/latest.pt"
              (Mock.saving (Mock.policy false true 10) Mock.quiet)) = Raise e.
Proof.
  split; [reflexivity|].
  apply (upload_failures_propagate Mock.oracle
           (Mock.saving (Mock.policy false true 10) Mock.quiet)
           "models/default/latest.pt"); reflexivity.
Defined.

(** C5, as amended, on the default invocation of a process that starts
    with an empty heap: the dictionary gains [is_ddp], [rank] and
    [world_size], ends as what the one Trainer was given, and that is
    [trainer_arguments 0 1] of the dictionary as built. *)
Lemma model_args_updated_in_place_witness :
  (∃ d', heap (snd (train_from_folder Mock.oracle 0 Options.defaults
                      (Mock.start Mock.quiet)))
           !! fresh (dom (heap (Mock.start Mock.quiet))) = Some d' ∧
         d' !! "is_ddp" = Some (VBool false) ∧
         d' !! "rank" = Some (VInt 0) ∧
         d' !! "world_size" = Some (VInt 1)) ∧
  heap (snd (train_from_folder Mock.oracle 0 Options.defaults (Mock.start Mock.quiet)))
    !! fresh (dom (heap (Mock.start Mock.quiet))) =
    Some (trainer_arguments 0 1 (build_model_args Options.defaults)) ∧
  (∃ evs, log (snd (train_from_folder Mock.oracle 0 Options.defaults
                      (Mock.start Mock.quiet))) =
            log (Mock.start Mock.quiet) ++ evs ∧
          trainer_kwargs evs = [trainer_arguments 0 1 (build_model_args Options.defaults)]).
Proof.
  destruct (proj2 (proj2 (proj2 (proj2
              (model_args_updated_in_place Mock.oracle 0 Options.defaults
                 (Mock.start Mock.quiet)))))
              eq_refl eq_refl 1 Mock.quiet eq_refl (or_introl eq_refl))
    as (Hwritten & _ & _ & _ & _ & Hbuilt).
  destruct (Hbuilt (ex_intro _ false eq_refl)) as (Hheap & Hlog).
  - intros c w [(Hddp & _)|(_ & Hup & _)]; discriminate.
  - split; [exact Hwritten|]. split; [exact Hheap|exact Hlog].
Defined.

(** C8 on a machine with one device. *)
Lemma dispatch_by_device_count_witness :
  Mock.oracle cuda_device_count Mock.quiet = (Ok 1, Mock.quiet) ∧
  dispatch Mock.oracle 1 0%N Options.defaults (Mock.configured Options.defaults Mock.quiet) =
    run_training Mock.oracle 1 0 1 0%N (Options.data Options.defaults)
      (Options.load_from Options.defaults) (Options.new Options.defaults)
      (Options.num_train_steps Options.defaults) (Options.name Options.defaults)
      (Options.seed Options.defaults)
      {| world := Mock.quiet;
         globs := globs (Mock.configured Options.defaults Mock.quiet);
         heap := heap (Mock.configured Options.defaults Mock.quiet);
         log := log (Mock.configured Options.defaults Mock.quiet)
                  ++ [ECall cuda_device_count None] |}.
Proof.
  split; [reflexivity|].
  exact (proj1 (dispatch_by_device_count Mock.oracle 1 0%N Options.defaults
                  (Mock.configured Options.defaults Mock.quiet) 1 Mock.quiet eq_refl)
               (or_introl eq_refl)).
Defined.

(** C10 on rank 0 of the default configuration. *)
Lemma trainer_gets_no_cloud_keys_witness :
  (∃ pre,
     log (snd (setup_trainer Mock.oracle 0 2 0%N (VInt 42)
                 (Mock.second_run Options.defaults Mock.quiet))) =
       log (Mock.second_run Options.defaults Mock.quiet) ++ pre ++
       [ECall (Trainer (trainer_arguments 0 2 (build_model_args Options.defaults)))
          (raised_of (fst (setup_trainer Mock.oracle 0 2 0%N (VInt 42)
                             (Mock.second_run Options.defaults Mock.quiet))))] ∧
     Forall (calls_satisfy not_trainer) pre) ∧
  heap (snd (setup_trainer Mock.oracle 0 2 0%N (VInt 42)
               (Mock.second_run Options.defaults Mock.quiet))) =
    <[0%N := trainer_arguments 0 2 (build_model_args Options.defaults)]>
      (heap (Mock.second_run Options.defaults Mock.quiet)) ∧
  (0 = 0 →
   build_model_args Options.defaults !! "upload_models" =
     Some (_upload_models
             (globs (snd (setup_trainer Mock.oracle 0 2 0%N (VInt 42)
                            (Mock.second_run Options.defaults Mock.quiet))))) ∧
   build_model_args Options.defaults !! "upload_every" =
     Some (_upload_every
             (globs (snd (setup_trainer Mock.oracle 0 2 0%N (VInt 42)
                            (Mock.second_run Options.defaults Mock.quiet))))) ∧
   build_model_args Options.defaults !! "delete_old_models" =
     Some (_delete_old_models
             (globs (snd (setup_trainer Mock.oracle 0 2 0%N (VInt 42)
                            (Mock.second_run Options.defaults Mock.quiet)))))).
Proof.
  refine (proj2 (proj2 (proj2 (proj2 (proj2 (proj2 (proj2
            (trainer_gets_no_cloud_keys Mock.oracle 0 2 0%N (VInt 42)
               (build_model_args Options.defaults)
               (Mock.second_run Options.defaults Mock.quiet) _))))))) _ _).
  - reflexivity.
  - intros c w [(_ & Hc & _)|(_ & _ & [(url & cr & ->)|(service & name & ->)])];
      [|eexists _, _; reflexivity..].
    unfold distributed_call in Hc.
    repeat match goal with
           | H : _ ∨ _ |- _ => destruct H as [H|H]
           | H : ∃ _, _ |- _ => destruct H as [? H]
           end; subst c; eexists _, _; reflexivity.
  - intros _. unfold main_entries. repeat split; try (eexists; reflexivity).
Defined.

(** * Where the specification and the code part *)

(** C5 as stated fails on the default invocation: when [train_from_folder]
    returns, the dictionary it built (the first one of the heap) has gained
    [is_ddp], lost [upload_models] and has another [save_callback]. *)
Lemma model_args_is_mutated :
  dom (heap (Mock.start Mock.quiet)) = ∅ ∧
  build_model_args Options.defaults !! "is_ddp" = None ∧
  heap (snd (train_from_folder Mock.oracle 0 Options.defaults (Mock.start Mock.quiet)))
    !! 0%N ≫= (λ d, d !! "is_ddp") = Some (VBool false) ∧
  build_model_args Options.defaults !! "upload_models" = Some (VBool true) ∧
  heap (snd (train_from_folder Mock.oracle 0 Options.defaults (Mock.start Mock.quiet)))
    !! 0%N ≫= (λ d, Some (d !! "upload_models")) = Some None ∧
  build_model_args Options.defaults !! "save_callback" = Some VNone ∧
  heap (snd (train_from_folder Mock.oracle 0 Options.defaults (Mock.start Mock.quiet)))
    !! 0%N ≫= (λ d, d !! "save_callback") = Some (VFunc "on_model_save").
Proof. split; [apply dom_empty_L|]. repeat split; vm_compute; reflexivity. Qed.

(** C9 as stated fails: [models/default/model_120.pt] does not end with
    [model_20.pt], so saving epoch 120 deletes [model_20.pt]. *)
Lemma model_120_does_not_shield_model_20 :
  PyStr.endswith "models/default/model_120.pt" "model_20.pt" = false ∧
  removed_paths
    (log (snd (on_model_save Mock.oracle "models/default/model_120.pt"
                 (Mock.saving (Mock.policy true false 10)
                    (Mock.directory ["model_20.pt"; "model_120.pt"])))))
    = ["models/default/model_20.pt"].
Proof. split; reflexivity. Qed.

(** * Further properties *)

(** ** The file-name pattern (line 55) *)

Lemma drop_prefix_app p s r : PyStr.drop_prefix p s = Some r → s = p +:+ r.
Proof.
  revert s. induction p as [|a p IH]; intros [|b s]; simpl; try discriminate.
  - intros [= <-]. reflexivity.
  - intros [= <-]. reflexivity.
  - destruct (Ascii.eqb_spec a b) as [->|]; [|discriminate].
    intros H. rewrite append_cons. f_equal. auto.
Qed.

Lemma dot_pt_inv s :
  PyStr.dot_pt s = true →
  ∃ c rest, c ≠ PyStr.newline ∧ s = String c ("pt" +:+ rest).
Proof.
  intros H.
  destruct s as [|c [|p [|t rest]]]; simpl in H; try discriminate H;
    destruct p as [[] [] [] [] [] [] [] []]; simpl in H; try discriminate H.
  destruct t as [[] [] [] [] [] [] [] []]; simpl in H; try discriminate H.
  exists c, rest. split; [|reflexivity].
  intros ->. discriminate H.
Qed.

Lemma digits_dot_pt_sound s g :
  PyStr.digits_dot_pt s = Some g →
  g ≠ EmptyString ∧ PyStr.all_digits g = true ∧
  ∃ c rest, c ≠ PyStr.newline ∧ s = g +:+ String c ("pt" +:+ rest).
Proof.
  revert g. induction s as [|a s IH]; intros g; simpl; [discriminate|].
  destruct (PyStr.is_digit a) eqn:Ha; [|discriminate].
  destruct (PyStr.digits_dot_pt s) as [g0|].
  - intros [= <-]. destruct (IH g0 eq_refl) as (_ & Hd & c & rest & Hc & ->).
    split; [discriminate|]. split; [simpl; rewrite Ha; assumption|].
    exists c, rest. auto.
  - destruct (PyStr.dot_pt s) eqn:Hdot; [|discriminate]. intros [= <-].
    destruct (dot_pt_inv s Hdot) as (c & rest & Hc & ->).
    split; [discriminate|]. split; [simpl; rewrite Ha; reflexivity|].
    exists c, rest. auto.
Qed.

Lemma dot_pt_intro c rest : c ≠ PyStr.newline → PyStr.dot_pt (String c ("pt" +:+ rest)) = true.
Proof.
  intros Hc. simpl. destruct (Ascii.eqb_spec c PyStr.newline); [contradiction|reflexivity].
Qed.

Lemma digits_dot_pt_complete g' c rest :
  PyStr.all_digits g' = true → g' ≠ EmptyString → c ≠ PyStr.newline →
  ∃ g, PyStr.digits_dot_pt (g' +:+ String c ("pt" +:+ rest)) = Some g ∧
       (String.length g' ≤ String.length g)%nat.
Proof.
  intros Hd Hne Hc. induction g' as [|a g' IH]; [congruence|].
  simpl in Hd. apply andb_true_iff in Hd as [Ha Hd].
  rewrite append_cons. cbn [PyStr.digits_dot_pt]. rewrite Ha.
  destruct g' as [|b g'].
  - rewrite append_nil_l.
    destruct (PyStr.digits_dot_pt (String c ("pt" +:+ rest))) as [g0|].
    + exists (String a g0). split; [reflexivity|]. simpl. lia.
    + rewrite dot_pt_intro by assumption. exists (String a EmptyString). auto.
  - destruct (IH Hd) as (g0 & -> & Hlen); [discriminate|].
    exists (String a g0). split; [reflexivity|]. simpl in *. lia.
Qed.

(** X1. [re.match(r'model_(\d+).pt', s)] as embedded: a match means that
    [s] is [model_], a non-empty run of digits (group 1), one character
    that is no newline, [pt], and anything after; and whenever [s] has that
    shape there is a match, whose group is at least as long as the run of
    digits of any such reading (the quantifier is greedy). *)
Theorem re_match_model_spec (s : string) :
  (∀ g, PyStr.re_match_model s = Some g →
        g ≠ EmptyString ∧ PyStr.all_digits g = true ∧
        ∃ c rest, c ≠ PyStr.newline ∧ s = "model_" +:+ g +:+ String c ("pt" +:+ rest)) ∧
  (∀ g' c rest,
     PyStr.all_digits g' = true → g' ≠ EmptyString → c ≠ PyStr.newline →
     s = "model_" +:+ g' +:+ String c ("pt" +:+ rest) →
     ∃ g, PyStr.re_match_model s = Some g ∧
          (String.length g' ≤ String.length g)%nat).
Proof.
  split.
  - intros g. unfold PyStr.re_match_model.
    destruct (PyStr.drop_prefix "model_" s) as [r|] eqn:Hp; [|discriminate].
    apply drop_prefix_app in Hp. intros Hg.
    destruct (digits_dot_pt_sound r g Hg) as (Hne & Hd & c & rest & Hc & ->).
    split; [assumption|]. split; [assumption|]. exists c, rest. auto.
  - intros g' c rest Hd Hne Hc ->. unfold PyStr.re_match_model.
    change (PyStr.drop_prefix "model_" ("model_" +:+ g' +:+ String c ("pt" +:+ rest)))
      with (Some (g' +:+ String c ("pt" +:+ rest))).
    apply digits_dot_pt_complete; assumption.
Qed.

(** ** Epoch numbers and file names *)

Lemma int_acc_snoc acc s c :
  PyStr.int_acc acc (s +:+ String c EmptyString) =
    10 * PyStr.int_acc acc s + PyStr.digit_val c.
Proof.
  revert acc. induction s as [|a s IH]; intros acc.
  - reflexivity.
  - rewrite append_cons. cbn [PyStr.int_acc]. apply IH.
Qed.

Lemma append_snoc_nonempty a c : a +:+ String c EmptyString ≠ EmptyString.
Proof. destruct a; [rewrite append_nil_l|rewrite append_cons]; discriminate. Qed.

Lemma all_digits_app a b :
  PyStr.all_digits (a +:+ b) = PyStr.all_digits a && PyStr.all_digits b.
Proof.
  induction a as [|c a IH]; [reflexivity|].
  rewrite append_cons. simpl. rewrite IH. apply andb_assoc.
Qed.

Lemma pretty_N_char_digit d :
  (d < 10)%N →
  PyStr.is_digit (pretty_N_char d) = true ∧
  PyStr.digit_val (pretty_N_char d) = Z.of_N d.
Proof.
  intros Hd.
  destruct d as [|p]; [split; reflexivity|].
  do 4 (destruct p as [p|p|]; try (split; reflexivity); try lia).
Qed.

Lemma pretty_N_go_app x s : pretty_N_go x s = pretty_N_go x EmptyString +:+ s.
Proof.
  revert s. induction (N.lt_wf_0 x) as [x _ IH]; intros s.
  destruct (decide (0 < x)%N) as [Hx|Hx].
  - rewrite (pretty_N_go_step x s), (pretty_N_go_step x EmptyString) by assumption.
    rewrite IH by (apply N.div_lt; lia).
    rewrite (IH (x `div` 10)%N) with (s := String _ EmptyString)
      by (apply N.div_lt; lia).
    rewrite append_assoc. reflexivity.
  - assert (x = 0%N) as -> by lia. rewrite !pretty_N_go_0. reflexivity.
Qed.

Lemma pretty_N_go_digits x :
  PyStr.all_digits (pretty_N_go x EmptyString) = true ∧
  PyStr.int (pretty_N_go x EmptyString) = Z.of_N x.
Proof.
  induction (N.lt_wf_0 x) as [x _ IH].
  destruct (decide (0 < x)%N) as [Hx|Hx].
  - rewrite pretty_N_go_step by assumption. rewrite pretty_N_go_app.
    destruct (IH (x `div` 10)%N) as [Hd Hi]; [apply N.div_lt; lia|].
    destruct (pretty_N_char_digit (x `mod` 10)%N) as [Hc Hv];
      [apply N.mod_lt; lia|].
    split.
    + rewrite all_digits_app, Hd. simpl. rewrite Hc. reflexivity.
    + unfold PyStr.int in *. rewrite int_acc_snoc, Hi, Hv.
      rewrite (N.div_mod x 10) at 3 by lia. lia.
  - assert (x = 0%N) as -> by lia. rewrite pretty_N_go_0. split; reflexivity.
Qed.

(** The decimal numeral of a natural number is a non-empty run of digits
    that [int] reads back. *)
Lemma pretty_digits (n : Z) :
  0 ≤ n →
  pretty n ≠ EmptyString ∧ PyStr.all_digits (pretty n) = true ∧
  PyStr.int (pretty n) = n.
Proof.
  intros Hn. destruct n as [|p|p]; [|clear Hn|lia].
  { split; [intros H; vm_compute in H; discriminate H|split; reflexivity]. }
  unfold pretty, pretty_Z, pretty, pretty_positive, pretty, pretty_N.
  destruct (decide (N.pos p = 0%N)); [discriminate|].
  destruct (pretty_N_go_digits (N.pos p)) as [Hd Hi].
  split; [|split; [assumption|rewrite Hi; reflexivity]].
  rewrite pretty_N_go_step by lia. rewrite pretty_N_go_app.
  apply append_snoc_nonempty.
Qed.

(** X2. For a file name [model_<n>.pt], with [n] a natural number in
    decimal, the pattern of line 55 matches and [int] of its group is [n]
    again: the number the callback tests against [_upload_every] is the one
    in the file name. *)
Theorem epoch_of_checkpoint_name (n : Z) :
  0 ≤ n →
  ∃ digits,
    PyStr.re_match_model ("model_" +:+ pretty n +:+ ".pt") = Some digits ∧
    PyStr.int digits = n.
Proof.
  intros Hn. destruct (pretty_digits n Hn) as (Hne & Hd & Hi).
  exists (pretty n). split; [|assumption].
  apply re_match_model_digits; assumption.
Qed.

Lemma epoch_of_checkpoint_name_witness :
  ∃ digits, PyStr.re_match_model ("model_" +:+ pretty 150 +:+ ".pt") = Some digits ∧
            PyStr.int digits = 150.
Proof. apply (epoch_of_checkpoint_name 150). lia. Defined.

(** ** Paths (lines 32-33) *)

Lemma has_char_app c a b : has_char c (a +:+ b) = has_char c a || has_char c b.
Proof.
  induction a as [|x a IH]; [reflexivity|].
  rewrite append_cons. simpl. rewrite IH. apply orb_assoc.
Qed.

Lemma split_at_last_sep_parts p :
  ends_sep (fst (PyStr.split_at_last_sep p)) = true ∧
  has_sep (snd (PyStr.split_at_last_sep p)) = false.
Proof.
  induction p as [|c p IH]; simpl; [split; reflexivity|].
  destruct (PyStr.split_at_last_sep p) as [h t]. simpl in IH. destruct IH as [Hh Ht].
  destruct h as [|a h]; simpl.
  - destruct (Ascii.eqb c PyStr.sep) eqn:Hc; simpl.
    + rewrite Hc. auto.
    + split; [reflexivity|]. unfold has_sep in *. simpl. rewrite Hc. assumption.
  - split; assumption.
Qed.

Lemma split_at_last_sep_join h t :
  has_sep t = false →
  PyStr.split_at_last_sep (h +:+ "/" +:+ t) = (h +:+ "/", t).
Proof.
  intros Ht.
  assert (Hbase : PyStr.split_at_last_sep t = (EmptyString, t)).
  { induction t as [|c t IH]; [reflexivity|].
    unfold has_sep in *. simpl in Ht. apply orb_false_iff in Ht as [Hc Ht].
    simpl. rewrite (IH Ht). simpl. rewrite Hc. reflexivity. }
  induction h as [|c h IH].
  - rewrite append_nil_l. change ("/" +:+ t) with (String "/" t).
    cbn [PyStr.split_at_last_sep]. rewrite Hbase. reflexivity.
  - rewrite (append_cons c h ("/" +:+ t)). cbn [PyStr.split_at_last_sep]. rewrite IH.
    destruct h; reflexivity.
Qed.

Lemma rstrip_sep_snoc h :
  PyStr.rstrip_sep (h +:+ "/") = PyStr.rstrip_sep h.
Proof.
  induction h as [|c h IH]; [reflexivity|].
  rewrite append_cons. simpl. rewrite IH. reflexivity.
Qed.

Lemma all_sep_snoc h : PyStr.all_sep (h +:+ "/") = PyStr.all_sep h.
Proof.
  induction h as [|c h IH]; [reflexivity|].
  rewrite append_cons. simpl. rewrite IH. reflexivity.
Qed.

Lemma rstrip_fixed_not_all_sep h :
  h ≠ EmptyString → PyStr.rstrip_sep h = h → PyStr.all_sep h = false.
Proof.
  induction h as [|c h IH]; [congruence|]. intros _ Hfix. simpl in *.
  destruct (Ascii.eqb c PyStr.sep) eqn:Hc; [|reflexivity]. simpl.
  destruct (PyStr.rstrip_sep h) as [|x r] eqn:Hr; simpl in Hfix; [discriminate|].
  injection Hfix as Hfix. rewrite <- Hfix in Hr. apply IH; [|congruence].
  intros ->. discriminate.
Qed.

(** [os.path.split] undoes a join: for a directory without a trailing
    slash and a name without a slash. *)
Lemma path_split_join dir name :
  dir ≠ EmptyString → PyStr.rstrip_sep dir = dir → has_sep name = false →
  PyStr.path_split (dir +:+ "/" +:+ name) = (dir, name).
Proof.
  intros Hne Hfix Hname. unfold PyStr.path_split.
  rewrite split_at_last_sep_join by assumption.
  rewrite all_sep_snoc, (rstrip_fixed_not_all_sep dir) by assumption.
  rewrite rstrip_sep_snoc, Hfix.
  destruct (dir +:+ "/") eqn:E; [|reflexivity].
  destruct dir; discriminate.
Qed.

Lemma path_split_bare_name name :
  has_sep name = false → PyStr.path_split name = (EmptyString, name).
Proof.
  intros Hname. unfold PyStr.path_split.
  assert (Hbase : PyStr.split_at_last_sep name = (EmptyString, name)).
  { induction name as [|c t IH]; [reflexivity|].
    unfold has_sep in *. simpl in Hname. apply orb_false_iff in Hname as [Hc Ht].
    simpl. rewrite (IH Ht). simpl. rewrite Hc. reflexivity. }
  rewrite Hbase. reflexivity.
Qed.

(** X3. For a checkpoint [parent/run/file] (no slash in [run] and [file],
    no trailing slash on [parent]), the callback prunes the directory
    [parent/run] and uploads under the blob name [run/file]; for a
    checkpoint [run/file] directly below the working directory it prunes
    [run] and uploads under the same blob name. *)
Theorem callback_directory_and_blob_name {W}
    (oracle : ∀ c : call, W → outcome (ret c) * W) (σ : state W)
    (parent run file : string) :
  run ≠ EmptyString → has_sep run = false → has_sep file = false →
  (parent ≠ EmptyString → PyStr.rstrip_sep parent = parent →
   on_model_save oracle (parent +:+ "/" +:+ run +:+ "/" +:+ file) σ =
     (prune oracle (parent +:+ "/" +:+ run) (parent +:+ "/" +:+ run +:+ "/" +:+ file) ;;
      upload oracle (parent +:+ "/" +:+ run +:+ "/" +:+ file) run file) σ) ∧
  on_model_save oracle (run +:+ "/" +:+ file) σ =
    (prune oracle run (run +:+ "/" +:+ file) ;;
     upload oracle (run +:+ "/" +:+ file) run file) σ.
Proof.
  intros Hrun Hsep Hfile.
  assert (Hfix : PyStr.rstrip_sep run = run).
  { clear Hrun. induction run as [|c r IH]; [reflexivity|].
    unfold has_sep in *. simpl in Hsep. apply orb_false_iff in Hsep as [Hc Hr].
    simpl. rewrite (IH Hr), Hc, andb_false_r. reflexivity. }
  split.
  - intros Hparent Hpfix.
    assert (Hdir : PyStr.rstrip_sep (parent +:+ "/" +:+ run) = parent +:+ "/" +:+ run).
    { clear Hparent Hpfix. induction parent as [|c p IH].
      - rewrite append_nil_l. change ("/" +:+ run) with (String "/" run).
        simpl. rewrite Hfix. destruct run; [congruence|reflexivity].
      - rewrite append_cons. simpl. rewrite IH.
        destruct (p +:+ "/" +:+ run) eqn:E; [|reflexivity].
        destruct p; discriminate. }
    unfold on_model_save.
    rewrite <- (append_assoc parent), <- (append_assoc (parent +:+ "/")).
    rewrite (append_assoc parent "/" run).
    rewrite (path_split_join (parent +:+ "/" +:+ run) file); try assumption.
    + rewrite (path_split_join parent run) by assumption.
      rewrite <- !append_assoc. reflexivity.
    + destruct parent; [congruence|discriminate].
  - unfold on_model_save. rewrite (path_split_join run file) by assumption.
    rewrite (path_split_bare_name run) by assumption. reflexivity.
Qed.

Lemma callback_directory_and_blob_name_witness :
  on_model_save Mock.oracle ("models" +:+ "/" +:+ "default" +:+ "/" +:+ "model_20.pt")
    (Mock.saving (Mock.policy true true 10) (Mock.directory [])) =
  (prune Mock.oracle ("models" +:+ "/" +:+ "default")
     ("models" +:+ "/" +:+ "default" +:+ "/" +:+ "model_20.pt") ;;
   upload Mock.oracle ("models" +:+ "/" +:+ "default" +:+ "/" +:+ "model_20.pt")
     "default" "model_20.pt")
    (Mock.saving (Mock.policy true true 10) (Mock.directory [])).
Proof.
  apply (proj1 (callback_directory_and_blob_name Mock.oracle
                  (Mock.saving (Mock.policy true true 10) (Mock.directory []))
                  "models" "default" "model_20.pt"
                  ltac:(discriminate) eq_refl eq_refl));
    [discriminate|reflexivity].
Defined.

(** ** The callback as a whole (lines 25-64) *)

Section CallbackRuns.

Context {W : Type}.
Variable oracle : ∀ c : call, W → outcome (ret c) * W.

Lemma prune_directory_calls file_path model_path :
  preserves (log_grows (calls_satisfy directory_call))
    (prune oracle file_path model_path).
Proof.
  unfold prune, prune_entry.
  frame_with ltac:(solve
    [ match goal with
      | |- preserves _ (ext ?o ?c) => apply (ext_log o _ c)
      end; intros ? ? ? [= <- <-]; unfold directory_call; eauto
    | apply print_log; intros ? ? [=] ]).
Qed.

Lemma prune_disabled file_path model_path (σ : state W) :
  truthy (_delete_old_models (globs σ)) = Some false →
  prune oracle file_path model_path σ = (Ok tt, σ).
Proof. intros H. unfold prune, mbind, get_globals, test. rewrite H. reflexivity. Qed.

Lemma upload_disabled model_path model_name file_name (σ : state W) :
  truthy (_upload_models (globs σ)) = Some false →
  upload oracle model_path model_name file_name σ = (Ok tt, σ).
Proof. intros H. unfold upload, mbind, get_globals, test. rewrite H. reflexivity. Qed.

Lemma upload_same_globs model_path model_name file_name :
  preserves same_globs (upload oracle model_path model_name file_name).
Proof.
  unfold upload.
  frame_with ltac:(first
      [ match goal with
        | |- preserves _ (ext ?o ?c) => exact (ext_same_globs o c)
        end
      | apply print_same_globs ]).
Qed.

Lemma upload_run_cases model_path model_name file_name (σ : state W) :
  ∃ evs,
    log (snd (upload oracle model_path model_name file_name σ)) = log σ ++ evs ∧
    (evs = [] ∨ evs = [EPrint "Skipping upload"] ∨
     ∃ container,
       upload_gate (globs σ) file_name container ∧
       upload_events container (model_name +:+ "/" +:+ file_name) model_path evs
         (fst (upload oracle model_path model_name file_name σ))).
Proof.
  remember (upload oracle model_path model_name file_name σ) as res eqn:Hres.
  revert Hres.
  unfold upload, upload_gate, mbind, get_globals, test, lift_outcome.
  destruct (truthy (_upload_models (globs σ))) as [[|]|] eqn:Hup; simpl;
    try (intros ->; exists []; rewrite app_nil_r; auto; fail).
  destruct (PyStr.re_match_model file_name) as [digits|] eqn:Hre; simpl;
    [|intros ->; exists []; rewrite app_nil_r; auto].
  destruct (mod_is_zero (PyStr.int digits) (_upload_every (globs σ)))
    as [[|]|e] eqn:Hmod; simpl;
    [| intros ->; eexists; split; [reflexivity|auto]
     | intros ->; exists []; rewrite app_nil_r; auto].
  destruct (_container_client (globs σ)) as [ | | | | | | |container] eqn:Hcc; simpl;
    try (intros ->; exists []; rewrite app_nil_r; auto; fail).
  unfold ext, print, try_finally. cbn [world globs heap log].
  destruct (oracle (get_blob_client container _) (world σ)) as [[blob|e] w1];
    cbn [world globs heap log].
  2:{ intros ->. eexists. split; [reflexivity|]. right. right. exists container.
      split; [eauto 10|]. left. eauto. }
  destruct (oracle (open_rb model_path) w1) as [[data|e] w2];
    cbn [world globs heap log].
  2:{ intros ->. eexists. cbn [snd log]. rewrite <- !app_assoc.
      split; [reflexivity|]. right. right.
      exists container. split; [eauto 10|]. right. left. eauto. }
  destruct (oracle (upload_blob blob data) w2) as [r w3]. cbn [world globs heap log].
  destruct (oracle (file_close data) w3) as [r' w4].
  intros Hres.
  exists [ECall (get_blob_client container (model_name +:+ "/" +:+ file_name)) None;
          EPrint ("Uploading to " +:+ model_name +:+ "/" +:+ file_name);
          ECall (open_rb model_path) None;
          ECall (upload_blob blob data) (raised_of r);
          ECall (file_close data) (raised_of r')].
  split.
  - subst res. destruct r' as [[]|e']; cbn [snd log]; rewrite <- !app_assoc; reflexivity.
  - right. right. exists container. split; [eauto 10|]. right. right.
    exists blob, data, (raised_of r), (raised_of r'). split; [reflexivity|].
    subst res. destruct r' as [[]|e'], r as [[]|e'']; reflexivity.
Qed.

(** The callback's log: what pruning added, then what the upload added. *)
Lemma on_model_save_cases model_path (σ : state W) :
  ∃ pruned uploaded,
    log (snd (on_model_save oracle model_path σ)) = log σ ++ pruned ++ uploaded ∧
    Forall (calls_satisfy directory_call) pruned ∧
    (truthy (_delete_old_models (globs σ)) = Some false → pruned = []) ∧
    (truthy (_upload_models (globs σ)) = Some false → uploaded = []) ∧
    (truthy (_delete_old_models (globs σ)) = Some false →
     truthy (_upload_models (globs σ)) = Some false →
     fst (on_model_save oracle model_path σ) = Ok tt) ∧
    (uploaded = [] ∨ uploaded = [EPrint "Skipping upload"] ∨
     ∃ container,
       upload_gate (globs σ) (snd (PyStr.path_split model_path)) container ∧
       upload_events container
         (snd (PyStr.path_split (fst (PyStr.path_split model_path))) +:+ "/" +:+
          snd (PyStr.path_split model_path))
         model_path uploaded (fst (on_model_save oracle model_path σ))).
Proof.
  unfold on_model_save. destruct (PyStr.path_split model_path) as [fp fn].
  cbn [fst snd]. unfold mbind.
  pose proof (prune_same_globs oracle fp model_path σ) as Hsame.
  destruct (prune_directory_calls fp model_path σ) as (pruned & Hl & Hp).
  assert (Hoff : truthy (_delete_old_models (globs σ)) = Some false → pruned = []).
  { intros H. rewrite (prune_disabled fp model_path σ H) in Hl. simpl in Hl.
    rewrite <- (app_nil_r (log σ)) in Hl at 1. apply app_inv_head in Hl. auto. }
  assert (Hret : truthy (_delete_old_models (globs σ)) = Some false →
                 prune oracle fp model_path σ = (Ok tt, σ))
    by apply prune_disabled.
  destruct (prune oracle fp model_path σ) as [[[]|e] σp]; cbn [fst snd] in *.
  - unfold same_globs in Hsame.
    destruct (upload_run_cases model_path (snd (PyStr.path_split fp)) fn σp)
      as (uploaded & Hu & Hcases).
    exists pruned, uploaded. rewrite Hu, Hl, <- app_assoc.
    split; [reflexivity|]. split; [assumption|]. split; [assumption|].
    rewrite Hsame in Hcases.
    split; [|split; [|assumption]].
    + intros H. rewrite <- Hsame in H.
      rewrite (upload_disabled _ _ _ σp H) in Hu. simpl in Hu.
      rewrite <- (app_nil_r (log σp)) in Hu at 1. apply app_inv_head in Hu. auto.
    + intros _ H. rewrite <- Hsame in H.
      rewrite (upload_disabled _ _ _ σp H). reflexivity.
  - exists pruned, []. rewrite app_nil_r. split; [assumption|].
    split; [assumption|]. split; [assumption|]. split; [reflexivity|].
    split; [|auto]. intros H. specialize (Hret H). discriminate.
Qed.

End CallbackRuns.

(** X4. The callback declares the five globals but assigns none of them,
    and it does not touch the dictionaries of the process: whatever it is
    given and whatever the calls answer, globals and heap are left as they
    were. *)
Theorem callback_assigns_no_global {W}
    (oracle : ∀ c : call, W → outcome (ret c) * W)
    (model_path : string) (σ : state W) :
  globs (snd (on_model_save oracle model_path σ)) = globs σ ∧
  heap (snd (on_model_save oracle model_path σ)) = heap σ.
Proof.
  split.
  - revert σ. change (preserves same_globs (on_model_save oracle model_path)).
    unfold on_model_save. destruct (PyStr.path_split model_path) as [fp fn].
    unfold prune, prune_entry, upload.
    frame_with ltac:(first
      [ match goal with
        | |- preserves _ (ext ?o ?c) => exact (ext_same_globs o c)
        end
      | apply print_same_globs ]).
  - revert σ. change (preserves same_heap (on_model_save oracle model_path)).
    unfold on_model_save. destruct (PyStr.path_split model_path) as [fp fn].
    unfold prune, prune_entry, upload.
    frame_with ltac:(first
      [ match goal with
        | |- preserves _ (ext ?o ?c) => exact (ext_same_heap o c)
        end
      | apply print_same_heap ]).
Qed.

(** X5. A feature that is switched off makes no call: with
    [_delete_old_models] false every call of the callback is one of the
    upload's (the directory is neither listed nor changed), with
    [_upload_models] false none is (only [os.listdir] and [os.remove]), and
    with both false the callback returns at once, with nothing called and
    nothing printed. *)
Theorem disabled_features_make_no_calls {W}
    (oracle : ∀ c : call, W → outcome (ret c) * W)
    (model_path : string) (σ : state W) :
  ∃ evs,
    log (snd (on_model_save oracle model_path σ)) = log σ ++ evs ∧
    (truthy (_delete_old_models (globs σ)) = Some false →
     Forall (calls_satisfy blob_call) evs) ∧
    (truthy (_upload_models (globs σ)) = Some false →
     Forall (calls_satisfy directory_call) evs) ∧
    (truthy (_delete_old_models (globs σ)) = Some false →
     truthy (_upload_models (globs σ)) = Some false →
     evs = [] ∧ fst (on_model_save oracle model_path σ) = Ok tt).
Proof.
  destruct (on_model_save_cases oracle model_path σ)
    as (pruned & uploaded & Hl & Hp & Hpoff & Huoff & Hok & Hcases).
  exists (pruned ++ uploaded). split; [assumption|]. split; [|split].
  - intros H. rewrite (Hpoff H). simpl.
    destruct Hcases as [->|[->|(container & _ & Hev)]].
    + constructor.
    + constructor; [intros ? ? [=]|constructor].
    + unfold blob_call.
      destruct Hev as [(e & -> & _)|[(e & -> & _)|(b & d & r & r' & -> & _)]];
        repeat match goal with
               | |- Forall _ (_ :: _) =>
                   constructor; [intros ? ? [= <- <-]; eauto 10|]
               | |- Forall _ [] => constructor
               end.
  - intros H. rewrite (Huoff H), app_nil_r. assumption.
  - intros H1 H2. rewrite (Hpoff H1), (Huoff H2). auto.
Qed.

(** X6. [upload_blob] is called at most once per save, and only through the
    gate of lines 54-58: uploading is enabled, the file name matches the
    pattern, the epoch is a multiple of [_upload_every] and a container
    client exists; the blob client was asked for under the name
    [<run>/<file>] and the file that was opened is the saved path. *)
Theorem upload_only_through_gate {W}
    (oracle : ∀ c : call, W → outcome (ret c) * W)
    (model_path : string) (σ : state W) :
  ∃ evs,
    log (snd (on_model_save oracle model_path σ)) = log σ ++ evs ∧
    (length (upload_calls evs) ≤ 1)%nat ∧
    (upload_calls evs ≠ [] →
     ∃ container,
       upload_gate (globs σ) (snd (PyStr.path_split model_path)) container ∧
       ECall (get_blob_client container
                (snd (PyStr.path_split (fst (PyStr.path_split model_path))) +:+ "/" +:+
                 snd (PyStr.path_split model_path))) None ∈ evs ∧
       ECall (open_rb model_path) None ∈ evs).
Proof.
  destruct (on_model_save_cases oracle model_path σ)
    as (pruned & uploaded & Hl & Hp & _ & _ & _ & Hcases).
  exists (pruned ++ uploaded). split; [assumption|].
  assert (Hnone : upload_calls pruned = []).
  { apply no_upload_calls. eapply Forall_impl; [exact Hp|].
    intros ev Hev c r -> b d ->.
    destruct (Hev _ _ eq_refl) as [[p [=]]|[p [=]]]. }
  rewrite upload_calls_app, Hnone. simpl.
  destruct Hcases as [->|[->|(container & Hgate & Hev)]];
    [split; [simpl; lia|intros []; reflexivity] ..|].
  destruct Hev as [(e & -> & _)|[(e & -> & _)|(b & d & r & r' & -> & _)]];
    try (split; [simpl; lia|intros []; reflexivity]).
  split; [simpl; lia|]. intros _. exists container. split; [assumption|].
  split; apply elem_of_app; right; set_solver.
Qed.

(** X7. The file is opened in a [with] block: every call of [upload_blob]
    is followed at once by the close of the file it was given, also when
    the upload raised, nothing happens after that, and the callback ends as
    the block does (with the exception of the close, else with that of the
    upload, else normally). *)
Theorem upload_always_closes_file {W}
    (oracle : ∀ c : call, W → outcome (ret c) * W)
    (model_path : string) (σ : state W) :
  ∃ evs,
    log (snd (on_model_save oracle model_path σ)) = log σ ++ evs ∧
    ∀ n blob data r,
      evs !! n = Some (ECall (upload_blob blob data) r) →
      ∃ r', evs !! S n = Some (ECall (file_close data) r') ∧
            evs !! S (S n) = None ∧
            fst (on_model_save oracle model_path σ) = after_with r r'.
Proof.
  destruct (on_model_save_cases oracle model_path σ)
    as (pruned & uploaded & Hl & Hp & _ & _ & _ & Hcases).
  exists (pruned ++ uploaded). split; [assumption|].
  intros n blob data r Hn.
  assert (Hge : (length pruned ≤ n)%nat).
  { destruct (decide (n < length pruned)%nat) as [Hlt|]; [|lia].
    rewrite lookup_app_l in Hn by assumption.
    rewrite Forall_lookup in Hp. specialize (Hp _ _ Hn _ _ eq_refl).
    destruct Hp as [[p [=]]|[p [=]]]. }
  rewrite lookup_app_r in Hn by assumption.
  rewrite !lookup_app_r by lia.
  replace (S n - length pruned)%nat with (S (n - length pruned)) by lia.
  replace (S (S n) - length pruned)%nat with (S (S (n - length pruned))) by lia.
  remember (n - length pruned)%nat as k eqn:Hk. clear Hk Hge.
  destruct Hcases as [->|[->|(container & _ & Hev)]].
  - rewrite lookup_nil in Hn. discriminate.
  - destruct k as [|[|k]]; discriminate.
  - destruct Hev as [(e & -> & _)|[(e & -> & _)|(b & d & r0 & r' & -> & Ho)]].
    + destruct k as [|[|k]]; discriminate.
    + destruct k as [|[|[|[|k]]]]; discriminate.
    + destruct k as [|[|[|[|[|k]]]]]; try discriminate.
      simpl in Hn. injection Hn as <- <- <-.
      exists r'. auto.
Qed.

(** ** Failures outside the [try] block *)

(** X8. [os.listdir] is not inside the [try]: when pruning is enabled and
    the directory cannot be listed, the callback ends with that exception
    after this one call; nothing is removed and the upload is not
    attempted. *)
Theorem listdir_failure_ends_callback {W}
    (oracle : ∀ c : call, W → outcome (ret c) * W)
    (model_path : string) (σ : state W) (e : exn) (w' : W) :
  truthy (_delete_old_models (globs σ)) = Some true →
  oracle (os_listdir (fst (PyStr.path_split model_path))) (world σ) = (Raise e, w') →
  fst (on_model_save oracle model_path σ) = Raise e ∧
  log (snd (on_model_save oracle model_path σ)) =
    log σ ++ [ECall (os_listdir (fst (PyStr.path_split model_path))) (Some e)].
Proof.
  intros Hdel Hls. unfold on_model_save.
  destruct (PyStr.path_split model_path) as [fp fn]. cbn [fst] in Hls.
  unfold mbind, prune, mbind, get_globals, test. rewrite Hdel. simpl.
  unfold ext. rewrite Hls. split; reflexivity.
Qed.

Lemma listdir_failure_ends_callback_witness :
  fst (on_model_save Mock.oracle "models/default/model_20.pt"
         (Mock.saving (Mock.policy true true 10) Mock.unlistable)) =
    Raise (Exn FileNotFoundError "models/default") ∧
  log (snd (on_model_save Mock.oracle "models/default/model_20.pt"
         (Mock.saving (Mock.policy true true 10) Mock.unlistable))) =
    [] ++ [ECall (os_listdir (fst (PyStr.path_split "models/default/model_20.pt")))
             (Some (Exn FileNotFoundError "models/default"))].
Proof.
  apply (listdir_failure_ends_callback Mock.oracle "models/default/model_20.pt"
           (Mock.saving (Mock.policy true true 10) Mock.unlistable)
           (Exn FileNotFoundError "models/default") Mock.unlistable);
    reflexivity.
Defined.

(** X9. An upload interval of 0 is not rejected anywhere: with uploading
    enabled and a file name the pattern matches, [model_num % 0] makes every
    save end with an exception; it is [ZeroDivisionError] as soon as pruning
    returned, and the blob store is never reached. *)
Theorem zero_interval_raises {W}
    (oracle : ∀ c : call, W → outcome (ret c) * W)
    (model_path digits : string) (σ : state W) :
  truthy (_upload_models (globs σ)) = Some true →
  _upload_every (globs σ) = VInt 0 →
  PyStr.re_match_model (snd (PyStr.path_split model_path)) = Some digits →
  (∃ e, fst (on_model_save oracle model_path σ) = Raise e) ∧
  (fst (prune oracle (fst (PyStr.path_split model_path)) model_path σ) = Ok tt →
   fst (on_model_save oracle model_path σ) =
     Raise (Exn ZeroDivisionError "integer modulo by zero")) ∧
  ∃ evs, log (snd (on_model_save oracle model_path σ)) = log σ ++ evs ∧
         Forall (calls_satisfy directory_call) evs.
Proof.
  intros Hup Hzero Hre. unfold on_model_save.
  destruct (PyStr.path_split model_path) as [fp fn]. cbn [fst snd] in *.
  unfold mbind.
  pose proof (prune_same_globs oracle fp model_path σ) as Hsame.
  destruct (prune_directory_calls oracle fp model_path σ) as (evs & Hl & Hp).
  destruct (prune oracle fp model_path σ) as [[[]|e] σp]; cbn [fst snd] in *.
  - unfold same_globs in Hsame.
    assert (Hrun : upload oracle model_path (snd (PyStr.path_split fp)) fn σp =
                   (Raise (Exn ZeroDivisionError "integer modulo by zero"), σp)).
    { unfold upload, mbind, get_globals, test, lift_outcome.
      rewrite Hsame, Hup. simpl. rewrite Hre. simpl. rewrite Hsame, Hzero. reflexivity. }
    rewrite Hrun. cbn [fst snd]. split; [eauto|]. split; [reflexivity|]. eauto.
  - split; [eauto|]. split; [discriminate|]. eauto.
Qed.

Lemma zero_interval_raises_witness :
  fst (on_model_save Mock.oracle "models/default/model_20.pt"
         (Mock.saving (Mock.policy false true 0) Mock.quiet)) =
    Raise (Exn ZeroDivisionError "integer modulo by zero").
Proof.
  refine (proj1 (proj2 (zero_interval_raises Mock.oracle "models/default/model_20.pt" "20"
                          (Mock.saving (Mock.policy false true 0) Mock.quiet)
                          _ _ _)) _);
    reflexivity.
Defined.

(** ** The skip test on checkpoint names (line 44) *)

Lemma split_no_sep t :
  has_sep t = false → PyStr.split_at_last_sep t = (EmptyString, t).
Proof.
  induction t as [|c t IH]; [reflexivity|]. intros Ht.
  unfold has_sep in *. simpl in Ht. apply orb_false_iff in Ht as [Hc Ht].
  simpl. rewrite (IH Ht). simpl. rewrite Hc. reflexivity.
Qed.

Lemma split_at_last_sep_tail pre i :
  has_sep i = false →
  PyStr.split_at_last_sep (pre +:+ i) =
    (fst (PyStr.split_at_last_sep pre), snd (PyStr.split_at_last_sep pre) +:+ i).
Proof.
  intros Hi. induction pre as [|c pre IH].
  - rewrite append_nil_l, split_no_sep by assumption. reflexivity.
  - rewrite append_cons. cbn [PyStr.split_at_last_sep]. rewrite IH.
    destruct (PyStr.split_at_last_sep pre) as [h t]. cbn [fst snd].
    destruct (PyStr.is_empty h); [destruct (Ascii.eqb c PyStr.sep)|]; reflexivity.
Qed.

(** An entry without a slash that the saved path ends with is a suffix of
    the file name. *)
Lemma suffix_of_file_name dir name i :
  has_sep name = false → has_sep i = false →
  PyStr.endswith (dir +:+ "/" +:+ name) i = true →
  ∃ q, name = q +:+ i.
Proof.
  intros Hname Hi [pre Hpre]%endswith_inv.
  pose proof (split_at_last_sep_join dir name Hname) as H1.
  rewrite Hpre, split_at_last_sep_tail in H1 by assumption.
  injection H1 as _ H1. eauto.
Qed.

Lemma digits_no_m ds : PyStr.all_digits ds = true → has_char "m" ds = false.
Proof.
  induction ds as [|c ds IH]; [reflexivity|]. simpl.
  intros [Hc Hds]%andb_true_iff. rewrite (IH Hds), orb_false_r.
  destruct (Ascii.eqb_spec c "m") as [->|]; [vm_compute in Hc; discriminate Hc|reflexivity].
Qed.

Lemma startswith_model_m i : PyStr.startswith i "model_" = true → has_char "m" i = true.
Proof.
  unfold PyStr.startswith. destruct i as [|c i]; cbn [String.prefix]; [discriminate|].
  destruct (ascii_dec "m" c) as [<-|]; [reflexivity|discriminate].
Qed.

(** Of the suffixes of a checkpoint name [model_<digits>.pt] only the name
    itself starts with [model_]. *)
Lemma checkpoint_suffix digits q i :
  PyStr.all_digits digits = true →
  "model_" +:+ digits +:+ ".pt" = q +:+ i →
  PyStr.startswith i "model_" = true →
  i = "model_" +:+ digits +:+ ".pt".
Proof.
  intros Hd Heq Hi. destruct q as [|c q]; [rewrite append_nil_l in Heq; congruence|].
  exfalso. rewrite append_cons in Heq.
  change ("model_" +:+ digits +:+ ".pt") with (String "m" ("odel_" +:+ digits +:+ ".pt")) in Heq.
  injection Heq as _ Heq.
  assert (H : has_char "m" ("odel_" +:+ digits +:+ ".pt") = true).
  { rewrite Heq, has_char_app, (startswith_model_m i Hi). apply orb_true_r. }
  change ("odel_" +:+ digits +:+ ".pt") with
    (String "o" (String "d" (String "e" (String "l" (String "_" (digits +:+ ".pt")))))) in H.
  cbn [has_char] in H. rewrite has_char_app, (digits_no_m digits Hd) in H.
  discriminate H.
Qed.

Lemma deletable_checkpoint dir digits i :
  PyStr.all_digits digits = true → has_sep i = false →
  deletable (dir +:+ "/" +:+ "model_" +:+ digits +:+ ".pt") i =
    is_model_file i && negb (String.eqb i ("model_" +:+ digits +:+ ".pt")).
Proof.
  intros Hd Hi. unfold deletable.
  destruct (is_model_file i) eqn:Hm; [|reflexivity]. simpl. f_equal.
  destruct (String.eqb_spec i ("model_" +:+ digits +:+ ".pt")) as [->|Hne].
  - apply endswith_app2.
  - destruct (PyStr.endswith _ i) eqn:He; [|reflexivity]. exfalso. apply Hne.
    apply andb_true_iff in Hm as [Hs _].
    destruct (suffix_of_file_name dir ("model_" +:+ digits +:+ ".pt") i) as [q Hq];
      [|assumption|assumption|].
    + unfold has_sep.
      change ("model_" +:+ digits +:+ ".pt") with
        (String "m" (String "o" (String "d" (String "e" (String "l"
           (String "_" (digits +:+ ".pt"))))))).
      cbn [has_char]. rewrite has_char_app.
      assert (has_char PyStr.sep digits = false) as ->; [|reflexivity].
      clear -Hd. induction digits as [|c ds IH]; [reflexivity|]. simpl in *.
      apply andb_true_iff in Hd as [Hc Hds]. rewrite (IH Hds), orb_false_r.
      destruct (Ascii.eqb_spec c PyStr.sep) as [->|]; [vm_compute in Hc; discriminate Hc|reflexivity].
    + eapply checkpoint_suffix; eassumption.
Qed.

(** X10. For a saved path of the form the upload pattern expects the suffix
    test is exact: when the saved path is [<dir>/model_<digits>.pt] and the
    directory entries hold no slash, an entry is deleted if and only if it
    is a model file other than the saved one, and a pruning loop that
    returns has removed exactly those, in the order of the listing. *)
Theorem checkpoint_pruning_is_exact {W}
    (oracle : ∀ c : call, W → outcome (ret c) * W) (σ : state W)
    (file_path dir digits : string) (entries : list string) :
  PyStr.all_digits digits = true →
  Forall (λ i, has_sep i = false) entries →
  (∀ i, i ∈ entries →
        deletable (dir +:+ "/" +:+ "model_" +:+ digits +:+ ".pt") i =
          is_model_file i && negb (String.eqb i ("model_" +:+ digits +:+ ".pt"))) ∧
  (fst (for_each entries
          (prune_entry oracle file_path (dir +:+ "/" +:+ "model_" +:+ digits +:+ ".pt")) σ)
     = Ok tt →
   ∃ evs,
     log (snd (for_each entries
            (prune_entry oracle file_path (dir +:+ "/" +:+ "model_" +:+ digits +:+ ".pt")) σ))
       = log σ ++ evs ∧
     removed_paths evs =
       (λ i, file_path +:+ "/" +:+ i) <$>
         List.filter (λ i, is_model_file i &&
                           negb (String.eqb i ("model_" +:+ digits +:+ ".pt"))) entries).
Proof.
  intros Hd Hent. split.
  - intros i Hi. rewrite Forall_forall in Hent. apply deletable_checkpoint; auto.
  - intros Hok.
    destruct (prune_loop_run oracle file_path
                (dir +:+ "/" +:+ "model_" +:+ digits +:+ ".pt") entries σ)
      as (evs & Hl & _ & Hrun).
    cbv zeta in *. rewrite Hok in Hrun. exists evs. split; [assumption|].
    rewrite Hrun. f_equal. clear -Hd Hent.
    induction Hent as [|i entries Hi _ IH]; [reflexivity|].
    simpl. rewrite IH, (deletable_checkpoint dir digits i Hd Hi). reflexivity.
Qed.

Lemma checkpoint_pruning_is_exact_witness :
  deletable ("models/default" +:+ "/" +:+ "model_" +:+ "20" +:+ ".pt") "model_10.pt" =
    is_model_file "model_10.pt" &&
    negb (String.eqb "model_10.pt" ("model_" +:+ "20" +:+ ".pt")).
Proof.
  refine (proj1 (checkpoint_pruning_is_exact Mock.oracle
                   (Mock.saving (Mock.policy true false 10) Mock.quiet)
                   "models/default" "models/default" "20"
                   ["model_10.pt"; "model_20.pt"; "notes.txt"] _ _) "model_10.pt" _).
  - reflexivity.
  - repeat constructor.
  - constructor.
Defined.

(** ** The calls of [run_training] (lines 81-141) *)

(** Brings what is known about a tested flag into the form the call
    predicates use. *)
Ltac known_flags :=
  repeat match goal with
         | H : negb ?a = true |- _ => apply negb_true_iff in H; subst a
         | H : negb ?a = false |- _ => apply negb_false_iff in H; subst a
         end.

(** A call of [run_training], placed among those the predicate lists. *)
Ltac listed_call :=
  match goal with
  | |- preserves _ (ext ?o ?c) =>
      apply (ext_log o _ c); intros ? ? ? [= <- <-]; known_flags;
      unfold run_training_call, setup_call, training_call, distributed_call, loop_call;
      pick
  end.

Section TrainingCalls.

Context {W : Type}.
Variable oracle : ∀ c : call, W → outcome (ret c) * W.

Lemma preserves_bind_test {A} (R : state W → state W → Prop) `{!PreOrder R}
    v (k : bool → M W A) :
  (∀ b, truthy v = Some b → preserves R (k b)) → preserves R (mbind (test v) k).
Proof.
  intros Hk σ. unfold mbind, test.
  destruct (truthy v) as [b|] eqn:Hv; simpl; [apply (Hk b eq_refl)|reflexivity].
Qed.

Lemma train_step_loop_calls is_main model bar :
  preserves (log_grows (calls_satisfy (loop_call is_main model bar)))
    (train_step oracle is_main model bar).
Proof.
  unfold train_step.
  frame_with ltac:(first
    [ apply retry_call_preserves;
      [ apply _
      | intros; apply warn_log; intros ? ? [=]
      | intros; apply sleep_log; intros ? ? [=]
      | ]
    | listed_call ]).
Qed.

Lemma train_loop_loop_calls fuel is_main model bar num_train_steps :
  preserves (log_grows (calls_satisfy (loop_call is_main model bar)))
    (train_loop oracle fuel is_main model bar num_train_steps).
Proof.
  induction fuel as [|fuel IH]; simpl.
  - apply preserves_ret. apply _.
  - frame_with ltac:(first [exact IH | apply train_step_loop_calls | listed_call]).
Qed.

(** The loop calls [train], [steps] and [refresh], and [print_log] on the
    main process only. *)
Lemma train_loop_calls (P : call → Prop) fuel is_main model bar num_train_steps :
  (∀ c, loop_call is_main model bar c → P c) →
  preserves (log_grows (calls_satisfy P))
    (train_loop oracle fuel is_main model bar num_train_steps).
Proof.
  intros HP. eapply preserves_weaken; [|apply train_loop_loop_calls].
  intros σ σ'. apply log_grows_weaken. intros ev Hev c r ->.
  apply HP, (Hev _ _ eq_refl).
Qed.

Lemma train_model_calls fuel rank ws model data load_from new num_train_steps name :
  preserves
    (log_grows (calls_satisfy
       (training_call new load_from (rank =? 0) (1 <? ws) model)))
    (train_model oracle fuel rank ws model data load_from new num_train_steps name).
Proof.
  unfold train_model. apply preserves_bind_test; [apply _|]. intros fresh_start Hnew.
  frame_with ltac:(first
    [ apply train_loop_calls; intros c Hc; unfold training_call; pick
    | listed_call
    | silent_step ]).
Qed.

Lemma setup_trainer_calls rank ws model_args seed :
  preserves (log_grows (calls_satisfy (setup_call (rank =? 0) (1 <? ws))))
    (setup_trainer oracle rank ws model_args seed).
Proof.
  unfold setup_trainer, prepare_model_args, init_distributed, set_seed, update_ranks,
    configure_main, create_clients, adopt_policy, pop_cloud_keys.
  frame_with ltac:(first
    [ match goal with
      | |- preserves _ (ext ?o ?c) =>
          apply (ext_log o _ c); intros ? ? ? [= <- <-];
          unfold setup_call, distributed_call;
          first [ left; split; [reflexivity|split; [pick|discriminate]]
                | right; left; split; [reflexivity|pick]
                | right; right; pick ]
      end
    | silent_step ]).
Qed.

Lemma run_training_calls fuel rank ws model_args data load_from new num_train_steps
    name seed :
  preserves
    (log_grows (calls_satisfy (run_training_call new load_from (rank =? 0) (1 <? ws))))
    (run_training oracle fuel rank ws model_args data load_from new num_train_steps
       name seed).
Proof.
  unfold run_training. apply preserves_bind; [apply _| |].
  - eapply preserves_weaken; [|apply setup_trainer_calls].
    intros σ σ'. apply log_grows_weaken. intros ev Hev c r ->.
    left. apply (Hev _ _ eq_refl).
  - intros model. eapply preserves_weaken; [|apply train_model_calls].
    intros σ σ'. apply log_grows_weaken. intros ev Hev c r ->.
    right. exists model. apply (Hev _ _ eq_refl).
Qed.

Lemma train_model_globs fuel rank ws model data load_from new num_train_steps name :
  preserves same_globs
    (train_model oracle fuel rank ws model data load_from new num_train_steps name).
Proof.
  unfold train_model.
  frame_with ltac:(first
    [ apply train_loop_preserves;
      [apply _ | intros; apply ext_same_globs | intros; plain_step | intros; plain_step]
    | plain_step ]).
Qed.

End TrainingCalls.

(** X11. A process of another rank than 0 only trains: over the whole of
    [run_training] it assigns no global, creates no blob-store client and
    never calls [print_log]. *)
Theorem other_ranks_only_train {W}
    (oracle : ∀ c : call, W → outcome (ret c) * W)
    (fuel : nat) (rank ws : Z) (model_args : N)
    (data load_from new num_train_steps name seed : value) (σ : state W) :
  rank ≠ 0 →
  globs (snd (run_training oracle fuel rank ws model_args data load_from new
                num_train_steps name seed σ)) = globs σ ∧
  ∃ evs,
    log (snd (run_training oracle fuel rank ws model_args data load_from new
                num_train_steps name seed σ)) = log σ ++ evs ∧
    Forall (calls_satisfy worker_call) evs.
Proof.
  intros Hrank. apply Z.eqb_neq in Hrank. split.
  - revert σ.
    change (preserves same_globs
              (run_training oracle fuel rank ws model_args data load_from new
                 num_train_steps name seed)).
    unfold run_training. apply preserves_bind; [apply _| |].
    + apply setup_trainer_globs. assumption.
    + intros model. apply train_model_globs.
  - destruct (run_training_calls oracle fuel rank ws model_args data load_from new
                num_train_steps name seed σ) as (evs & Hl & Hev).
    exists evs. split; [assumption|]. eapply Forall_impl; [exact Hev|].
    intros ev H c r ->. specialize (H _ _ eq_refl). rewrite Hrank in H.
    unfold run_training_call, setup_call, training_call, distributed_call, loop_call in H.
    unfold worker_call.
    repeat match goal with
           | H : _ ∨ _ |- _ => destruct H as [H|H]
           | H : _ ∧ _ |- _ => destruct H as [? H]
           | H : ∃ _, _ |- _ => destruct H as [? H]
           end; subst; try discriminate; repeat split; intros; discriminate.
Qed.

Lemma other_ranks_only_train_witness :
  globs (snd (run_training Mock.oracle 5 1 2 0%N (VStr "./data") (VInt (-1))
                (VBool false) (VInt 2) (VStr "default") (VInt 42)
                (Mock.configured Options.defaults Mock.quiet))) =
    globs (Mock.configured Options.defaults Mock.quiet).
Proof.
  refine (proj1 (other_ranks_only_train Mock.oracle 5 1 2 0%N (VStr "./data") (VInt (-1))
                   (VBool false) (VInt 2) (VStr "default") (VInt 42)
                   (Mock.configured Options.defaults Mock.quiet) _)).
  lia.
Defined.

(** X12. A run that is not distributed ([world_size] at most 1) ignores
    its seed: [set_seed] is not called, no process group is joined or left,
    and the run is the same for every seed. *)
Theorem single_process_ignores_seed {W}
    (oracle : ∀ c : call, W → outcome (ret c) * W)
    (fuel : nat) (rank ws : Z) (model_args : N)
    (data load_from new num_train_steps name seed : value) (σ : state W) :
  ws ≤ 1 →
  (∀ seed',
     run_training oracle fuel rank ws model_args data load_from new num_train_steps
       name seed' σ =
     run_training oracle fuel rank ws model_args data load_from new num_train_steps
       name seed σ) ∧
  ∃ evs,
    log (snd (run_training oracle fuel rank ws model_args data load_from new
                num_train_steps name seed σ)) = log σ ++ evs ∧
    Forall (calls_satisfy (λ c, ¬ distributed_call c)) evs.
Proof.
  intros Hws. assert (Hddp : (1 <? ws) = false) by (apply Z.ltb_ge; lia). split.
  - intros seed'. unfold run_training, setup_trainer, prepare_model_args.
    rewrite Hddp. reflexivity.
  - destruct (run_training_calls oracle fuel rank ws model_args data load_from new
                num_train_steps name seed σ) as (evs & Hl & Hev).
    exists evs. split; [assumption|]. eapply Forall_impl; [exact Hev|].
    intros ev H c r -> Hd. specialize (H _ _ eq_refl). rewrite Hddp in H.
    unfold run_training_call, setup_call, training_call, loop_call in H.
    unfold distributed_call in Hd.
    repeat match goal with
           | H : _ ∨ _ |- _ => destruct H as [H|H]
           | H : _ ∧ _ |- _ => destruct H as [? H]
           | H : ∃ _, _ |- _ => destruct H as [? H]
           end; subst; discriminate.
Qed.

Lemma single_process_ignores_seed_witness :
  run_training Mock.oracle 5 0 1 0%N (VStr "./data") (VInt (-1)) (VBool false)
    (VInt 2) (VStr "default") (VInt 7) (Mock.configured Options.defaults Mock.quiet) =
  run_training Mock.oracle 5 0 1 0%N (VStr "./data") (VInt (-1)) (VBool false)
    (VInt 2) (VStr "default") (VInt 42) (Mock.configured Options.defaults Mock.quiet).
Proof.
  refine (proj1 (single_process_ignores_seed Mock.oracle 5 0 1 0%N (VStr "./data")
                   (VInt (-1)) (VBool false) (VInt 2) (VStr "default") (VInt 42)
                   (Mock.configured Options.defaults Mock.quiet) _) (VInt 7)).
  lia.
Defined.

(** X13. [new] decides between [clear] and [load]: a run with [new] true
    never loads a checkpoint, a run with [new] false never clears, and what
    it loads is [load_from]. *)
Theorem new_run_clears_instead_of_loading {W}
    (oracle : ∀ c : call, W → outcome (ret c) * W)
    (fuel : nat) (rank ws : Z) (model_args : N)
    (data load_from new num_train_steps name seed : value) (σ : state W) :
  ∃ evs,
    log (snd (run_training oracle fuel rank ws model_args data load_from new
                num_train_steps name seed σ)) = log σ ++ evs ∧
    (truthy new = Some true →
     Forall (calls_satisfy (λ c, ∀ model x, c ≠ model_load model x)) evs) ∧
    (truthy new = Some false →
     Forall (calls_satisfy
               (λ c, (∀ model, c ≠ model_clear model) ∧
                     ∀ model x, c = model_load model x → x = load_from)) evs).
Proof.
  destruct (run_training_calls oracle fuel rank ws model_args data load_from new
              num_train_steps name seed σ) as (evs & Hl & Hev).
  exists evs. split; [assumption|]. split; intros Hnew;
    (eapply Forall_impl; [exact Hev|]);
    intros ev H c r ->; specialize (H _ _ eq_refl);
    unfold run_training_call, setup_call, training_call, distributed_call, loop_call in H;
    rewrite Hnew in H;
    repeat match goal with
           | H : _ ∨ _ |- _ => destruct H as [H|H]
           | H : _ ∧ _ |- _ => destruct H as [? H]
           | H : ∃ _, _ |- _ => destruct H as [? H]
           end; subst; try discriminate;
    repeat split; intros; try discriminate; congruence.
Qed.

(** ** The final save (lines 138-141) *)

Section FinalSave.

Context {W : Type}.
Variable oracle : ∀ c : call, W → outcome (ret c) * W.

(** A block whose log is a body of [φ]-events followed by a tail that [T]
    describes, run after a step that only adds [φ]-events. *)
Lemma bind_body_tail {A B} (φ : event → Prop) (T : list event → outcome B → Prop)
    (m : M W A) (k : A → M W B) :
  preserves (log_grows φ) m →
  (∀ e, T [] (Raise e)) →
  (∀ a σ, ∃ body tail,
     log (snd (k a σ)) = log σ ++ body ++ tail ∧ Forall φ body ∧ T tail (fst (k a σ))) →
  ∀ σ, ∃ body tail,
    log (snd (mbind m k σ)) = log σ ++ body ++ tail ∧ Forall φ body ∧
    T tail (fst (mbind m k σ)).
Proof.
  intros Hm Hraise Hk σ. unfold mbind.
  destruct (Hm σ) as (pre & Hl & Hpre).
  destruct (m σ) as [[a|e] σ1]; cbn [fst snd] in *.
  - destruct (Hk a σ1) as (body & tail & Hl' & Hbody & Htail).
    exists (pre ++ body), tail. rewrite Hl', Hl, <- !app_assoc.
    split; [reflexivity|]. split; [apply Forall_app; auto|assumption].
  - exists pre, []. rewrite app_nil_r. auto.
Qed.

Lemma loop_call_not_closing is_main model bar c :
  loop_call is_main model bar c → not_closing c.
Proof.
  unfold loop_call, not_closing.
  intros [->|[->|[[n ->]|[_ ->]]]]; repeat split; intros; discriminate.
Qed.

Lemma closing_lines_run ws model (σ : state W) :
  let k := (let! num := ext oracle (model_checkpoint_num model) in
            ext oracle (model_save model num) ;;
            (if 1 <? ws then ext oracle destroy_process_group else mret tt) ;;
            mret Finished) in
  ∃ tail, log (snd (k σ)) = log σ ++ tail ∧
          final_save (1 <? ws) model tail (fst (k σ)).
Proof.
  intros k. remember (k σ) as res eqn:Hres. revert Hres. subst k.
  unfold mbind, ext, final_save.
  destruct (oracle (model_checkpoint_num model) (world σ)) as [[num|e] w1];
    cbn [world globs heap log].
  2:{ intros ->. eexists. split; [reflexivity|]. left. eauto. }
  destruct (oracle (model_save model num) w1) as [[[]|e] w2];
    cbn [world globs heap log].
  2:{ intros ->. eexists. cbn [snd log]. rewrite <- app_assoc.
      split; [reflexivity|]. right. left. eauto. }
  destruct (1 <? ws); cbn [world globs heap log].
  - destruct (oracle destroy_process_group w2) as [[[]|e] w3];
      cbn [world globs heap log]; intros ->; eexists; cbn [snd log];
      rewrite <- !app_assoc; (split; [reflexivity|]); right; right; right;
      [exists num, None|exists num, (Some e)]; auto.
  - cbn [mret world globs heap log]. intros ->. eexists. cbn [snd log].
    rewrite <- app_assoc. split; [reflexivity|]. right. right. left. eauto.
Qed.

Lemma train_model_body_tail fuel rank ws model data load_from new num_train_steps name
    (σ : state W) :
  let r := train_model oracle fuel rank ws model data load_from new num_train_steps
             name σ in
  ∃ body tail,
    log (snd r) = log σ ++ body ++ tail ∧
    Forall (calls_satisfy not_closing) body ∧
    ((tail = [] ∧ fst r ≠ Ok Finished) ∨ final_save (1 <? ws) model tail (fst r)).
Proof.
  cbv zeta. revert σ. unfold train_model.
  repeat (apply (bind_body_tail (calls_satisfy not_closing)
                   (λ tail o, (tail = [] ∧ o ≠ Ok Finished) ∨
                              final_save (1 <? ws) model tail o));
          [ first [ apply preserves_test; apply _
                  | apply train_loop_calls; apply loop_call_not_closing
                  | match goal with
                    | |- preserves _ (if ?b then _ else _) => destruct b
                    end;
                    match goal with
                    | |- preserves _ (ext ?o ?c) =>
                        apply (ext_log o _ c); intros ? ? ? [= <- <-];
                        unfold not_closing; repeat split; intros; discriminate
                    end
                  | match goal with
                    | |- preserves _ (ext ?o ?c) =>
                        apply (ext_log o _ c); intros ? ? ? [= <- <-];
                        unfold not_closing; repeat split; intros; discriminate
                    end ]
          | intros e; left; split; [reflexivity|discriminate]
          | intros ? ]).
  intros σ. match goal with done : completion |- _ => destruct done end.
  - destruct (closing_lines_run ws model σ) as (tail & Hl & Hfinal).
    exists [], tail. simpl. auto.
  - exists [], []. rewrite app_nil_r. split; [reflexivity|]. split; [constructor|].
    left. split; [reflexivity|discriminate].
Qed.

End FinalSave.

(** X14. The last checkpoint is written only once the loop has ended: the
    log of [run_training] is a body in which [checkpoint_num], [save] and
    [destroy_process_group] are never called, followed either by nothing,
    and then the run did not finish (an exception before or in the loop, or
    the loop was cut short), or by lines 138-141 on the Trainer:
    [checkpoint_num], then [save], then in a distributed run
    [destroy_process_group], up to the first of them that raises.  So an
    exception in the loop skips both the save and the process group's
    teardown. *)
Theorem final_save_only_after_loop {W}
    (oracle : ∀ c : call, W → outcome (ret c) * W)
    (fuel : nat) (rank ws : Z) (model_args : N)
    (data load_from new num_train_steps name seed : value) (σ : state W) :
  ∃ body tail,
    log (snd (run_training oracle fuel rank ws model_args data load_from new
                num_train_steps name seed σ)) = log σ ++ body ++ tail ∧
    Forall (calls_satisfy not_closing) body ∧
    ((tail = [] ∧
      fst (run_training oracle fuel rank ws model_args data load_from new
             num_train_steps name seed σ) ≠ Ok Finished) ∨
     ∃ model,
       final_save (1 <? ws) model tail
         (fst (run_training oracle fuel rank ws model_args data load_from new
                 num_train_steps name seed σ))).
Proof.
  revert σ. unfold run_training.
  apply (bind_body_tail (calls_satisfy not_closing)
           (λ tail o, (tail = [] ∧ o ≠ Ok Finished) ∨
                      ∃ model, final_save (1 <? ws) model tail o)).
  - eapply preserves_weaken; [|apply setup_trainer_calls].
    intros σ σ'. apply log_grows_weaken. intros ev Hev c r ->.
    specialize (Hev _ _ eq_refl). unfold setup_call, distributed_call in Hev.
    unfold not_closing.
    repeat match goal with
           | H : _ ∨ _ |- _ => destruct H as [H|H]
           | H : _ ∧ _ |- _ => destruct H as [? H]
           | H : ∃ _, _ |- _ => destruct H as [? H]
           end; subst; try contradiction; repeat split; intros; discriminate.
  - intros e. left. split; [reflexivity|discriminate].
  - intros model σ.
    destruct (train_model_body_tail oracle fuel rank ws model data load_from new
                num_train_steps name σ) as (body & tail & Hl & Hbody & Htail).
    exists body, tail. split; [assumption|]. split; [assumption|].
    destruct Htail as [?|?]; eauto.
Qed.

(** ** Generation mode (lines 267-274) *)

Lemma ext_ok {W} (oracle : ∀ c : call, W → outcome (ret c) * W) c a (σ σ' : state W) :
  ext oracle c σ = (Ok a, σ') → log σ' = log σ ++ [ECall c None].
Proof.
  unfold ext. destruct (oracle c (world σ)) as [[a'|e] w']; [|discriminate].
  intros [= _ <-]. reflexivity.
Qed.

(** Replaces the equation of a call that returned by what it added to the
    log. *)
Ltac call_returned H :=
  match type of H with
  | ext ?o ?c _ = _ => apply (ext_ok o c) in H
  end.

Section Generation.

Context {W : Type}.
Variable oracle : ∀ c : call, W → outcome (ret c) * W.

Lemma sample_images_calls model o :
  preserves (log_grows (calls_satisfy (λ c, generation_call c ∧ not_trainer c)))
    (sample_images oracle model o).
Proof.
  unfold sample_images, timestamped_filename.
  frame_with ltac:(first
    [ match goal with
      | |- preserves _ (ext ?o ?c) =>
          apply (ext_log o _ c); intros ? ? ? [= <- <-];
          split; [unfold generation_call; pick|intros ? [=]]
      end
    | apply print_log; intros ? ? [=] ]).
Qed.

Lemma sample_images_globs model o : preserves same_globs (sample_images oracle model o).
Proof. unfold sample_images, timestamped_filename. frame_with plain_step. Qed.



(** A sampling loop that returned has made all its calls, in order. *)
Lemma evaluate_loop_ok model stamp tiles (l : list Z) (σ σ' : state W) :
  for_each l (λ num, ext oracle (model_evaluate model (stamp +:+ "-" +:+ pretty num)
                                   num tiles)) σ = (Ok tt, σ') →
  log σ' = log σ ++
    ((λ num, ECall (model_evaluate model (stamp +:+ "-" +:+ pretty num) num tiles) None)
       <$> l).
Proof.
  revert σ. induction l as [|x l IH]; intros σ; simpl.
  - intros [= <-]. rewrite app_nil_r. reflexivity.
  - intros H. apply bind_ok in H as ([] & σ1 & H1 & H).
    call_returned H1. rewrite (IH _ H), H1, <- app_assoc. reflexivity.
Qed.

Lemma evaluations_app a b : evaluations (a ++ b) = evaluations a ++ evaluations b.
Proof. apply bind_app. Qed.

Lemma evaluations_loop model stamp tiles (l : list Z) :
  fst <$> evaluations
            ((λ num, ECall (model_evaluate model (stamp +:+ "-" +:+ pretty num) num tiles)
                       None) <$> l) =
    (λ num, stamp +:+ "-" +:+ pretty num) <$> l.
Proof.
  induction l as [|x l IH]; [reflexivity|].
  rewrite !fmap_cons.
  match goal with
  | |- context [evaluations (?ev :: ?evs)] =>
      change (evaluations (ev :: evs)) with (evaluations ([ev] ++ evs))
  end.
  rewrite evaluations_app, fmap_app, IH. reflexivity.
Qed.

End Generation.

(** X15. With [generate] set, [train_from_folder] never reaches
    [run_training]: the Trainer is built first, from the dictionary exactly
    as lines 213-265 made it, the six cloud keys included; after that only
    [load], the clock, the progress bar and [evaluate] are called; the
    device count is not asked for, no global is assigned, and the dictionary
    is left as built. *)
Theorem generation_builds_trainer_from_all_options {W}
    (oracle : ∀ c : call, W → outcome (ret c) * W)
    (fuel : nat) (o : Options.t) (σ : state W) :
  truthy (Options.generate o) = Some true →
  globs (snd (train_from_folder oracle fuel o σ)) = globs σ ∧
  heap (snd (train_from_folder oracle fuel o σ)) =
    <[fresh (dom (heap σ)) := build_model_args o]> (heap σ) ∧
  (∀ k, k ∈ cloud_keys → is_Some (build_model_args o !! k)) ∧
  ∃ raised rest,
    log (snd (train_from_folder oracle fuel o σ)) =
      log σ ++ ECall (Trainer (build_model_args o)) raised :: rest ∧
    Forall (calls_satisfy (λ c, generation_call c ∧ not_trainer c)) rest.
Proof.
  intros Hgen.
  assert (Hkeys : ∀ k, k ∈ cloud_keys → is_Some (build_model_args o !! k)).
  { intros k Hk. unfold cloud_keys in Hk.
    repeat (apply elem_of_cons in Hk as [->|Hk]); try (eexists; reflexivity).
    by apply elem_of_nil in Hk. }
  remember (train_from_folder oracle fuel o σ) as res eqn:Hres.
  unfold train_from_folder, mbind at 1, dict_new in Hres. cbn beta iota in Hres.
  unfold run_mode, mbind at 1, test in Hres. rewrite Hgen in Hres.
  cbn [mret] in Hres. cbn beta iota in Hres.
  unfold mbind at 1, generate_samples, mbind at 1 in Hres.
  erewrite dict_read_run in Hres by apply lookup_insert_eq.
  unfold mbind at 1, ext at 1 in Hres. cbn [world globs heap log] in Hres.
  destruct (oracle (Trainer (build_model_args o)) (world σ)) as [[model|e] w1].
  - match type of Hres with
    | context [sample_images oracle model o ?σ1] =>
        pose proof (sample_images_globs oracle model o σ1) as Hg;
        pose proof (sample_images_heap oracle model o σ1) as Hh;
        destruct (sample_images_calls oracle model o σ1) as (rest & Hl & Hrest);
        revert Hres Hg Hh Hl;
        destruct (sample_images oracle model o σ1) as [[[]|e] σ2];
        intros Hres Hg Hh Hl
    end; subst res; unfold same_globs, same_heap in *; cbn [fst snd globs heap log mret] in *;
      (split; [assumption|]); (split; [assumption|]); (split; [assumption|]);
      exists None, rest; rewrite Hl, <- app_assoc; auto.
  - subst res. cbn [fst snd globs heap log]. split; [reflexivity|].
    split; [reflexivity|]. split; [assumption|].
    exists (Some e), []. split; [reflexivity|constructor].
Qed.

Lemma generation_builds_trainer_from_all_options_witness :
  globs (snd (train_from_folder Mock.oracle 0
                (Mock.generating Options.defaults (VInt 3)) (Mock.start Mock.quiet))) =
    globs (Mock.start Mock.quiet).
Proof.
  refine (proj1 (generation_builds_trainer_from_all_options Mock.oracle 0
                   (Mock.generating Options.defaults (VInt 3))
                   (Mock.start Mock.quiet) _)).
  reflexivity.
Defined.

(** X16. A generation run that returns has called [evaluate] once for
    each number below [num_generate], in order, under the names
    [generated-<timestamp>-<num>] with one and the same timestamp, and the
    line it prints last names that timestamp. *)
Theorem samples_share_one_timestamp {W}
    (oracle : ∀ c : call, W → outcome (ret c) * W)
    (fuel : nat) (o : Options.t) (σ : state W) (n : Z) (c : completion) :
  truthy (Options.generate o) = Some true →
  Options.num_generate o = VInt n →
  fst (train_from_folder oracle fuel o σ) = Ok c →
  ∃ evs timestamp,
    log (snd (train_from_folder oracle fuel o σ)) = log σ ++ evs ∧
    fst <$> evaluations evs =
      (λ num, ("generated-" +:+ timestamp) +:+ "-" +:+ pretty num) <$> seqZ 0 n ∧
    last evs =
      Some (EPrint ("sample images generated at " +:+ py_str (Options.results_dir o)
                    +:+ "/" +:+ py_str (Options.name o) +:+ "/" +:+
                    "generated-" +:+ timestamp)).
Proof.
  intros Hgen Hn Hok.
  destruct (train_from_folder oracle fuel o σ) as [res σ'] eqn:Hrun.
  cbn [fst snd] in *. subst res.
  unfold train_from_folder in Hrun.
  apply bind_ok in Hrun as (l & σ0 & Hnew & Hrun).
  unfold dict_new in Hnew. injection Hnew as <- <-.
  unfold run_mode in Hrun.
  apply bind_ok in Hrun as (g & σ1 & Htest & Hrun).
  unfold test in Htest. rewrite Hgen in Htest. injection Htest as <- <-.
  apply bind_ok in Hrun as ([] & σg & Hrun & Hfin). injection Hfin as _ <-.
  unfold generate_samples in Hrun.
  apply bind_ok in Hrun as (kw & σ2 & Hread & Hrun).
  apply bind_ok in Hrun as (model & σ3 & Htr & Hrun). call_returned Htr.
  assert (Hl2 : log σ2 = log σ).
  { unfold dict_read in Hread. cbn [heap] in Hread.
    destruct (_ !! _); injection Hread as _ <-; reflexivity. }
  unfold sample_images in Hrun.
  apply bind_ok in Hrun as ([] & σ4 & Hload & Hrun). call_returned Hload.
  apply bind_ok in Hrun as (name & σ5 & Hts & Hrun).
  unfold timestamped_filename in Hts.
  apply bind_ok in Hts as (ts & σ5' & Hts & [= <- <-]). call_returned Hts.
  apply bind_ok in Hrun as (count & σ6 & Hcount & Hrun).
  rewrite Hn in Hcount. injection Hcount as <- <-.
  apply bind_ok in Hrun as ([] & σ7 & Hbar & Hrun). call_returned Hbar.
  apply bind_ok in Hrun as ([] & σ8 & Hloop & Hprint).
  apply evaluate_loop_ok in Hloop.
  unfold print in Hprint. injection Hprint as <-. cbn [log].
  eexists. exists ts.
  rewrite Hloop, Hbar, Hts, Hload, Htr, Hl2, <- !app_assoc.
  split; [reflexivity|]. split.
  - rewrite !evaluations_app, !fmap_app, evaluations_loop. cbn. apply app_nil_r.
  - rewrite !app_assoc. apply last_snoc.
Qed.

Lemma samples_share_one_timestamp_witness :
  ∃ evs timestamp,
    log (snd (train_from_folder Mock.oracle 0
                (Mock.generating Options.defaults (VInt 3)) (Mock.start Mock.quiet))) =
      log (Mock.start Mock.quiet) ++ evs ∧
    fst <$> evaluations evs =
      (λ num, ("generated-" +:+ timestamp) +:+ "-" +:+ pretty num) <$> seqZ 0 3 ∧
    last evs =
      Some (EPrint ("sample images generated at " +:+
                    py_str (Options.results_dir (Mock.generating Options.defaults (VInt 3)))
                    +:+ "/" +:+
                    py_str (Options.name (Mock.generating Options.defaults (VInt 3)))
                    +:+ "/" +:+ "generated-" +:+ timestamp)).
Proof.
  apply (samples_share_one_timestamp Mock.oracle 0
           (Mock.generating Options.defaults (VInt 3)) (Mock.start Mock.quiet) 3 Finished);
    reflexivity.
Defined.

(** ** From the options to the callback's policy (lines 104-112, 213-287) *)

Lemma ext_ok_state {W} (oracle : ∀ c : call, W → outcome (ret c) * W) c a
    (σ σ' : state W) :
  ext oracle c σ = (Ok a, σ') →
  globs σ' = globs σ ∧ heap σ' = heap σ ∧ log σ' = log σ ++ [ECall c None].
Proof.
  unfold ext. destruct (oracle c (world σ)) as [[a'|e] w']; [|discriminate].
  intros [= _ <-]. auto.
Qed.

(** Replaces the equation of a call that returned by what it left of the
    state. *)
Ltac call_left H Hg Hh Hl :=
  match type of H with
  | ext ?o ?c _ = _ => apply (ext_ok_state o c) in H as (Hg & Hh & Hl)
  end.

Section InProcess.

Context {W : Type}.
Variable oracle : ∀ c : call, W → outcome (ret c) * W.

(** A training run in the current process, split at the Trainer. *)
Lemma in_process_run fuel o (σ σ' : state W) c :
  truthy (Options.generate o) = Some false →
  truthy (Options.generate_interpolation o) = Some false →
  truthy (Options.multi_gpus o) = Some false →
  train_from_folder oracle fuel o σ = (Ok c, σ') →
  ∃ σ1 model σ3,
    heap σ1 = <[fresh (dom (heap σ)) := build_model_args o]> (heap σ) ∧
    globs σ1 = globs σ ∧
    log σ1 = log σ ++ [ECall cuda_device_count None] ∧
    setup_trainer oracle 0 1 (fresh (dom (heap σ))) (Options.seed o) σ1 = (Ok model, σ3) ∧
    train_model oracle fuel 0 1 model (Options.data o) (Options.load_from o)
      (Options.new o) (Options.num_train_steps o) (Options.name o) σ3 = (Ok c, σ').
Proof.
  intros Hgen Hint Hmulti Hrun.
  unfold train_from_folder in Hrun.
  apply bind_ok in Hrun as (l & σ0 & Hnew & Hrun).
  unfold dict_new in Hnew. injection Hnew as <- <-.
  unfold run_mode in Hrun.
  apply bind_ok in Hrun as (g & σ1 & Htest & Hrun).
  unfold test in Htest. rewrite Hgen in Htest. injection Htest as <- <-.
  apply bind_ok in Hrun as (g & σ1 & Htest & Hrun).
  unfold test in Htest. rewrite Hint in Htest. injection Htest as <- <-.
  unfold dispatch in Hrun.
  apply bind_ok in Hrun as (n & σ1 & Hcount & Hrun).
  call_left Hcount Hg1 Hh1 Hl1. cbn [globs heap log] in *.
  apply bind_ok in Hrun as (in_process & σ2 & Hin & Hrun).
  assert (Hhere : in_process = true ∧ σ2 = σ1).
  { destruct (n =? 1).
    - injection Hin as <- <-. auto.
    - apply bind_ok in Hin as (multi & σm & Htest & Hin).
      unfold test in Htest. rewrite Hmulti in Htest.
      injection Htest as <- <-. injection Hin as <- <-. auto. }
  destruct Hhere as [-> ->]. clear Hin.
  unfold run_training in Hrun.
  apply bind_ok in Hrun as (model & σ3 & Hsetup & Htrain).
  exists σ1, model, σ3. auto.
Qed.

End InProcess.

(** X17. A training run in the current process takes the callback's policy
    from the options: once [train_from_folder] has returned with
    [multi_gpus] off, the three policy globals hold [upload_models],
    [upload_every] and [delete_old_models] as passed; the one Trainer that
    was built got [learning_rate] under the key [lr], [aug_types] as a
    list, and [on_model_save] as [save_callback], whatever the option
    [save_callback] was. *)
Theorem options_set_the_callback_policy {W}
    (oracle : ∀ c : call, W → outcome (ret c) * W)
    (fuel : nat) (o : Options.t) (σ : state W) (c : completion) :
  truthy (Options.generate o) = Some false →
  truthy (Options.generate_interpolation o) = Some false →
  truthy (Options.multi_gpus o) = Some false →
  fst (train_from_folder oracle fuel o σ) = Ok c →
  (_upload_models (globs (snd (train_from_folder oracle fuel o σ))) =
     Options.upload_models o ∧
   _upload_every (globs (snd (train_from_folder oracle fuel o σ))) =
     Options.upload_every o ∧
   _delete_old_models (globs (snd (train_from_folder oracle fuel o σ))) =
     Options.delete_old_models o) ∧
  (∃ evs,
     log (snd (train_from_folder oracle fuel o σ)) = log σ ++ evs ∧
     trainer_kwargs evs = [trainer_arguments 0 1 (build_model_args o)]) ∧
  trainer_arguments 0 1 (build_model_args o) !! "lr" = Some (Options.learning_rate o) ∧
  trainer_arguments 0 1 (build_model_args o) !! "learning_rate" = None ∧
  trainer_arguments 0 1 (build_model_args o) !! "save_callback" =
    Some (VFunc "on_model_save") ∧
  ∃ types,
    trainer_arguments 0 1 (build_model_args o) !! "aug_types" = Some (VList types).
Proof.
  intros Hgen Hint Hmulti Hok.
  assert (Hrun : ∃ σ', train_from_folder oracle fuel o σ = (Ok c, σ')).
  { destruct (train_from_folder oracle fuel o σ) as [res σ']. simpl in Hok.
    subst res. eauto. }
  destruct Hrun as [σ' Hrun]. rewrite Hrun. cbn [fst snd].
  destruct (in_process_run oracle fuel o σ σ' c Hgen Hint Hmulti Hrun)
    as (σ1 & model & σ3 & Hh1 & Hg1 & Hl1 & Hsetup & Htrain).
  set (l := fresh (dom (heap σ))) in *. set (d := build_model_args o) in *.
  assert (Hd : heap σ1 !! l = Some d) by (rewrite Hh1; apply lookup_insert_eq).
  destruct (setup_trainer_run oracle 0 1 l (Options.seed o) d σ1 Hd)
    as (pre & Hpre & Hcases).
  cbv zeta in Hcases. rewrite Hsetup in Hcases. cbn [fst snd] in Hcases.
  destruct Hcases as [(e & He & _)|(Hl3 & _ & Hpol & _)]; [discriminate|].
  destruct (Hpol eq_refl) as (um & ue & dm & Hum & Hue & Hdm & H1 & H2 & H3).
  pose proof (train_model_globs oracle fuel 0 1 model (Options.data o)
                (Options.load_from o) (Options.new o) (Options.num_train_steps o)
                (Options.name o) σ3) as Hg.
  destruct (train_model_log oracle fuel 0 1 model (Options.data o)
              (Options.load_from o) (Options.new o) (Options.num_train_steps o)
              (Options.name o) σ3) as (post & Hl & Hpost).
  rewrite Htrain in Hg, Hl. unfold same_globs in Hg. cbn [snd] in Hg, Hl.
  split; [|split].
  - rewrite Hg, H1, H2, H3.
    change (d !! "upload_models") with (Some (Options.upload_models o)) in Hum.
    change (d !! "upload_every") with (Some (Options.upload_every o)) in Hue.
    change (d !! "delete_old_models") with (Some (Options.delete_old_models o)) in Hdm.
    injection Hum as <-. injection Hue as <-. injection Hdm as <-. auto.
  - eexists. rewrite Hl, Hl3, Hl1, <- !app_assoc. split; [reflexivity|].
    rewrite !trainer_kwargs_app, (no_trainer_kwargs pre Hpre),
      (no_trainer_kwargs post Hpost).
    reflexivity.
  - split; [reflexivity|]. split; [reflexivity|]. split; [reflexivity|].
    destruct (Options.aug_types o) eqn:Haug; eexists;
      (transitivity (Some (cast_list (Options.aug_types o)));
       [reflexivity|rewrite Haug; reflexivity]).
Qed.

Lemma options_set_the_callback_policy_witness :
  _upload_every (globs (snd (train_from_folder Mock.oracle 0 Options.defaults
                               (Mock.start Mock.quiet)))) =
    Options.upload_every Options.defaults.
Proof.
  refine (proj1 (proj2 (proj1 (options_set_the_callback_policy Mock.oracle 0
                                 Options.defaults (Mock.start Mock.quiet) OutOfFuel
                                 _ _ _ _)))); reflexivity.
Defined.

(** ** The blob-store clients (lines 104-107) *)

Section Clients.

Context {W : Type}.
Variable oracle : ∀ c : call, W → outcome (ret c) * W.

Lemma log_grows_bind {A B} φ (m : M W A) (k : A → M W B) (σ : state W) :
  log_grows φ σ (snd (m σ)) →
  (∀ a σ1, m σ = (Ok a, σ1) → log_grows φ σ1 (snd (k a σ1))) →
  log_grows φ σ (snd (mbind m k σ)).
Proof.
  intros Hm Hk. unfold mbind.
  destruct (m σ) as [[a|e] σ1] eqn:E; cbn [snd] in *; [|assumption].
  etransitivity; [exact Hm|apply (Hk a σ1 eq_refl)].
Qed.

Lemma configure_main_flag_off model_args (σ : state W) :
  truthy (_upload_models (globs σ)) = Some false →
  configure_main oracle model_args σ = adopt_policy model_args σ.
Proof.
  intros H. unfold configure_main, mbind at 1, get_globals.
  unfold mbind at 1, test. rewrite H. cbn [mret]. unfold mbind at 1. reflexivity.
Qed.

Lemma update_ranks_globs model_args rank ws :
  preserves (W := W) same_globs (update_ranks model_args rank ws).
Proof.
  intros σ. unfold same_globs, update_ranks, mbind, dict_read, dict_write, set_heap.
  destruct (heap σ !! model_args); reflexivity.
Qed.

Lemma adopt_policy_silent φ model_args :
  preserves (W := W) (log_grows φ) (adopt_policy model_args).
Proof. unfold adopt_policy. frame_with silent_step. Qed.

Lemma pop_cloud_keys_silent φ model_args :
  preserves (W := W) (log_grows φ) (pop_cloud_keys model_args).
Proof. unfold pop_cloud_keys. frame_with silent_step. Qed.

Lemma dict_read_silent φ model_args :
  preserves (W := W) (log_grows φ) (dict_read model_args).
Proof. silent_step. Qed.

(** With the flag off at entry the main process sets up without a call to
    the blob store's SDK. *)
Lemma setup_without_clients ws model_args seed (σ : state W) :
  truthy (_upload_models (globs σ)) = Some false →
  log_grows
    (calls_satisfy (λ c, (∀ url credential, c ≠ BlobServiceClient url credential) ∧
                         ∀ service name, c ≠ get_container_client service name))
    σ (snd (setup_trainer oracle 0 ws model_args seed σ)).
Proof.
  intros Hflag. unfold setup_trainer.
  assert (Hleaf : ∀ c, (∀ url credential, c ≠ BlobServiceClient url credential) →
                       (∀ service name, c ≠ get_container_client service name) →
            preserves
              (log_grows
                 (calls_satisfy
                    (λ c, (∀ url credential, c ≠ BlobServiceClient url credential) ∧
                          ∀ service name, c ≠ get_container_client service name)))
              (ext oracle c)).
  { intros c H1 H2. apply (ext_log oracle _ c). intros r c' r' [= <- <-]. auto. }
  apply log_grows_bind.
  - unfold prepare_model_args. change (0 =? 0) with true. cbv zeta iota.
    apply log_grows_bind.
    { destruct (1 <? ws); [|apply log_grows_same; reflexivity].
      revert σ Hflag. intros σ _. revert σ.
      match goal with
      | |- ∀ σ, log_grows ?φ σ (snd (?m σ)) => change (preserves (log_grows φ) m)
      end.
      unfold init_distributed, set_seed.
      frame_with ltac:(first
        [ match goal with
          | |- preserves _ (ext _ ?c) => apply (Hleaf c); intros; discriminate
          end
        | apply print_log; intros ? ? [=] ]). }
    intros [] σ1 H1.
    assert (Hg1 : globs σ1 = globs σ).
    { destruct (1 <? ws).
      - pose proof (init_distributed_globs oracle 0 ws seed σ) as Hg.
        rewrite H1 in Hg. exact Hg.
      - injection H1 as <-. reflexivity. }
    apply log_grows_bind.
    { apply log_grows_same. unfold update_ranks, mbind, dict_read, dict_write, set_heap.
      destruct (heap σ1 !! model_args); reflexivity. }
    intros [] σ2 H2.
    assert (Hg2 : globs σ2 = globs σ1).
    { pose proof (update_ranks_globs model_args 0 ws σ1) as Hg.
      rewrite H2 in Hg. exact Hg. }
    apply log_grows_bind.
    { rewrite configure_main_flag_off by (rewrite Hg2, Hg1; assumption).
      apply adopt_policy_silent. }
    intros [] σ3 _. apply pop_cloud_keys_silent.
  - intros [] σp _. apply log_grows_bind; [apply dict_read_silent|].
    intros kwargs σk _. apply (Hleaf (Trainer kwargs)); intros; discriminate.
Qed.

(** The clients of lines 106-107, when they were created. *)
Lemma create_clients_ok model_args d (σ σ' : state W) :
  heap σ !! model_args = Some d →
  create_clients oracle model_args σ = (Ok tt, σ') →
  ∃ url credential name service container,
    d !! "account_url" = Some url ∧ d !! "credential" = Some credential ∧
    d !! "container_name" = Some name ∧
    heap σ' = heap σ ∧
    globs σ' = with_container_client (VObj container)
                 (with_blob_service_client (VObj service) (globs σ)) ∧
    log σ' = log σ ++ [ECall (BlobServiceClient url credential) None;
                       ECall (get_container_client service name) None].
Proof.
  intros Hd Hrun. unfold create_clients in Hrun.
  apply bind_ok in Hrun as (url & σ1 & Hurl & Hrun).
  rewrite (dict_getitem_run _ _ d) in Hurl by assumption.
  destruct (d !! "account_url") as [url'|] eqn:Eurl; [|discriminate].
  injection Hurl as <- <-.
  apply bind_ok in Hrun as (cr & σ1 & Hcr & Hrun).
  rewrite (dict_getitem_run _ _ d) in Hcr by assumption.
  destruct (d !! "credential") as [cr'|] eqn:Ecr; [|discriminate].
  injection Hcr as <- <-.
  apply bind_ok in Hrun as (service & σ1 & Hsvc & Hrun).
  call_left Hsvc Hg1 Hh1 Hl1.
  apply bind_ok in Hrun as ([] & σ2 & Hset & Hrun).
  unfold assign_global in Hset. injection Hset as <-.
  apply bind_ok in Hrun as (g & σ3 & Hget & Hrun).
  unfold get_globals in Hget. injection Hget as <- <-. cbn [globs] in Hrun.
  apply bind_ok in Hrun as (name & σ3 & Hname & Hrun).
  rewrite (dict_getitem_run _ _ d) in Hname by (cbn [heap]; rewrite Hh1; assumption).
  destruct (d !! "container_name") as [name'|] eqn:Ename; [|discriminate].
  injection Hname as <- <-.
  apply bind_ok in Hrun as (container & σ3 & Hcont & Hrun).
  cbn [with_blob_service_client _blob_service_client] in Hcont.
  call_left Hcont Hg3 Hh3 Hl3. cbn [globs heap log] in *.
  unfold assign_global in Hrun. injection Hrun as <-. cbn [globs heap log].
  exists url', cr', name', service, container.
  rewrite Hg3, Hg1, Hh3, Hh1, Hl3, Hl1, <- app_assoc. auto 10.
Qed.

End Clients.

(** X18. The clients of lines 106-107 depend on the flag as it was when
    [run_training] was entered, not on [model_args]: with the global
    [_upload_models] false at entry the main process reaches the Trainer
    without a single call to the blob store's SDK; with it true (a process
    that was configured by an earlier run) a setup that returns has created
    the service client from [account_url] and [credential] and the container
    client from [container_name], as [model_args] held them at entry, and
    has stored both in the globals. *)
Theorem clients_need_the_flag_at_entry {W}
    (oracle : ∀ c : call, W → outcome (ret c) * W)
    (ws : Z) (model_args : N) (seed : value) (d : gmap string value) (σ : state W) :
  heap σ !! model_args = Some d →
  (truthy (_upload_models (globs σ)) = Some false →
   ∃ evs,
     log (snd (setup_trainer oracle 0 ws model_args seed σ)) = log σ ++ evs ∧
     Forall (calls_satisfy
               (λ c, (∀ url credential, c ≠ BlobServiceClient url credential) ∧
                     ∀ service name, c ≠ get_container_client service name)) evs) ∧
  (truthy (_upload_models (globs σ)) = Some true →
   ∀ model, fst (setup_trainer oracle 0 ws model_args seed σ) = Ok model →
   ∃ url credential name service container,
     d !! "account_url" = Some url ∧ d !! "credential" = Some credential ∧
     d !! "container_name" = Some name ∧
     _blob_service_client (globs (snd (setup_trainer oracle 0 ws model_args seed σ))) =
       VObj service ∧
     _container_client (globs (snd (setup_trainer oracle 0 ws model_args seed σ))) =
       VObj container ∧
     ∃ evs,
       log (snd (setup_trainer oracle 0 ws model_args seed σ)) = log σ ++ evs ∧
       ECall (BlobServiceClient url credential) None ∈ evs ∧
       ECall (get_container_client service name) None ∈ evs).
Proof.
  intros Hd. split; [apply setup_without_clients|].
  intros Hflag model Hok.
  destruct (setup_trainer oracle 0 ws model_args seed σ) as [res σ'] eqn:Hrun.
  cbn [fst snd] in *. subst res. unfold setup_trainer in Hrun.
  apply bind_ok in Hrun as ([] & σp & Hprep & Hrun).
  apply bind_ok in Hrun as (kwargs & σk & Hread & Htrainer).
  assert (σk = σp) as ->
    by (unfold dict_read in Hread; destruct (heap σp !! model_args);
        [injection Hread as _ <-; reflexivity|discriminate]).
  call_left Htrainer Hgt Hht Hlt.
  unfold prepare_model_args in Hprep. change (0 =? 0) with true in Hprep.
  cbv zeta iota in Hprep.
  apply bind_ok in Hprep as ([] & σ1 & Hinit & Hprep).
  assert (Hσ1 : heap σ1 = heap σ ∧ globs σ1 = globs σ ∧ ∃ pre, log σ1 = log σ ++ pre).
  { destruct (1 <? ws).
    - pose proof (init_distributed_heap oracle 0 ws seed σ) as H1.
      pose proof (init_distributed_globs oracle 0 ws seed σ) as H2.
      destruct (init_distributed_log oracle 0 ws seed σ) as (pre & H3 & _).
      rewrite Hinit in H1, H2, H3. eauto.
    - injection Hinit as <-. split; [reflexivity|]. split; [reflexivity|].
      exists []. rewrite app_nil_r. reflexivity. }
  destruct Hσ1 as (Hh1 & Hg1 & pre & Hl1).
  apply bind_ok in Hprep as ([] & σ2 & Hupd & Hprep).
  unfold update_ranks, mbind in Hupd.
  rewrite (dict_read_run _ d) in Hupd by (rewrite Hh1; assumption).
  injection Hupd as <-.
  set (d3 := <["world_size" := VInt ws]>
               (<["rank" := VInt 0]> (<["is_ddp" := VBool (1 <? ws)]> d))) in *.
  apply bind_ok in Hprep as ([] & σ3 & Hcfg & Hpop).
  unfold configure_main in Hcfg.
  apply bind_ok in Hcfg as (g & σg & Hget & Hcfg).
  unfold get_globals in Hget. injection Hget as <- <-.
  apply bind_ok in Hcfg as (uploading & σt & Htest & Hcfg).
  unfold test in Htest. cbn [globs] in Htest. rewrite Hg1, Hflag in Htest.
  injection Htest as <- <-.
  apply bind_ok in Hcfg as ([] & σc & Hcl & Hpol).
  apply (create_clients_ok oracle _ d3) in Hcl
    as (url & cr & name & service & container & Hurl & Hcr & Hname & Hhc & Hgc & Hlc);
    [|apply lookup_insert_eq].
  apply (adopt_policy_ok _ d3) in Hpol as (um & ue & dm & _ & _ & _ & ->);
    [|rewrite Hhc; apply lookup_insert_eq].
  erewrite pop_cloud_keys_run in Hpop by apply lookup_insert_eq.
  injection Hpop as <-. cbn [world globs heap log] in *.
  unfold d3 in Hurl, Hcr, Hname.
  rewrite !lookup_insert_ne in Hurl, Hcr, Hname by discriminate.
  exists url, cr, name, service, container.
  rewrite Hgt, Hgc, Hlt, Hlc, Hl1.
  do 3 (split; [assumption|]). split; [reflexivity|]. split; [reflexivity|].
  eexists. rewrite <- !app_assoc. split; [reflexivity|].
  split; apply elem_of_app; right; set_solver.
Qed.

Lemma clients_need_the_flag_at_entry_witness :
  ∃ url credential name service container,
    build_model_args Options.defaults !! "account_url" = Some url ∧
    build_model_args Options.defaults !! "credential" = Some credential ∧
    build_model_args Options.defaults !! "container_name" = Some name ∧
    _blob_service_client
      (globs (snd (setup_trainer Mock.oracle 0 1 0%N (VInt 42)
                     (Mock.second_run Options.defaults Mock.quiet)))) = VObj service ∧
    _container_client
      (globs (snd (setup_trainer Mock.oracle 0 1 0%N (VInt 42)
                     (Mock.second_run Options.defaults Mock.quiet)))) = VObj container ∧
    ∃ evs,
      log (snd (setup_trainer Mock.oracle 0 1 0%N (VInt 42)
                  (Mock.second_run Options.defaults Mock.quiet))) =
        log (Mock.second_run Options.defaults Mock.quiet) ++ evs ∧
      ECall (BlobServiceClient url credential) None ∈ evs ∧
      ECall (get_container_client service name) None ∈ evs.
Proof.
  refine (proj2 (clients_need_the_flag_at_entry Mock.oracle 1 0%N (VInt 42)
                   (build_model_args Options.defaults)
                   (Mock.second_run Options.defaults Mock.quiet) _) _ 3%N _);
    reflexivity.
Defined.

(** ** A dictionary without the cloud entries (lines 98-119) *)

(** X19. [run_training] reads the three policy entries with [model_args[...]]
    on the main process only and removes the six cloud entries with
    [pop(..., None)].  Called on a dictionary that lacks [upload_models],
    the main process always ends with an exception, whatever the world size
    and the globals, and builds no Trainer.  In a run that is not
    distributed: where uploading was not enabled before the call
    ([_upload_models] false at entry) the exception is [KeyError] on
    [upload_models], before any call, the three rank entries and
    [save_callback] already written into the dictionary and nothing removed
    from it; where uploading was enabled before the call and [account_url]
    is missing too, it is [KeyError] on [account_url], before any call, with
    only the three rank entries written; another rank goes on to build its
    Trainer from the same dictionary. *)
Theorem missing_policy_key_raises {W}
    (oracle : ∀ c : call, W → outcome (ret c) * W)
    (fuel : nat) (rank ws : Z) (model_args : N)
    (data load_from new num_train_steps name seed : value)
    (d : gmap string value) (σ : state W) :
  heap σ !! model_args = Some d →
  d !! "upload_models" = None →
  (∃ e pre,
     fst (run_training oracle fuel 0 ws model_args data load_from new num_train_steps
            name seed σ) = Raise e ∧
     log (snd (run_training oracle fuel 0 ws model_args data load_from new
                 num_train_steps name seed σ)) = log σ ++ pre ∧
     Forall (calls_satisfy not_trainer) pre) ∧
  (ws ≤ 1 →
   (truthy (_upload_models (globs σ)) = Some false →
    run_training oracle fuel 0 ws model_args data load_from new num_train_steps name
      seed σ =
      (Raise (Exn KeyError "upload_models"),
       {| world := world σ; globs := globs σ;
          heap := <[model_args :=
                      <["save_callback" := VFunc "on_model_save"]>
                        (<["world_size" := VInt ws]>
                           (<["rank" := VInt 0]> (<["is_ddp" := VBool false]> d)))]>
                    (heap σ);
          log := log σ |})) ∧
   (truthy (_upload_models (globs σ)) = Some true →
    d !! "account_url" = None →
    run_training oracle fuel 0 ws model_args data load_from new num_train_steps name
      seed σ =
      (Raise (Exn KeyError "account_url"),
       {| world := world σ; globs := globs σ;
          heap := <[model_args :=
                      <["world_size" := VInt ws]>
                        (<["rank" := VInt 0]> (<["is_ddp" := VBool false]> d))]>
                    (heap σ);
          log := log σ |})) ∧
   (rank ≠ 0 →
    ∃ raised,
      log (snd (setup_trainer oracle rank ws model_args seed σ)) =
        log σ ++ [ECall (Trainer (trainer_arguments rank ws d)) raised])).
Proof.
  intros Hd Hkey. split.
  { destruct (setup_trainer_run oracle 0 ws model_args seed d σ Hd)
      as (pre & Hpre & Hrun). cbv zeta in Hrun.
    unfold run_training, mbind.
    destruct (setup_trainer oracle 0 ws model_args seed σ) as [[model|e] σ1];
      cbn [fst snd] in *.
    - exfalso. destruct Hrun as [(e & [=] & _)|(_ & _ & Hum & _)].
      destruct (Hum eq_refl) as (um & _ & _ & Hsome & _). congruence.
    - destruct Hrun as [(e' & _ & Hl)|(_ & _ & Hum & _)].
      + exists e, pre. auto.
      + destruct (Hum eq_refl) as (um & _ & _ & Hsome & _). congruence. }
  intros Hws.
  assert (Hddp : (1 <? ws) = false) by (apply Z.ltb_ge; lia).
  split; [|split].
  - intros Hflag.
    unfold run_training, setup_trainer, prepare_model_args.
    rewrite Hddp. change (0 =? 0) with true. cbv zeta iota.
    unfold mbind at 1 2 3. cbn [mret]. unfold mbind at 1.
    unfold update_ranks, mbind at 1. rewrite (dict_read_run _ d) by assumption.
    unfold dict_write, set_heap. cbn [world globs heap log].
    unfold mbind at 1. rewrite configure_main_flag_off by assumption.
    unfold adopt_policy, mbind at 1.
    erewrite dict_setitem_run by apply lookup_insert_eq.
    cbn [world globs heap log]. rewrite insert_insert_eq.
    unfold mbind at 1. erewrite dict_getitem_run by apply lookup_insert_eq.
    rewrite !lookup_insert_ne by discriminate. rewrite Hkey, Hddp. reflexivity.
  - intros Hflag Hurl.
    unfold run_training, setup_trainer, prepare_model_args.
    rewrite Hddp. change (0 =? 0) with true. cbv zeta iota.
    unfold mbind at 1 2 3. cbn [mret]. unfold mbind at 1.
    unfold update_ranks, mbind at 1. rewrite (dict_read_run _ d) by assumption.
    unfold dict_write, set_heap. cbn [world globs heap log].
    unfold mbind at 1. unfold configure_main, mbind at 1, get_globals.
    unfold mbind at 1, test. cbn [globs]. rewrite Hflag. cbn [mret].
    unfold mbind at 1. unfold create_clients, mbind at 1.
    erewrite dict_getitem_run by apply lookup_insert_eq.
    rewrite !lookup_insert_ne by discriminate. rewrite Hurl, Hddp. reflexivity.
  - intros Hrank. apply Z.eqb_neq in Hrank.
    unfold setup_trainer, prepare_model_args. rewrite Hddp, Hrank. cbv zeta iota.
    unfold mbind at 1 2. cbn [mret]. unfold mbind at 1.
    unfold update_ranks, mbind at 1. rewrite (dict_read_run _ d) by assumption.
    unfold dict_write, set_heap. cbn [world globs heap log].
    unfold mbind at 1. cbn [mret].
    erewrite pop_cloud_keys_run by apply lookup_insert_eq.
    cbn [world globs heap log]. rewrite insert_insert_eq.
    unfold mbind at 1. erewrite dict_read_run by apply lookup_insert_eq.
    unfold ext.
    match goal with
    | |- context [oracle (Trainer ?kw) ?w] => destruct (oracle (Trainer kw) w) as [o w']
    end.
    cbn [snd log]. exists (raised_of o). f_equal. f_equal. f_equal.
    unfold trainer_arguments. rewrite Hddp, Hrank. reflexivity.
Qed.

(** X19 on an empty dictionary: with the module's globals as imported, and
    in a process that an earlier run left configured for uploads. *)
Lemma missing_policy_key_raises_witness :
  fst (run_training Mock.oracle 0 0 1 0%N (VStr "./data") (VInt (-1)) (VBool false)
         (VInt 2) (VStr "default") (VInt 42) (Mock.bare Mock.quiet)) =
    Raise (Exn KeyError "upload_models") ∧
  fst (run_training Mock.oracle 0 0 1 0%N (VStr "./data") (VInt (-1)) (VBool false)
         (VInt 2) (VStr "default") (VInt 42)
         {| world := Mock.quiet; globs := Mock.policy true true 10;
            heap := {[ 0%N := ∅ ]}; log := [] |}) =
    Raise (Exn KeyError "account_url").
Proof.
  split.
  - refine (f_equal fst
              (proj1 (proj2 (missing_policy_key_raises Mock.oracle 0 1 1 0%N
                               (VStr "./data") (VInt (-1)) (VBool false) (VInt 2)
                               (VStr "default") (VInt 42) ∅ (Mock.bare Mock.quiet)
                               _ _) _) _)).
    + reflexivity.
    + reflexivity.
    + lia.
    + reflexivity.
  - refine (f_equal fst
              (proj1 (proj2 (proj2 (missing_policy_key_raises Mock.oracle 0 1 1 0%N
                               (VStr "./data") (VInt (-1)) (VBool false) (VInt 2)
                               (VStr "default") (VInt 42) ∅
                               {| world := Mock.quiet; globs := Mock.policy true true 10;
                                  heap := {[ 0%N := ∅ ]}; log := [] |}
                               _ _) _)) _ _)).
    + reflexivity.
    + reflexivity.
    + lia.
    + reflexivity.
    + reflexivity.
Defined.

(** ** Interpolation mode (lines 276-282) *)

(** X20. With [generate] off and [generate_interpolation] on, a run that
    returns has done exactly this, in this order: built the Trainer from the
    dictionary as lines 213-265 made it, loaded [load_from], read the clock
    once, called [generate_interpolation] once, under the name
    [generated-<timestamp>] and with [num_image_tiles],
    [interpolation_num_steps] and [save_frames] as passed, and printed where
    the result is; no global was assigned and no training took place. *)
Theorem interpolation_runs_once {W}
    (oracle : ∀ c : call, W → outcome (ret c) * W)
    (fuel : nat) (o : Options.t) (σ : state W) (c : completion) :
  truthy (Options.generate o) = Some false →
  truthy (Options.generate_interpolation o) = Some true →
  fst (train_from_folder oracle fuel o σ) = Ok c →
  c = Finished ∧
  globs (snd (train_from_folder oracle fuel o σ)) = globs σ ∧
  ∃ model timestamp,
    log (snd (train_from_folder oracle fuel o σ)) =
      log σ ++
      [ECall (Trainer (build_model_args o)) None;
       ECall (model_load model (Options.load_from o)) None;
       ECall timestamp_now None;
       ECall (model_generate_interpolation model ("generated-" +:+ timestamp)
                (Options.num_image_tiles o) (Options.interpolation_num_steps o)
                (Options.save_frames o)) None;
       EPrint ("interpolation generated at " +:+ py_str (Options.results_dir o)
               +:+ "/" +:+ py_str (Options.name o) +:+ "/" +:+
               "generated-" +:+ timestamp)].
Proof.
  intros Hgen Hint Hok.
  destruct (train_from_folder oracle fuel o σ) as [res σ'] eqn:Hrun.
  cbn [fst snd] in *. subst res.
  unfold train_from_folder in Hrun.
  apply bind_ok in Hrun as (l & σ0 & Hnew & Hrun).
  unfold dict_new in Hnew. injection Hnew as <- <-.
  unfold run_mode in Hrun.
  apply bind_ok in Hrun as (g & σ1 & Htest & Hrun).
  unfold test in Htest. rewrite Hgen in Htest. injection Htest as <- <-.
  apply bind_ok in Hrun as (g & σ1 & Htest & Hrun).
  unfold test in Htest. rewrite Hint in Htest. injection Htest as <- <-.
  apply bind_ok in Hrun as ([] & σg & Hrun & Hfin). injection Hfin as <- <-.
  unfold generate_interpolation in Hrun.
  apply bind_ok in Hrun as (kw & σ2 & Hread & Hrun).
  erewrite dict_read_run in Hread by apply lookup_insert_eq.
  injection Hread as <- <-.
  apply bind_ok in Hrun as (model & σ3 & Htr & Hrun). call_left Htr Hg3 Hh3 Hl3.
  unfold interpolate in Hrun.
  apply bind_ok in Hrun as ([] & σ4 & Hload & Hrun). call_left Hload Hg4 Hh4 Hl4.
  apply bind_ok in Hrun as (name & σ5 & Hts & Hrun).
  unfold timestamped_filename in Hts.
  apply bind_ok in Hts as (ts & σ5' & Hts & [= <- <-]). call_left Hts Hg5 Hh5 Hl5.
  apply bind_ok in Hrun as ([] & σ6 & Hgi & Hprint). call_left Hgi Hg6 Hh6 Hl6.
  unfold print in Hprint. injection Hprint as <-. cbn [globs log] in *.
  split; [reflexivity|]. split; [congruence|].
  exists model, ts. rewrite Hl6, Hl5, Hl4, Hl3, <- !app_assoc. reflexivity.
Qed.

Lemma interpolation_runs_once_witness :
  Finished = Finished ∧
  globs (snd (train_from_folder Mock.oracle 0 (Mock.interpolating Options.defaults)
                (Mock.start Mock.quiet))) = globs (Mock.start Mock.quiet) ∧
  ∃ model timestamp,
    log (snd (train_from_folder Mock.oracle 0 (Mock.interpolating Options.defaults)
                (Mock.start Mock.quiet))) =
      log (Mock.start Mock.quiet) ++
      [ECall (Trainer (build_model_args (Mock.interpolating Options.defaults))) None;
       ECall (model_load model (Options.load_from (Mock.interpolating Options.defaults)))
         None;
       ECall timestamp_now None;
       ECall (model_generate_interpolation model ("generated-" +:+ timestamp)
                (Options.num_image_tiles (Mock.interpolating Options.defaults))
                (Options.interpolation_num_steps (Mock.interpolating Options.defaults))
                (Options.save_frames (Mock.interpolating Options.defaults))) None;
       EPrint ("interpolation generated at " +:+
               py_str (Options.results_dir (Mock.interpolating Options.defaults))
               +:+ "/" +:+ py_str (Options.name (Mock.interpolating Options.defaults))
               +:+ "/" +:+ "generated-" +:+ timestamp)].
Proof.
  apply (interpolation_runs_once Mock.oracle 0 (Mock.interpolating Options.defaults)
           (Mock.start Mock.quiet) Finished); reflexivity.
Defined.
